(** * open_octopus: the API-access layer of the Octopus Energy client

    A shallow embedding of [src/open_octopus/client.py]: the token cache,
    the two authentication flows, GraphQL dispatch with its error
    envelope, and the normalisation of responses into display records.

    Python objects coming back from [resp.json()] are modelled by the
    type [value]; every Python operation that can raise is a function into
    [exn + _]; the methods of [OctopusClient] are computations of a state
    and exception monad [M] over the client object, the wall clock and the
    remote service.  The remote service and the clock are an oracle (a
    [World]), indexed by the number of calls made so far.

    Two idealisations are made and kept visible:
    - Python numbers ([int] and [float]) are an abstract type [num] with
      the operations the client uses (interface [PyNum]); nothing is
      assumed about them unless a statement says so.  The examples run
      on rationals (module [Sample]) or on the binary64 floats of Python
      (module [Binary64]);
    - the range limits of [datetime] (years 1 to 9999) and of [float]
      conversions are not modelled. *)

From Stdlib Require Import QArith Qabs ZArith List String Ascii Bool Lia.
From Stdlib Require Import Permutation Sorted.
From Stdlib Require Decimal DecimalString DecimalZ DecimalPos.
From Stdlib Require PrimFloat.
Import ListNotations.

Set Warnings "-register-all".
Set Warnings "-inexact-float".
Local Open Scope string_scope.
Local Open Scope Z_scope.

(** ** Python numbers, as an interface *)

Class PyNum (num : Type) : Type := {
  (** the [int] object of an integer literal or value *)
  num_int : Z -> num;
  (** the [float] object of a decimal literal [m * 10^-k] *)
  num_dec : Z -> nat -> num;
  num_add : num -> num -> num;
  num_mul : num -> num -> num;
  (** [/], true division *)
  num_truediv : num -> num -> num;
  (** [<] between numbers *)
  num_lt : num -> num -> bool;
  (** truth value: [x != 0] *)
  num_truth : num -> bool;
  (** [float(x)] of a number *)
  num_float : num -> num;
  (** [int(x)] of a number *)
  num_trunc : num -> num;
  (** [abs(x)] *)
  num_abs : num -> num
}.

(** The laws of exact arithmetic: they hold of Python's [int], and of
    [float] only up to rounding. *)
Class ExactAdd (num : Type) {N : PyNum num} : Prop := {
  num_add_assoc : forall a b c : num,
    num_add a (num_add b c) = num_add (num_add a b) c;
  num_add_comm : forall a b : num, num_add a b = num_add b a;
  num_add_0_l : forall a : num, num_add (num_int 0) a = a
}.

(** ** Python objects and exceptions *)

Section Values.
Context {num : Type} {N : PyNum num}.

(** A Python object as [json.loads] builds it.  A [VDict] lists the items
    of a dict in insertion order; lookup takes the first item of a key. *)
Inductive value : Type :=
| VNone
| VBool (b : bool)
| VNum (n : num)
| VStr (s : string)
| VList (l : list value)
| VDict (kv : list (string * value)).

(** The exceptions of [client.py] and the built-in ones its code can
    raise.  [HTTPError] stands for [httpx.HTTPError] and its subclasses
    (transport errors and [HTTPStatusError]); [ValueError] includes
    [json.JSONDecodeError]. *)
Inductive exn : Type :=
| AuthenticationError (msg : value)
| APIError (msg : value)
| ConfigurationError (msg : value)
| HTTPError
| ValueError
| KeyError
| IndexError
| TypeError
| AttributeError.

Definition res (A : Type) : Type := (exn + A)%type.

Definition res_bind {A B} (r : res A) (f : A -> res B) : res B :=
  match r with
  | inl e => inl e
  | inr a => f a
  end.

(** ** Operations on Python objects *)

Definition str_truthy (s : string) : bool :=
  match s with
  | EmptyString => false
  | _ => true
  end.

(** [bool(v)] *)
Definition truthy (v : value) : bool :=
  match v with
  | VNone => false
  | VBool b => b
  | VNum n => num_truth n
  | VStr s => str_truthy s
  | VList l => match l with [] => false | _ => true end
  | VDict kv => match kv with [] => false | _ => true end
  end.

(** [a or b] *)
Definition py_or (a b : value) : value := if truthy a then a else b.

Fixpoint assoc (k : string) (kv : list (string * value)) : option value :=
  match kv with
  | [] => None
  | (k', v) :: rest => if String.eqb k k' then Some v else assoc k rest
  end.

(** [v[k]] for a string key *)
Definition getitem (v : value) (k : string) : res value :=
  match v with
  | VDict kv =>
      match assoc k kv with
      | Some x => inr x
      | None => inl KeyError
      end
  | _ => inl TypeError
  end.

(** [v[0]] *)
Definition getfirst (v : value) : res value :=
  match v with
  | VList l =>
      match l with
      | x :: _ => inr x
      | [] => inl IndexError
      end
  | VStr s =>
      match s with
      | String c _ => inr (VStr (String c EmptyString))
      | EmptyString => inl IndexError
      end
  | VDict _ => inl KeyError
  | _ => inl TypeError
  end.

(** [v[-1]] *)
Definition getlast (v : value) : res value :=
  match v with
  | VList l =>
      match rev l with
      | x :: _ => inr x
      | [] => inl IndexError
      end
  | VStr s =>
      match rev (list_ascii_of_string s) with
      | c :: _ => inr (VStr (String c EmptyString))
      | [] => inl IndexError
      end
  | VDict _ => inl KeyError
  | _ => inl TypeError
  end.

(** [v.get(k, default)]: only a dict has the method. *)
Definition dict_get (v : value) (k : string) (default : value) : res value :=
  match v with
  | VDict kv =>
      match assoc k kv with
      | Some x => inr x
      | None => inr default
      end
  | _ => inl AttributeError
  end.

Fixpoint is_prefix (p s : string) : bool :=
  match p, s with
  | EmptyString, _ => true
  | String a p', String b s' => Ascii.eqb a b && is_prefix p' s'
  | String _ _, EmptyString => false
  end.

Fixpoint is_substring (p s : string) : bool :=
  is_prefix p s ||
  match s with
  | EmptyString => false
  | String _ s' => is_substring p s'
  end.

Definition is_str (k : string) (v : value) : bool :=
  match v with
  | VStr s => String.eqb k s
  | _ => false
  end.

(** [k in v] for a string [k]: key of a dict, element of a list,
    substring of a string; other objects are not containers. *)
Definition contains (k : string) (v : value) : res bool :=
  match v with
  | VDict kv =>
      inr (match assoc k kv with Some _ => true | None => false end)
  | VList l => inr (existsb (is_str k) l)
  | VStr s => inr (is_substring k s)
  | _ => inl TypeError
  end.

(** The objects a [for] loop over [v] visits. *)
Definition iter (v : value) : res (list value) :=
  match v with
  | VList l => inr l
  | VDict kv => inr (map (fun p => VStr (fst p)) kv)
  | VStr s =>
      inr (map (fun c => VStr (String c EmptyString)) (list_ascii_of_string s))
  | _ => inl TypeError
  end.

(** The number an object counts as in arithmetic ([bool] is an [int]). *)
Definition as_num (v : value) : option num :=
  match v with
  | VNum n => Some n
  | VBool b => Some (num_int (if b then 1 else 0))
  | _ => None
  end.

(** [v < k], [v * k] and [v / k] for a number [k], and [a + b] for a
    number [a]. *)
Definition py_lt_num (v : value) (k : num) : res bool :=
  match as_num v with
  | Some n => inr (num_lt n k)
  | None => inl TypeError
  end.

Definition py_mul_num (v : value) (k : num) : res value :=
  match as_num v with
  | Some n => inr (VNum (num_mul n k))
  | None => inl TypeError
  end.

Definition py_truediv_num (v : value) (k : num) : res value :=
  match as_num v with
  | Some n => inr (VNum (num_truediv n k))
  | None => inl TypeError
  end.

Definition py_add (a b : value) : res value :=
  match as_num a, as_num b with
  | Some x, Some y => inr (VNum (num_add x y))
  | _, _ => inl TypeError
  end.

(** [s.replace("Z", "+00:00")] *)
Fixpoint replace_Z (s : string) : string :=
  match s with
  | EmptyString => EmptyString
  | String c s' =>
      if Ascii.eqb c "Z"%char then "+00:00" ++ replace_Z s'
      else String c (replace_Z s')
  end.

(** [v.replace("Z", "+00:00")]: only a str has the method. *)
Definition py_replace_Z (v : value) : res string :=
  match v with
  | VStr s => inr (replace_Z s)
  | _ => inl AttributeError
  end.

Definition of_opt (o : option string) : value :=
  match o with
  | Some s => VStr s
  | None => VNone
  end.

Definition opt_truthy (o : option string) : bool :=
  match o with
  | Some s => str_truthy s
  | None => false
  end.

End Values.

Arguments value num : clear implicits.
Arguments exn num : clear implicits.
Arguments res num A : clear implicits.

(** ** [datetime] and [timedelta] *)

(** A [datetime]: the wall-clock reading in microseconds (counted from a
    fixed origin), and the UTC offset in microseconds of an aware value
    ([None] for a naive one). *)
Record datetime : Type := mk_datetime {
  wall : Z;
  utcoffset : option Z
}.

(** [timedelta(minutes=m)], in microseconds *)
Definition timedelta_minutes (m : Z) : Z := m * 60000000.

(** [d + delta] keeps the time zone. *)
Definition dt_add (d : datetime) (delta : Z) : datetime :=
  {| wall := wall d + delta; utcoffset := utcoffset d |}.

Definition dt_sub (d : datetime) (delta : Z) : datetime :=
  {| wall := wall d - delta; utcoffset := utcoffset d |}.

(** The instant an aware value denotes, or the wall reading of a naive
    one. *)
Definition dt_key (d : datetime) : Z :=
  match utcoffset d with
  | Some off => wall d - off
  | None => wall d
  end.

Definition is_aware (d : datetime) : bool :=
  match utcoffset d with
  | Some _ => true
  | None => false
  end.

(** ** The remote service, the clock and the library *)

Inductive AsyncClient : Type := HttpxAsyncClient.

Section Client.
Context {num : Type} {N : PyNum num}.

Local Abbreviation value := (value num).
Local Abbreviation exn := (exn num).
Local Abbreviation res := (res num).

(** [a < b] on datetimes: a naive and an aware value do not compare. *)
Definition dt_lt (a b : datetime) : res bool :=
  if Bool.eqb (is_aware a) (is_aware b)
  then inr (dt_key a <? dt_key b)
  else inl TypeError.

(** [a <= b] *)
Definition dt_le (a b : datetime) : res bool :=
  if Bool.eqb (is_aware a) (is_aware b)
  then inr (dt_key a <=? dt_key b)
  else inl TypeError.

(** The functions of the Python library whose results the client passes
    on: parsing and printing of datetimes and numbers, and the
    conversions between zones. *)
Class PyLib : Type := {
  (** [datetime.fromisoformat(s)]; [None] when it raises [ValueError] *)
  fromisoformat : string -> option datetime;
  (** [d.isoformat()] *)
  isoformat : datetime -> string;
  (** [d.strftime("%Y-%m-%d")] *)
  strftime_date : datetime -> string;
  (** [float(s)] of a string; [None] when it raises [ValueError] *)
  float_of_str : string -> option num;
  (** [int(s)] of a string; [None] when it raises [ValueError] *)
  int_of_str : string -> option num;
  (** [str(v)], as an f-string prints an object that is not a [str] *)
  py_str : value -> string;
  (** [d.strftime("%H:%M")] *)
  strftime_hm : datetime -> string;
  (** [d.replace(hour=h, minute=m, second=s)] *)
  replace_time : datetime -> Z -> Z -> Z -> datetime;
  (** [d.astimezone(tz)], the zone given by its offset and [None] for
      the local zone; a naive [d] is taken for local time *)
  astimezone : datetime -> option Z -> datetime
}.

Inductive Request : Type :=
| POST (url : string) (headers : list (string * value)) (json : value)
| GET (url : string) (params : list (string * value))
      (auth : option string * string).

(** What [resp.raise_for_status()] and [resp.json()] will do. *)
Record Response : Type := mk_Response {
  status_ok : bool;
  body : option value
}.

Inductive Outcome : Type :=
| Raises (e : exn)
| Replies (r : Response).

(** The world outside the client: the reading of the clock at the n-th
    call of [datetime.now()] (a naive datetime), and what the n-th HTTP
    call does. *)
Record World : Type := mk_World {
  clock : nat -> Z;
  server : nat -> Request -> Outcome
}.

(** ** The client object *)

Record OctopusClient : Type := mk_OctopusClient {
  region : string;
  email : option string;
  password : option string;
  api_key : option string;
  account : value;
  mpan : option string;
  meter_serial : option string;
  gas_mprn : option string;
  gas_meter_serial : option string;
  _token : value;
  _refresh_token : value;
  _token_expires : option datetime;
  _http : option AsyncClient;
  _graphql_url : string
}.

Definition GRAPHQL_URLS : list (string * string) :=
  [ ("uk", "https://api.octopus.energy/v1/graphql/");
    ("japan", "https://api.oejp-kraken.energy/v1/graphql/") ].

Definition REST_API_URL : string := "https://api.octopus.energy/v1".

Fixpoint urls_get (k : string) (d : list (string * string)) (default : string)
  : string :=
  match d with
  | [] => default
  | (k', u) :: rest => if String.eqb k k' then u else urls_get k rest default
  end.

Definition GRAPHQL_URL : string := urls_get "japan" GRAPHQL_URLS "".

Definition __init__ (email password api_key account : option string)
  (region : string) (mpan meter_serial gas_mprn gas_meter_serial : option string)
  : OctopusClient :=
  {| region := region;
     email := email;
     password := password;
     api_key := api_key;
     account := of_opt account;
     mpan := mpan;
     meter_serial := meter_serial;
     gas_mprn := gas_mprn;
     gas_meter_serial := gas_meter_serial;
     _token := VNone;
     _refresh_token := VNone;
     _token_expires := None;
     _http := None;
     _graphql_url :=
       urls_get region GRAPHQL_URLS (urls_get "japan" GRAPHQL_URLS "") |}.

Definition is_japan (c : OctopusClient) : bool := String.eqb (region c) "japan".

Definition set_account (v : value) (c : OctopusClient) : OctopusClient :=
  mk_OctopusClient (region c) (email c) (password c) (api_key c) v (mpan c)
    (meter_serial c) (gas_mprn c) (gas_meter_serial c) (_token c)
    (_refresh_token c) (_token_expires c) (_http c) (_graphql_url c).

Definition set_token (v : value) (c : OctopusClient) : OctopusClient :=
  mk_OctopusClient (region c) (email c) (password c) (api_key c) (account c)
    (mpan c) (meter_serial c) (gas_mprn c) (gas_meter_serial c) v
    (_refresh_token c) (_token_expires c) (_http c) (_graphql_url c).

Definition set_refresh_token (v : value) (c : OctopusClient) : OctopusClient :=
  mk_OctopusClient (region c) (email c) (password c) (api_key c) (account c)
    (mpan c) (meter_serial c) (gas_mprn c) (gas_meter_serial c) (_token c)
    v (_token_expires c) (_http c) (_graphql_url c).

Definition set_token_expires (e : option datetime) (c : OctopusClient)
  : OctopusClient :=
  mk_OctopusClient (region c) (email c) (password c) (api_key c) (account c)
    (mpan c) (meter_serial c) (gas_mprn c) (gas_meter_serial c) (_token c)
    (_refresh_token c) e (_http c) (_graphql_url c).

Definition set_http (h : option AsyncClient) (c : OctopusClient)
  : OctopusClient :=
  mk_OctopusClient (region c) (email c) (password c) (api_key c) (account c)
    (mpan c) (meter_serial c) (gas_mprn c) (gas_meter_serial c) (_token c)
    (_refresh_token c) (_token_expires c) h (_graphql_url c).

(** ** The monad of the client's methods *)

(** The state a method runs in: the client object, how many times the
    clock was read and how many HTTP calls were made, and the requests
    sent so far (latest first). *)
Record St : Type := mk_St {
  self : OctopusClient;
  ticks : nat;
  calls : nat;
  sent : list Request
}.

Definition M (A : Type) : Type := St -> res A * St.

Definition ret {A} (a : A) : M A := fun s => (inr a, s).

Definition raise {A} (e : exn) : M A := fun s => (inl e, s).

Definition bind {A B} (m : M A) (f : A -> M B) : M B :=
  fun s =>
    match m s with
    | (inr a, s') => f a s'
    | (inl e, s') => (inl e, s')
    end.

Definition lift {A} (r : res A) : M A := fun s => (r, s).

(** [try: m except <classes>: h], the handler chosen by [caught]. *)
Definition try_except {A} (m : M A) (caught : exn -> bool) (h : M A) : M A :=
  fun s =>
    match m s with
    | (inr a, s') => (inr a, s')
    | (inl e, s') => if caught e then h s' else (inl e, s')
    end.

Definition get_self : M OctopusClient := fun s => (inr (self s), s).

Definition modify_self (f : OctopusClient -> OctopusClient) : M unit :=
  fun s => (inr tt, mk_St (f (self s)) (ticks s) (calls s) (sent s)).

End Client.

Arguments PyLib num : clear implicits.
Arguments Request num : clear implicits.
Arguments Response num : clear implicits.
Arguments Outcome num : clear implicits.
Arguments World num : clear implicits.
Arguments OctopusClient num : clear implicits.
Arguments St num : clear implicits.
Arguments M num A : clear implicits.

Declare Scope py_scope.
Delimit Scope py_scope with py.
Notation "x <- m ;; k" := (bind m (fun x => k))
  (at level 61, m at next level, right associativity) : py_scope.
Notation "m ;; k" := (bind m (fun _ => k))
  (at level 61, right associativity) : py_scope.

(** ** Display records *)

(** Modelled from the spec: the display records of [models.py], which is
    not among the sources.  The spec calls them "a handful of display
    records"; each is taken as a plain record of the keyword arguments
    [client.py] builds it from, holding the objects it is given.  A field
    the constructor call leaves out is [None] here. *)
Record Account (num : Type) : Type := mk_Account {
  number : value num;
  balance : value num;
  name : value num;
  status : value num;
  address : value num
}.

Record Consumption (num : Type) : Type := mk_Consumption {
  start : datetime;
  end_ : datetime;
  kwh : value num;
  cost_estimate : option (value num)
}.

Record GasConsumption (num : Type) : Type := mk_GasConsumption {
  gas_start : datetime;
  gas_end : datetime;
  gas_kwh : value num;
  m3 : value num
}.

Record Tariff (num : Type) : Type := mk_Tariff {
  tariff_name : value num;
  product_code : value num;
  standing_charge : value num;
  rates : list (string * value num);
  off_peak_rate : value num;
  peak_rate : value num;
  off_peak_start : string;
  off_peak_end : string
}.

Record GasTariff (num : Type) : Type := mk_GasTariff {
  gas_tariff_name : value num;
  gas_product_code : value num;
  gas_standing_charge : value num;
  unit_rate : value num
}.

Record SmartDevice (num : Type) : Type := mk_SmartDevice {
  device_id : value num;
  provider : value num;
  device_status : value num
}.

Record Rate (num : Type) : Type := mk_Rate {
  rate : value num;
  is_off_peak : bool;
  period_end : datetime;
  next_rate : value num
}.

Record Dispatch : Type := mk_Dispatch {
  dispatch_start : datetime;
  dispatch_end : datetime;
  source : string
}.

Record DispatchStatus : Type := mk_DispatchStatus {
  is_dispatching : bool;
  current_dispatch : option Dispatch;
  next_dispatch : option Dispatch
}.

Record SavingSession (num : Type) : Type := mk_SavingSession {
  code : value num;
  session_start : datetime;
  session_end : datetime;
  reward_per_kwh : value num
}.

Record LivePower (num : Type) : Type := mk_LivePower {
  demand_watts : value num;
  read_at : datetime;
  consumption_kwh : value num
}.

(** The dict of three items, "start", "end" and "kwh", that
    [get_completed_dispatches] builds for a session. *)
Record CompletedDispatch (num : Type) : Type := mk_CompletedDispatch {
  completed_start : datetime;
  completed_end : datetime;
  completed_kwh : value num
}.

Arguments mk_Rate {num}.
Arguments rate {num}.
Arguments is_off_peak {num}.
Arguments period_end {num}.
Arguments next_rate {num}.
Arguments mk_SavingSession {num}.
Arguments code {num}.
Arguments session_start {num}.
Arguments session_end {num}.
Arguments reward_per_kwh {num}.
Arguments mk_LivePower {num}.
Arguments demand_watts {num}.
Arguments read_at {num}.
Arguments consumption_kwh {num}.
Arguments mk_CompletedDispatch {num}.
Arguments completed_start {num}.
Arguments completed_end {num}.
Arguments completed_kwh {num}.
Arguments mk_Account {num}.
Arguments number {num}.
Arguments balance {num}.
Arguments name {num}.
Arguments status {num}.
Arguments address {num}.
Arguments mk_Consumption {num}.
Arguments start {num}.
Arguments end_ {num}.
Arguments kwh {num}.
Arguments cost_estimate {num}.
Arguments mk_GasConsumption {num}.
Arguments gas_start {num}.
Arguments gas_end {num}.
Arguments gas_kwh {num}.
Arguments m3 {num}.
Arguments mk_Tariff {num}.
Arguments tariff_name {num}.
Arguments product_code {num}.
Arguments standing_charge {num}.
Arguments rates {num}.
Arguments off_peak_rate {num}.
Arguments peak_rate {num}.
Arguments off_peak_start {num}.
Arguments off_peak_end {num}.
Arguments mk_GasTariff {num}.
Arguments gas_tariff_name {num}.
Arguments gas_product_code {num}.
Arguments gas_standing_charge {num}.
Arguments unit_rate {num}.
Arguments mk_SmartDevice {num}.
Arguments device_id {num}.
Arguments provider {num}.
Arguments device_status {num}.

(** ** The methods of [OctopusClient] *)

Section Methods.
Context {num : Type} {N : PyNum num} {L : PyLib num}.
Variable W : World num.

Local Abbreviation value := (value num).
Local Abbreviation exn := (exn num).
Local Abbreviation res := (res num).
Local Abbreviation Request := (Request num).
Local Abbreviation Response := (Response num).
Local Abbreviation OctopusClient := (OctopusClient num).
Local Abbreviation St := (St num).
Local Abbreviation M := (M num).
Local Open Scope py_scope.

(** [datetime.now()]: the next reading of the clock, a naive datetime. *)
Definition now : M datetime :=
  fun s =>
    (inr {| wall := clock W (ticks s); utcoffset := None |},
     mk_St (self s) (S (ticks s)) (calls s) (sent s)).

(** One HTTP call: the request is sent, and the service decides. *)
Definition http_send (r : Request) : M Response :=
  fun s =>
    let s' := mk_St (self s) (ticks s) (S (calls s)) (r :: sent s) in
    match server W (calls s) r with
    | Raises e => (inl e, s')
    | Replies resp => (inr resp, s')
    end.

(** [resp.raise_for_status()] and [resp.json()] *)
Definition raise_for_status (resp : Response) : res unit :=
  if status_ok resp then inr tt else inl HTTPError.

Definition json_of (resp : Response) : res value :=
  match body resp with
  | Some v => inr v
  | None => inl ValueError
  end.

Definition _get_http : M AsyncClient :=
  c <- get_self ;;
  match _http c with
  | Some h => ret h
  | None =>
      modify_self (set_http (Some HttpxAsyncClient)) ;;
      ret HttpxAsyncClient
  end.

Definition __aenter__ : M unit :=
  modify_self (set_http (Some HttpxAsyncClient)).

Definition __aexit__ : M unit :=
  c <- get_self ;;
  match _http c with
  | Some _ => modify_self (set_http None)
  | None => ret tt
  end.

Definition OBTAIN_TOKEN_JAPAN : string :=
  "mutation obtainKrakenToken($input: ObtainJSONWebTokenInput!) { obtainKrakenToken(input: $input) { token refreshToken } }".

Definition OBTAIN_TOKEN_UK : string :=
  "mutation ObtainToken($key: String!) { obtainKrakenToken(input: {APIKey: $key}) { token } }".

(** The condition of the first [if] of [_get_token]; [and] evaluates its
    operands from the left and reads the clock only when it gets there. *)
Definition token_is_fresh : M bool :=
  c <- get_self ;;
  if truthy (_token c) then
    match _token_expires c with
    | Some expires => t <- now ;; lift (dt_lt t expires)
    | None => ret false
    end
  else ret false.

(** The variables of the Japan mutation. *)
Definition japan_variables (c : OctopusClient) : res value :=
  if truthy (_refresh_token c) then
    inr (VDict [("input", VDict [("refreshToken", _refresh_token c)])])
  else if opt_truthy (email c) && opt_truthy (password c) then
    inr (VDict [("input", VDict [("email", of_opt (email c));
                                 ("password", of_opt (password c))])])
  else
    inl (AuthenticationError
           (VStr "Japan region requires email and password")).

(** The request for a new token, by region; it is not built when the
    credentials of the region are missing. *)
Definition token_request (c : OctopusClient) : res Request :=
  if is_japan c then
    res_bind (japan_variables c) (fun variables =>
    inr (POST (_graphql_url c) []
           (VDict [("query", VStr OBTAIN_TOKEN_JAPAN);
                   ("variables", variables)])))
  else
    if negb (opt_truthy (api_key c)) then
      inl (AuthenticationError (VStr "UK region requires API key"))
    else
      inr (POST (_graphql_url c) []
             (VDict [("query", VStr OBTAIN_TOKEN_UK);
                     ("variables", VDict [("key", of_opt (api_key c))])])).

(** The error envelope of a parsed response body:
    [if "errors" in data: raise E(data["errors"][0]["message"])], and
    [data["data"]] otherwise. *)
Definition unwrap_envelope (E : value -> exn) (data : value) : res value :=
  res_bind (contains "errors" data) (fun has_errors =>
  if has_errors then
    res_bind (getitem data "errors") (fun errors =>
    res_bind (getfirst errors) (fun first =>
    res_bind (getitem first "message") (fun message =>
    inl (E message))))
  else getitem data "data").

(** [_get_token] from [resp.raise_for_status()] on: the response is
    read and, when it carries a token, the token is stored with its
    expiry. *)
Definition store_token (resp : Response) : M value :=
  lift (raise_for_status resp) ;;
  data <- lift (json_of resp) ;;
  d <- lift (unwrap_envelope AuthenticationError data) ;;
  token_data <- lift (getitem d "obtainKrakenToken") ;;
  token <- lift (getitem token_data "token") ;;
  modify_self (set_token token) ;;
  has_refresh <- lift (contains "refreshToken" token_data) ;;
  (if has_refresh then
     refresh <- lift (getitem token_data "refreshToken") ;;
     modify_self (set_refresh_token refresh)
   else ret tt) ;;
  t <- now ;;
  modify_self (set_token_expires (Some (dt_add t (timedelta_minutes 55)))) ;;
  c' <- get_self ;;
  ret (_token c').

(** [_get_token] past its first [if]: a new token is requested. *)
Definition acquire_token : M value :=
  _ <- _get_http ;;
  c <- get_self ;;
  req <- lift (token_request c) ;;
  resp <- http_send req ;;
  store_token resp.

Definition _get_token : M value :=
  fresh <- token_is_fresh ;;
  if fresh then c <- get_self ;; ret (_token c)
  else acquire_token.

(** [variables or {}] *)
Definition variables_or_empty (variables : value) : value :=
  py_or variables (VDict []).

(** The request [_graphql] posts. *)
Definition graphql_request (c : OctopusClient) (token : value)
  (query : string) (variables : value) : Request :=
  POST (_graphql_url c) [("Authorization", token)]
    (VDict [("query", VStr query);
            ("variables", variables_or_empty variables)]).

Definition _graphql (query : string) (variables : value) : M value :=
  token <- _get_token ;;
  _ <- _get_http ;;
  c <- get_self ;;
  resp <- http_send (graphql_request c token query variables) ;;
  lift (raise_for_status resp) ;;
  data <- lift (json_of resp) ;;
  lift (unwrap_envelope APIError data).

(** *** Account and billing *)

Definition ACCOUNT_VIEWER : string :=
  "query accountViewer { viewer { accounts { number } } }".

Definition GET_ACCOUNT : string :=
  "query GetAccount($account: String!) { account(accountNumber: $account) { balance billingName status properties { address } } }".

Definition _ensure_account : M value :=
  c <- get_self ;;
  if truthy (account c) then ret (account c)
  else if is_japan c then
    data <- _graphql ACCOUNT_VIEWER VNone ;;
    viewer <- lift (dict_get data "viewer" (VDict [])) ;;
    accounts <- lift (dict_get viewer "accounts" (VList [])) ;;
    if truthy accounts then
      first <- lift (getfirst accounts) ;;
      n <- lift (getitem first "number") ;;
      modify_self (set_account n) ;;
      c' <- get_self ;;
      ret (account c')
    else raise (ConfigurationError (VStr "No account found for this user"))
  else raise (ConfigurationError (VStr "Account number required for UK region")).

(** The [address] argument of [get_account]. *)
Definition first_address (acc : value) : res value :=
  res_bind (dict_get acc "properties" VNone) (fun props =>
  if truthy props then
    res_bind (getitem acc "properties") (fun ps =>
    res_bind (getfirst ps) (fun p => getitem p "address"))
  else inr (VStr "")).

Definition get_account : M (Account num) :=
  account_number <- _ensure_account ;;
  data <- _graphql GET_ACCOUNT (VDict [("account", account_number)]) ;;
  acc <- lift (getitem data "account") ;;
  c <- get_self ;;
  balance <- (if is_japan c then lift (getitem acc "balance")
              else b <- lift (getitem acc "balance") ;;
                   lift (py_truediv_num b (num_int 100))) ;;
  billing_name <- lift (getitem acc "billingName") ;;
  st <- lift (getitem acc "status") ;;
  addr <- lift (first_address acc) ;;
  ret (mk_Account account_number balance (py_or billing_name (VStr ""))
         (py_or st (VStr "")) addr).

(** *** Consumption *)

Definition HALF_HOURLY_READINGS : string :=
  "query halfHourlyReadings($accountNumber: String!, $fromDatetime: DateTime, $toDatetime: DateTime) { account(accountNumber: $accountNumber) { properties { electricitySupplyPoints { status halfHourlyReadings(fromDatetime: $fromDatetime, toDatetime: $toDatetime) { startAt value costEstimate } } } } }".

(** [datetime.fromisoformat(v.replace("Z", "+00:00"))] *)
Definition parse_datetime (v : value) : res datetime :=
  res_bind (py_replace_Z v) (fun s =>
  match fromisoformat s with
  | Some d => inr d
  | None => inl ValueError
  end).

(** [float(v)] *)
Definition py_float (v : value) : res value :=
  match v with
  | VNum n => inr (VNum (num_float n))
  | VBool b => inr (VNum (num_float (num_int (if b then 1 else 0))))
  | VStr s =>
      match float_of_str s with
      | Some x => inr (VNum x)
      | None => inl ValueError
      end
  | _ => inl TypeError
  end.

(** The body of the [try] of [_get_consumption_japan], for one reading. *)
Definition japan_reading (r : value) : res (Consumption num) :=
  res_bind (getitem r "startAt") (fun sa =>
  res_bind (parse_datetime sa) (fun start_at =>
  let end_at := dt_add start_at (timedelta_minutes 30) in
  res_bind (getitem r "value") (fun v =>
  res_bind (py_float v) (fun k =>
  res_bind (dict_get r "costEstimate" VNone) (fun ce =>
  res_bind (py_float (py_or ce (VNum (num_int 0)))) (fun cost =>
  inr (mk_Consumption start_at end_at k (Some cost)))))))).

(** [except (ValueError, KeyError, TypeError)] *)
Definition caught_parse (e : exn) : bool :=
  match e with
  | ValueError | KeyError | TypeError => true
  | _ => false
  end.

(** One turn of the innermost loop: the reading is appended, or skipped
    ([continue]) when its [try] raises one of the caught exceptions; any
    other exception leaves the loop. *)
Definition japan_step (r : value) : res (list (Consumption num)) :=
  match japan_reading r with
  | inr c => inr [c]
  | inl e => if caught_parse e then inr [] else inl e
  end.

(** A loop that appends to one list: the items of each turn, in order. *)
Fixpoint for_each {A B} (f : A -> res (list B)) (l : list A) : res (list B) :=
  match l with
  | [] => inr []
  | x :: rest =>
      res_bind (f x) (fun ys =>
      res_bind (for_each f rest) (fun zs => inr (ys ++ zs)%list))
  end.

(** The three nested loops of [_get_consumption_japan], over the
    properties, their supply points and the readings of each; [step] is
    one turn of the innermost loop. *)
Definition walk_supply_point {B} (step : value -> res (list B)) (sp : value)
  : res (list B) :=
  res_bind (dict_get sp "halfHourlyReadings" (VList [])) (fun rs =>
  res_bind (iter rs) (for_each step)).

Definition walk_property {B} (step : value -> res (list B)) (prop : value)
  : res (list B) :=
  res_bind (dict_get prop "electricitySupplyPoints" (VList [])) (fun sps =>
  res_bind (iter sps) (for_each (walk_supply_point step))).

Definition walk_account {B} (step : value -> res (list B)) (data : value)
  : res (list B) :=
  res_bind (dict_get data "account" (VDict [])) (fun acc =>
  res_bind (dict_get acc "properties" (VList [])) (fun props =>
  res_bind (iter props) (for_each (walk_property step)))).

Definition japan_readings (data : value) : res (list (Consumption num)) :=
  walk_account japan_step data.

(** [sorted(l, key=...)] on datetime keys.  The sort is stable and
    compares keys with [<] only.  Sorting compares a naive key with an
    aware one as soon as the list holds both, and that comparison raises;
    otherwise the keys are ordered by [dt_key]. *)
Fixpoint insert_by {A} (key : A -> datetime) (x : A) (l : list A) : list A :=
  match l with
  | [] => [x]
  | y :: rest =>
      if dt_key (key y) <? dt_key (key x) then y :: insert_by key x rest
      else x :: y :: rest
  end.

Fixpoint sort_by {A} (key : A -> datetime) (l : list A) : list A :=
  match l with
  | [] => []
  | x :: rest => insert_by key x (sort_by key rest)
  end.

Definition comparable (ds : list datetime) : bool :=
  match ds with
  | [] => true
  | d :: rest => forallb (fun d' => Bool.eqb (is_aware d') (is_aware d)) rest
  end.

Definition py_sorted {A} (key : A -> datetime) (l : list A) : res (list A) :=
  if comparable (map key l) then inr (sort_by key l) else inl TypeError.

(** The first half of [_get_consumption_japan]: the account, the window
    (by default the last [periods] half hours) and the query. *)
Definition half_hourly_query (periods : Z)
  (start_arg end_arg : option datetime) : M value :=
  account_number <- _ensure_account ;;
  end_at <- match end_arg with
            | Some e => ret e
            | None => now
            end ;;
  let start_at :=
    match start_arg with
    | Some b => b
    | None => dt_sub end_at (timedelta_minutes (30 * periods))
    end in
  _graphql HALF_HOURLY_READINGS
    (VDict [("accountNumber", account_number);
            ("fromDatetime", VStr (isoformat start_at));
            ("toDatetime", VStr (isoformat end_at))]).

Definition _get_consumption_japan (periods : Z)
  (start_arg end_arg : option datetime) : M (list (Consumption num)) :=
  data <- half_hourly_query periods start_arg end_arg ;;
  readings <- lift (japan_readings data) ;;
  lift (py_sorted start readings).

(** The parameters of a REST consumption query. *)
Definition consumption_params (periods : Z) (start_arg end_arg : option datetime)
  : list (string * value) :=
  ([("page_size", VNum (num_int periods))]
   ++ match start_arg with
      | Some b => [("period_from", VStr (isoformat b))]
      | None => []
      end
   ++ match end_arg with
      | Some e => [("period_to", VStr (isoformat e))]
      | None => []
      end)%list.

Definition uk_reading (r : value) : res (Consumption num) :=
  res_bind (getitem r "interval_start") (fun a =>
  res_bind (parse_datetime a) (fun start_at =>
  res_bind (getitem r "interval_end") (fun b =>
  res_bind (parse_datetime b) (fun end_at =>
  res_bind (getitem r "consumption") (fun k =>
  inr (mk_Consumption start_at end_at k None)))))).

(** A list comprehension: any exception leaves it. *)
Fixpoint map_res {A B} (f : A -> res B) (l : list A) : res (list B) :=
  match l with
  | [] => inr []
  | x :: rest =>
      res_bind (f x) (fun y =>
      res_bind (map_res f rest) (fun ys => inr (y :: ys)))
  end.

Definition opt_str (o : option string) : string :=
  match o with
  | Some s => s
  | None => "None"
  end.

(** The REST request for the readings of a meter; [kind] is
    "/electricity-meter-points/" or "/gas-meter-points/". *)
Definition consumption_request (kind : string) (point serial : option string)
  (c : OctopusClient) (periods : Z) (start_arg end_arg : option datetime)
  : Request :=
  GET (REST_API_URL ++ kind ++ opt_str point ++ "/meters/"
         ++ opt_str serial ++ "/consumption/")
    (consumption_params periods start_arg end_arg) (api_key c, "").

Definition _get_consumption_uk (periods : Z)
  (start_arg end_arg : option datetime) : M (list (Consumption num)) :=
  c <- get_self ;;
  if negb (opt_truthy (mpan c)) || negb (opt_truthy (meter_serial c)) then
    raise (ConfigurationError
             (VStr "MPAN and meter serial required for UK consumption data"))
  else
    _ <- _get_http ;;
    resp <- http_send
              (consumption_request "/electricity-meter-points/" (mpan c)
                 (meter_serial c) c periods start_arg end_arg) ;;
    lift (raise_for_status resp) ;;
    data <- lift (json_of resp) ;;
    results <- lift (dict_get data "results" (VList [])) ;;
    rs <- lift (iter results) ;;
    lift (map_res uk_reading rs).

Definition get_consumption (periods : Z) (start_arg end_arg : option datetime)
  : M (list (Consumption num)) :=
  c <- get_self ;;
  if is_japan c then _get_consumption_japan periods start_arg end_arg
  else _get_consumption_uk periods start_arg end_arg.

(** [d[k] = v] on a dict: the item of [k] is replaced where it stands, a
    new key is appended. *)
Fixpoint dict_set (k : string) (v : value) (d : list (string * value))
  : list (string * value) :=
  match d with
  | [] => [(k, v)]
  | (k', v') :: rest =>
      if String.eqb k k' then (k, v) :: rest
      else (k', v') :: dict_set k v rest
  end.

(** [daily[day] = daily.get(day, 0) + kwh] *)
Definition add_to_day (daily : list (string * value)) (day : string)
  (k : value) : res (list (string * value)) :=
  let so_far :=
    match assoc day daily with
    | Some x => x
    | None => VNum (num_int 0)
    end in
  res_bind (py_add so_far k) (fun total => inr (dict_set day total daily)).

(** The loop of [get_daily_usage] and of [get_daily_gas_usage]. *)
Fixpoint daily_loop {A} (day_of : A -> string) (kwh_of : A -> value)
  (l : list A) (daily : list (string * value)) : res (list (string * value)) :=
  match l with
  | [] => inr daily
  | c :: rest =>
      res_bind (add_to_day daily (day_of c) (kwh_of c))
        (daily_loop day_of kwh_of rest)
  end.

Definition get_daily_usage (days : Z) : M (list (string * value)) :=
  consumption <- get_consumption (days * 48) None None ;;
  lift (daily_loop (fun c => strftime_date (start c)) kwh consumption []).

(** *** Gas consumption *)

(** [M3_TO_KWH = 11.1868] *)
Definition M3_TO_KWH : num := num_dec 111868 4.

(** One turn of the loop of [get_gas_consumption]. *)
Definition gas_reading (r : value) : res (GasConsumption num) :=
  res_bind (getitem r "consumption") (fun consumption =>
  res_bind (py_lt_num consumption (num_int 10)) (fun small =>
  res_bind (if small
            then res_bind (py_mul_num consumption M3_TO_KWH)
                   (fun k => inr (k, consumption))
            else inr (consumption, VNone)) (fun km =>
  res_bind (getitem r "interval_start") (fun a =>
  res_bind (parse_datetime a) (fun start_at =>
  res_bind (getitem r "interval_end") (fun b =>
  res_bind (parse_datetime b) (fun end_at =>
  inr (mk_GasConsumption start_at end_at (fst km) (snd km))))))))).

Definition get_gas_consumption (periods : Z)
  (start_arg end_arg : option datetime) : M (list (GasConsumption num)) :=
  c <- get_self ;;
  if negb (opt_truthy (gas_mprn c)) || negb (opt_truthy (gas_meter_serial c))
  then
    raise (ConfigurationError
             (VStr "gas_mprn and gas_meter_serial required for gas data"))
  else
    _ <- _get_http ;;
    resp <- http_send
              (consumption_request "/gas-meter-points/" (gas_mprn c)
                 (gas_meter_serial c) c periods start_arg end_arg) ;;
    lift (raise_for_status resp) ;;
    data <- lift (json_of resp) ;;
    results <- lift (dict_get data "results" (VList [])) ;;
    rs <- lift (iter results) ;;
    lift (map_res gas_reading rs).

Definition get_daily_gas_usage (days : Z) : M (list (string * value)) :=
  consumption <- get_gas_consumption (days * 48) None None ;;
  lift (daily_loop (fun c => strftime_date (gas_start c)) gas_kwh
          consumption []).

(** *** Tariffs *)

Definition GET_GAS_TARIFF : string :=
  "query GetGasTariff($account: String!) { account(accountNumber: $account) { gasAgreements(active: true) { tariff { ... on StandardTariff { displayName productCode standingCharge } } } } }".

Definition GET_TARIFF : string :=
  "query GetTariff($account: String!) { account(accountNumber: $account) { electricityAgreements(active: true) { tariff { ... on HalfHourlyTariff { displayName productCode standingCharge } ... on StandardTariff { displayName productCode standingCharge } } } } }".

(** What an f-string prints for an object. *)
Definition format_value (v : value) : string :=
  match v with
  | VStr s => s
  | _ => py_str v
  end.

(** [except httpx.HTTPError] *)
Definition caught_http (e : exn) : bool :=
  match e with
  | HTTPError => true
  | _ => false
  end.

(** The REST request for the unit rates of a tariff; [kind] is
    "/gas-tariffs/" or "/electricity-tariffs/". *)
Definition unit_rates_request (kind : string) (page_size : Z)
  (c : OctopusClient) (product_code : value) (tariff_code : string)
  : Request :=
  GET (REST_API_URL ++ "/products/" ++ format_value product_code
         ++ kind ++ tariff_code ++ "/standard-unit-rates/")
    [("page_size", VNum (num_int page_size))] (api_key c, "").

(** The [try] of [get_gas_tariff]. *)
Definition fetch_gas_unit_rate (c : OctopusClient) (product_code : value)
  (tariff_code : string) : M value :=
  resp <- http_send
            (unit_rates_request "/gas-tariffs/" 1 c product_code tariff_code) ;;
  lift (raise_for_status resp) ;;
  rates_data <- lift (json_of resp) ;;
  results <- lift (dict_get rates_data "results" (VList [VDict []])) ;;
  first <- lift (getfirst results) ;;
  lift (dict_get first "value_inc_vat" (VNum (num_int 0))).

Definition get_gas_tariff (region_code : string) : M (option (GasTariff num)) :=
  c <- get_self ;;
  data <- _graphql GET_GAS_TARIFF (VDict [("account", account c)]) ;;
  acc <- lift (dict_get data "account" (VDict [])) ;;
  agreements <- lift (dict_get acc "gasAgreements" (VList [])) ;;
  if negb (truthy agreements) then ret None
  else
    agreement <- lift (getfirst agreements) ;;
    tariff_data <- lift (dict_get agreement "tariff" (VDict [])) ;;
    product_code <- lift (dict_get tariff_data "productCode" (VStr "")) ;;
    _ <- _get_http ;;
    let tariff_code :=
      "G-1R-" ++ format_value product_code ++ "-" ++ region_code in
    c' <- get_self ;;
    unit_rate <- try_except (fetch_gas_unit_rate c' product_code tariff_code)
                   caught_http (ret (VNum (num_int 0))) ;;
    display_name <- lift (dict_get tariff_data "displayName" (VStr "Unknown")) ;;
    charge <- lift (dict_get tariff_data "standingCharge" (VNum (num_int 0))) ;;
    ret (Some (mk_GasTariff display_name product_code charge unit_rate)).

(** The [try] of [get_tariff]. *)
Definition fetch_unit_rates (c : OctopusClient) (product_code : value)
  (tariff_code : string) : M value :=
  resp <- http_send
            (unit_rates_request "/electricity-tariffs/" 10 c product_code
               tariff_code) ;;
  lift (raise_for_status resp) ;;
  lift (json_of resp).

(** The objects [for rate in v[:4]] visits; only sequences take a slice
    (a dict raises [TypeError], and [KeyError] from Python 3.12 on). *)
Definition first_four (v : value) : res (list value) :=
  match v with
  | VList l => inr (firstn 4 l)
  | VStr s =>
      inr (map (fun ch => VStr (String ch EmptyString))
             (firstn 4 (list_ascii_of_string s)))
  | _ => inl TypeError
  end.

(** The loop that parses rates: the state is [rates], [off_peak_rate] and
    [peak_rate]. *)
Definition rates_state : Type := (list (string * value) * value * value)%type.

Definition rate_step (st : rates_state) (rate : value) : res rates_state :=
  let '(rates, off_peak, peak) := st in
  res_bind (dict_get rate "value_inc_vat" (VNum (num_int 0))) (fun val =>
  res_bind (py_lt_num val (num_int 15)) (fun cheap =>
  if cheap then inr (dict_set "off_peak" val rates, val, peak)
  else inr (dict_set "peak" val rates, off_peak, val))).

Fixpoint rates_loop (l : list value) (st : rates_state) : res rates_state :=
  match l with
  | [] => inr st
  | rate :: rest => res_bind (rate_step st rate) (rates_loop rest)
  end.

Definition get_tariff (region_code : string) : M (option (Tariff num)) :=
  c <- get_self ;;
  data <- _graphql GET_TARIFF (VDict [("account", account c)]) ;;
  acc <- lift (dict_get data "account" (VDict [])) ;;
  agreements <- lift (dict_get acc "electricityAgreements" (VList [])) ;;
  if negb (truthy agreements) then ret None
  else
    agreement <- lift (getfirst agreements) ;;
    tariff_data <- lift (dict_get agreement "tariff" (VDict [])) ;;
    product_code <- lift (dict_get tariff_data "productCode" (VStr "")) ;;
    _ <- _get_http ;;
    let tariff_code :=
      "E-1R-" ++ format_value product_code ++ "-" ++ region_code in
    c' <- get_self ;;
    rates_data <- try_except (fetch_unit_rates c' product_code tariff_code)
                    caught_http (ret (VDict [("results", VList [])])) ;;
    results <- lift (dict_get rates_data "results" (VList [])) ;;
    four <- lift (first_four results) ;;
    st <- lift (rates_loop four ([], VNone, VNone)) ;;
    let '(rates, off_peak, peak) := st in
    display_name <- lift (dict_get tariff_data "displayName" (VStr "Unknown")) ;;
    charge <- lift (dict_get tariff_data "standingCharge" (VNum (num_int 0))) ;;
    ret (Some (mk_Tariff display_name product_code charge rates off_peak peak
                 "23:30" "05:30")).

(** *** Smart devices *)

Definition GET_DEVICES : string :=
  "query GetDevices($account: String!) { registeredKrakenflexDevice(accountNumber: $account) { krakenflexDeviceId provider status } }".

Definition DISCOVER_DEVICES : string :=
  "query DiscoverDevices($account: String!) { account(accountNumber: $account) { properties { electricityMeterPoints { meters { smartDevices { deviceId } } } } } }".

Definition get_smart_devices : M (list (SmartDevice num)) :=
  c <- get_self ;;
  data <- _graphql GET_DEVICES (VDict [("account", account c)]) ;;
  device <- lift (dict_get data "registeredKrakenflexDevice" VNone) ;;
  if truthy device then
    id <- lift (getitem device "krakenflexDeviceId") ;;
    p <- lift (getitem device "provider") ;;
    st <- lift (dict_get device "status" (VStr "ACTIVE")) ;;
    ret [mk_SmartDevice id p st]
  else ret [].

(** A loop left by [return] at the first turn that finds something. *)
Fixpoint find_first {A} (f : A -> res (option value)) (l : list A)
  : res (option value) :=
  match l with
  | [] => inr None
  | x :: rest =>
      res_bind (f x) (fun found =>
      match found with
      | Some v => inr (Some v)
      | None => find_first f rest
      end)
  end.

Definition device_of (device : value) : res (option value) :=
  res_bind (dict_get device "deviceId" VNone) (fun id =>
  if truthy id then res_bind (getitem device "deviceId") (fun v => inr (Some v))
  else inr None).

Definition meter_device (meter : value) : res (option value) :=
  res_bind (dict_get meter "smartDevices" (VList [])) (fun ds =>
  res_bind (iter ds) (find_first device_of)).

Definition meter_point_device (mp : value) : res (option value) :=
  res_bind (dict_get mp "meters" (VList [])) (fun ms =>
  res_bind (iter ms) (find_first meter_device)).

Definition property_device (prop : value) : res (option value) :=
  res_bind (dict_get prop "electricityMeterPoints" (VList [])) (fun mps =>
  res_bind (iter mps) (find_first meter_point_device)).

(** [except (KeyError, TypeError): pass] *)
Definition caught_discover (e : exn) : bool :=
  match e with
  | KeyError | TypeError => true
  | _ => false
  end.

Definition discover_in (data : value) : res (option value) :=
  match
    res_bind (getitem data "account") (fun acc =>
    res_bind (getitem acc "properties") (fun props =>
    res_bind (iter props) (find_first property_device)))
  with
  | inr found => inr found
  | inl e => if caught_discover e then inr None else inl e
  end.

Definition _discover_meter_device : M (option value) :=
  c <- get_self ;;
  data <- _graphql DISCOVER_DEVICES (VDict [("account", account c)]) ;;
  lift (discover_in data).

(** *** The current rate *)

Definition get_current_rate (tariff : Tariff num) : M (Rate num) :=
  t <- now ;;
  let current_time := strftime_hm t in
  let late := String.leb "23:30" current_time in
  let off_peak := late || String.ltb current_time "05:30" in
  if off_peak then
    let ends :=
      if late then replace_time (dt_add t (timedelta_minutes 1440)) 5 30 0
      else replace_time t 5 30 0 in
    ret (mk_Rate (py_or (off_peak_rate tariff) (VNum (num_dec 70 1))) true
           ends (py_or (peak_rate tariff) (VNum (num_dec 300 1))))
  else
    let ends := replace_time t 23 30 0 in
    passed <- lift (dt_le ends t) ;;
    ret (mk_Rate (py_or (peak_rate tariff) (VNum (num_dec 300 1))) false
           (if passed then dt_add ends (timedelta_minutes 1440) else ends)
           (py_or (off_peak_rate tariff) (VNum (num_dec 70 1)))).

(** *** Dispatches *)

Definition GET_DISPATCHES : string :=
  "query GetDispatches($account: String!) { plannedDispatches(accountNumber: $account) { start end delta } }".

Definition GET_COMPLETED_DISPATCHES : string :=
  "query GetCompletedDispatches($account: String!) { completedDispatches(accountNumber: $account) { start end delta } }".

(** [except (ValueError, KeyError)] *)
Definition caught_value_key (e : exn) : bool :=
  match e with
  | ValueError | KeyError => true
  | _ => false
  end.

(** A turn of a loop whose body is a [try] that appends, with
    [continue] in its handler. *)
Definition try_append {A B} (body : A -> res (list B)) (caught : exn -> bool)
  (x : A) : res (list B) :=
  match body x with
  | inr ys => inr ys
  | inl e => if caught e then inr [] else inl e
  end.

Definition dispatch_of (d : value) : res (list Dispatch) :=
  res_bind (getitem d "start") (fun a =>
  res_bind (parse_datetime a) (fun start_at =>
  res_bind (getitem d "end") (fun b =>
  res_bind (parse_datetime b) (fun end_at =>
  inr [mk_Dispatch start_at end_at "smart-charge"])))).

Definition get_dispatches : M (list Dispatch) :=
  c <- get_self ;;
  data <- _graphql GET_DISPATCHES (VDict [("account", account c)]) ;;
  planned <- lift (dict_get data "plannedDispatches" VNone) ;;
  ds <- lift (iter (py_or planned (VList []))) ;;
  dispatches <- lift (for_each (try_append dispatch_of caught_value_key) ds) ;;
  lift (py_sorted dispatch_start dispatches).

(** One turn of the loop of [get_dispatch_status]; the state is
    [current] and [next_dispatch]. *)
Definition status_step (t : datetime)
  (st : option Dispatch * option Dispatch) (d : Dispatch)
  : res (option Dispatch * option Dispatch) :=
  let now_tz := astimezone t (utcoffset (dispatch_start d)) in
  res_bind (dt_le (dispatch_start d) now_tz) (fun started =>
  res_bind (if started then dt_le now_tz (dispatch_end d) else inr false)
    (fun running =>
  if running then inr (Some d, snd st)
  else
    res_bind (dt_lt now_tz (dispatch_start d)) (fun later =>
    match snd st with
    | None => if later then inr (fst st, Some d) else inr st
    | Some _ => inr st
    end))).

Fixpoint status_loop (t : datetime) (l : list Dispatch)
  (st : option Dispatch * option Dispatch)
  : res (option Dispatch * option Dispatch) :=
  match l with
  | [] => inr st
  | d :: rest => res_bind (status_step t st d) (status_loop t rest)
  end.

Definition get_dispatch_status : M DispatchStatus :=
  dispatches <- get_dispatches ;;
  t <- now ;;
  st <- lift (status_loop t dispatches (None, None)) ;;
  ret (mk_DispatchStatus
         (match fst st with Some _ => true | None => false end)
         (fst st) (snd st)).

(** [abs(v)] *)
Definition py_abs (v : value) : res value :=
  match as_num v with
  | Some n => inr (VNum (num_abs n))
  | None => inl TypeError
  end.

Definition completed_of (d : value) : res (list (CompletedDispatch num)) :=
  res_bind (getitem d "start") (fun a =>
  res_bind (parse_datetime a) (fun start_at =>
  res_bind (getitem d "end") (fun b =>
  res_bind (parse_datetime b) (fun end_at =>
  res_bind (dict_get d "delta" (VNum (num_int 0))) (fun delta =>
  res_bind (py_float delta) (fun f =>
  res_bind (py_abs f) (fun k =>
  inr [mk_CompletedDispatch start_at end_at k]))))))).

(** [sorted(l, key=..., reverse=True)]: descending, items of equal keys
    in the order they came. *)
Definition py_sorted_reverse {A} (key : A -> datetime) (l : list A)
  : res (list A) :=
  if comparable (map key l) then inr (rev (sort_by key (rev l)))
  else inl TypeError.

(** [l[:n]] *)
Definition slice_to {A} (n : Z) (l : list A) : list A :=
  if 0 <=? n then firstn (Z.to_nat n) l
  else firstn (List.length l - Z.to_nat (- n)) l.

Definition get_completed_dispatches (limit : Z)
  : M (list (CompletedDispatch num)) :=
  c <- get_self ;;
  data <- _graphql GET_COMPLETED_DISPATCHES (VDict [("account", account c)]) ;;
  completed <- lift (dict_get data "completedDispatches" VNone) ;;
  ds <- lift (iter (py_or completed (VList []))) ;;
  sessions <- lift (for_each (try_append completed_of caught_value_key) ds) ;;
  sorted <- lift (py_sorted_reverse completed_start sessions) ;;
  ret (slice_to limit sorted).

(** *** Saving sessions *)

Definition GET_SAVING_SESSIONS : string :=
  "query GetSavingSessions($account: String!) { savingSessions(accountNumber: $account) { events { code startAt endAt rewardPerKwhInOctoPoints } } }".

(** [d.replace(tzinfo=None)] *)
Definition drop_zone (d : datetime) : datetime :=
  {| wall := wall d; utcoffset := None |}.

(** The body of the [try] of [get_saving_sessions]: an event that has
    ended is left out. *)
Definition session_of (t : datetime) (e : value)
  : res (list (SavingSession num)) :=
  res_bind (getitem e "startAt") (fun a =>
  res_bind (parse_datetime a) (fun start_at =>
  res_bind (getitem e "endAt") (fun b =>
  res_bind (parse_datetime b) (fun end_at =>
  res_bind (dt_lt t (drop_zone end_at)) (fun upcoming =>
  if upcoming then
    res_bind (dict_get e "code" (VStr "")) (fun c =>
    res_bind (dict_get e "rewardPerKwhInOctoPoints" (VNum (num_int 0)))
      (fun reward =>
    inr [mk_SavingSession c start_at end_at reward]))
  else inr []))))).

Definition get_saving_sessions : M (list (SavingSession num)) :=
  c <- get_self ;;
  data <- _graphql GET_SAVING_SESSIONS (VDict [("account", account c)]) ;;
  t <- now ;;
  saving <- lift (dict_get data "savingSessions" (VDict [])) ;;
  events <- lift (dict_get saving "events" (VList [])) ;;
  es <- lift (iter (py_or events (VList []))) ;;
  sessions <- lift (for_each (try_append (session_of t) caught_value_key) es) ;;
  lift (py_sorted session_start sessions).

(** *** Live power *)

Definition GET_TELEMETRY : string :=
  "query GetTelemetry($deviceId: String!, $start: DateTime!, $end: DateTime!) { smartMeterTelemetry( deviceId: $deviceId grouping: HALF_HOURLY start: $start end: $end ) { readAt demand consumption } }".

(** [int(v)] *)
Definition py_int (v : value) : res value :=
  match v with
  | VNum n => inr (VNum (num_trunc n))
  | VBool b => inr (VNum (num_int (if b then 1 else 0)))
  | VStr s =>
      match int_of_str s with
      | Some x => inr (VNum x)
      | None => inl ValueError
      end
  | _ => inl TypeError
  end.

(** The body of the [try] of [get_live_power]. *)
Definition live_power_of (latest : value) : res (LivePower num) :=
  res_bind (dict_get latest "demand" VNone) (fun demand =>
  res_bind (py_int (py_or demand (VNum (num_int 0)))) (fun watts =>
  res_bind (getitem latest "readAt") (fun a =>
  res_bind (parse_datetime a) (fun at_ =>
  res_bind (dict_get latest "consumption" VNone) (fun k =>
  inr (mk_LivePower watts at_ k)))))).

(** [get_live_power] once the device is known. *)
Definition live_power_for (device : value) : M (option (LivePower num)) :=
  end_at <- now ;;
  let start_at := dt_sub end_at (timedelta_minutes 30) in
  data <- _graphql GET_TELEMETRY
            (VDict [("deviceId", device);
                    ("start", VStr (isoformat start_at ++ "Z"));
                    ("end", VStr (isoformat end_at ++ "Z"))]) ;;
  raw <- lift (dict_get data "smartMeterTelemetry" VNone) ;;
  let telemetry := py_or raw (VList []) in
  if negb (truthy telemetry) then ret None
  else
    latest <- lift (getlast telemetry) ;;
    match live_power_of latest with
    | inr p => ret (Some p)
    | inl e => if caught_value_key e then ret None else raise e
    end.

Definition get_live_power (device_id : value) : M (option (LivePower num)) :=
  if negb (truthy device_id) then
    found <- _discover_meter_device ;;
    match found with
    | Some device =>
        if negb (truthy device) then ret None else live_power_for device
    | None => ret None
    end
  else live_power_for device_id.

(** *** The operations, as one type *)

Inductive Operation : Type :=
| Enter
| Exit
| GetToken
| Graphql (query : string) (variables : value)
| EnsureAccount
| GetAccount
| GetConsumption (periods : Z) (start_arg end_arg : option datetime)
| GetDailyUsage (days : Z)
| GetGasConsumption (periods : Z) (start_arg end_arg : option datetime)
| GetDailyGasUsage (days : Z)
| GetGasTariff (region_code : string)
| GetTariff (region_code : string)
| GetCurrentRate (tariff : Tariff num)
| GetDispatches
| GetDispatchStatus
| GetCompletedDispatches (limit : Z)
| GetSavingSessions
| GetLivePower (device_id : value)
| GetSmartDevices
| DiscoverMeterDevice.

Definition discard {A} (m : M A) : M unit := _ <- m ;; ret tt.

(** An operation run for its effect on the client and on the world. *)
Definition perform (o : Operation) : M unit :=
  match o with
  | Enter => __aenter__
  | Exit => __aexit__
  | GetToken => discard _get_token
  | Graphql q v => discard (_graphql q v)
  | EnsureAccount => discard _ensure_account
  | GetAccount => discard get_account
  | GetConsumption p a b => discard (get_consumption p a b)
  | GetDailyUsage d => discard (get_daily_usage d)
  | GetGasConsumption p a b => discard (get_gas_consumption p a b)
  | GetDailyGasUsage d => discard (get_daily_gas_usage d)
  | GetGasTariff r => discard (get_gas_tariff r)
  | GetTariff r => discard (get_tariff r)
  | GetCurrentRate t => discard (get_current_rate t)
  | GetDispatches => discard get_dispatches
  | GetDispatchStatus => discard get_dispatch_status
  | GetCompletedDispatches n => discard (get_completed_dispatches n)
  | GetSavingSessions => discard get_saving_sessions
  | GetLivePower d => discard (get_live_power d)
  | GetSmartDevices => discard get_smart_devices
  | DiscoverMeterDevice => discard _discover_meter_device
  end.

End Methods.

(** * The command line: [cli.py] *)

Section Cli.
Context {num : Type}.

Local Abbreviation OctopusClient := (OctopusClient num).

(** [typer.Exit(code)] *)
Inductive TyperExit : Type := typer_Exit (code : Z).

(** What [get_client] prints when the variables are not set, one string
    for each call of [console.print]. *)
Definition NOT_SET : list string :=
  [ "[red]Error:[/] OCTOPUS_API_KEY and OCTOPUS_ACCOUNT must be set";
    String (ascii_of_nat 10) "Set environment variables:";
    "  export OCTOPUS_API_KEY='sk_live_xxx'";
    "  export OCTOPUS_ACCOUNT='A-XXXXXXXX'" ].

(** [get_client()], with [os.environ.get] as [environ]: what is printed,
    and the exit raised or the client returned.  The call
    [OctopusClient(api_key, account, mpan, meter_serial)] passes its four
    arguments by position, to the first four parameters of the
    constructor; the others take their defaults. *)
Definition get_client (environ : string -> option string)
  : list string * (TyperExit + OctopusClient) :=
  let api_key := environ "OCTOPUS_API_KEY" in
  let account := environ "OCTOPUS_ACCOUNT" in
  let mpan := environ "OCTOPUS_MPAN" in
  let meter_serial := environ "OCTOPUS_METER_SERIAL" in
  if negb (opt_truthy api_key) || negb (opt_truthy account) then
    (NOT_SET, inl (typer_Exit 1))
  else
    ([], inr (__init__ api_key account mpan meter_serial "japan"
                None None None None)).

(** [str(n)] of an [int], as an f-string prints it. *)
Definition str_of_int (n : Z) : string :=
  DecimalString.NilZero.string_of_int (Z.to_int n).

(** [format_time_delta] of [tui]: seconds as "Xh Ym". *)
Definition format_time_delta (seconds : Z) : string :=
  if seconds <=? 0 then "now"
  else
    let hours := seconds / 3600 in
    let mins := (seconds mod 3600) / 60 in
    if 0 <? hours then str_of_int hours ++ "h " ++ str_of_int mins ++ "m"
    else str_of_int mins ++ "m".

End Cli.

(** ** Notions the statements use *)

Section Notions.
Context {num : Type} {N : PyNum num}.

Local Abbreviation value := (value num).
Local Abbreviation exn := (exn num).
Local Abbreviation res := (res num).
Local Abbreviation OctopusClient := (OctopusClient num).
Local Abbreviation St := (St num).
Local Abbreviation M := (M num).
Local Abbreviation Request := (Request num).

(** The configuration of a client: what the constructor is given, and the
    endpoint it derives. *)
Definition config (c : OctopusClient) :=
  (region c, email c, password c, api_key c, mpan c, meter_serial c,
   gas_mprn c, gas_meter_serial c, _graphql_url c).

(** The cache of a client: what it keeps of earlier responses. *)
Definition cache (c : OctopusClient) :=
  (_token c, _refresh_token c, _token_expires c, account c).

(** Two clients that differ at most in the HTTP handle. *)
Definition same_but_http (c c' : OctopusClient) : Prop :=
  set_http None c = set_http None c'.

(** The recorded expiry, when there is one, is a naive datetime. *)
Definition expiry_naive (c : OctopusClient) : Prop :=
  match _token_expires c with
  | Some e => utcoffset e = None
  | None => True
  end.

Definition naive_kept (s s' : St) : Prop :=
  expiry_naive (self s) -> expiry_naive (self s').

(** The state once the clock has been read. *)
Definition tick (s : St) : St :=
  mk_St (self s) (S (ticks s)) (calls s) (sent s).

(** The state once the HTTP handle exists. *)
Definition with_http (s : St) : St :=
  match _http (self s) with
  | Some _ => s
  | None =>
      mk_St (set_http (Some HttpxAsyncClient) (self s)) (ticks s) (calls s)
        (sent s)
  end.

(** The state once a request has been sent. *)
Definition after_send (r : Request) (s : St) : St :=
  mk_St (self s) (ticks s) (S (calls s)) (r :: sent s).

(** A computation every run of which relates the state before to the
    state after. *)
Definition keeps (R : St -> St -> Prop) {A} (m : M A) : Prop :=
  forall s, R s (snd (m s)).

Definition same_config (s s' : St) : Prop :=
  config (self s') = config (self s).

Definition is_post_to (url : string) (r : Request) : Prop :=
  match r with
  | POST u _ _ => u = url
  | GET _ _ _ => False
  end.

(** The requests made between two states are all POSTs to the endpoint
    of the client, which stays what it is. *)
Definition posts_to_endpoint (s s' : St) : Prop :=
  _graphql_url (self s') = _graphql_url (self s) /\
  exists new, sent s' = (new ++ sent s)%list /\
              Forall (is_post_to (_graphql_url (self s))) new.

(** *** The token cache *)

Variable W : World num.

(** The reading [datetime.now()] returns in state [s]. *)
Definition reading (s : St) : datetime :=
  {| wall := clock W (ticks s); utcoffset := None |}.

(** A token is present and the clock reads strictly before the recorded
    expiry. *)
Definition token_usable (s : St) : bool :=
  truthy (_token (self s)) &&
  match _token_expires (self s) with
  | Some e => clock W (ticks s) <? wall e
  | None => false
  end.

(** The state after the first [if] of [_get_token]: the clock was read
    when the first two operands of the condition were true. *)
Definition after_check (s : St) : St :=
  if truthy (_token (self s)) then
    match _token_expires (self s) with
    | Some _ => tick s
    | None => s
    end
  else s.

(** The state after the operations [os], run one after the other from
    state [s]; an operation that raises leaves the state it reached. *)
Definition session {L : PyLib num} (os : list Operation) (s : St) : St :=
  fold_left (fun s0 o => snd (perform W o s0)) os s.

(** *** Tariffs *)

(** The GraphQL half of [get_tariff] and [get_gas_tariff] found an
    agreement: its tariff is [tariff_data], with product code
    [product_code]. *)
Definition tariff_lookup {L : PyLib num} (query key : string) (s s1 : St)
  (tariff_data product_code : value) : Prop :=
  exists data acc agreements agreement,
    _graphql W query (VDict [("account", account (self s))]) s
      = (inr data, s1) /\
    dict_get data "account" (VDict []) = inr acc /\
    dict_get acc key (VList []) = inr agreements /\
    truthy agreements = true /\
    getfirst agreements = inr agreement /\
    dict_get agreement "tariff" (VDict []) = inr tariff_data /\
    dict_get tariff_data "productCode" (VStr "") = inr product_code.

(** The [n]-th HTTP call, of [req], fails with an HTTP error: in
    transport, or by the status of the reply. *)
Definition rest_fails (n : nat) (req : Request) : Prop :=
  server W n req = Raises HTTPError \/
  exists resp, server W n req = Replies resp /\ status_ok resp = false.

(** *** Half-hourly readings *)

(** The raw readings of a reply, in the order the loops visit them. *)
Definition raw_readings (data : value) : res (list value) :=
  walk_account (fun r => inr [r]) data.

(** The "startAt" of a reading, when it has one, is a string. *)
Definition start_is_str (r : value) : Prop :=
  forall sa, getitem r "startAt" = inr sa -> exists str, sa = VStr str.

(** The record of a reading that parses; nothing for one that does
    not. *)
Definition parsed {L : PyLib num} (r : value) : list (Consumption num) :=
  match japan_reading r with
  | inr c => [c]
  | inl _ => []
  end.

(** No reading stands after one that starts strictly later. *)
Definition ascending_by_start (l : list (Consumption num)) : Prop :=
  StronglySorted
    (fun c d => dt_lt (num := num) (start d) (start c) = inr false) l.

Definition half_hour_long (c : Consumption num) : Prop :=
  end_ c = dt_add (start c) (timedelta_minutes 30).

(** *** Daily totals *)

(** The number an object stands for in a sum ([0] for what is none). *)
Definition num_of (v : value) : num :=
  match as_num v with
  | Some x => x
  | None => num_int 0
  end.

(** [sum(l)]: the numbers added from the left, starting from [0]. *)
Definition sum_nums (l : list num) : num := fold_left num_add l (num_int 0).

(** The sum of the values of a dict. *)
Definition values_sum (d : list (string * value)) : num :=
  sum_nums (map (fun kv => num_of (snd kv)) d).

(** Every value of the dict is a number. *)
Definition all_num (d : list (string * value)) : Prop :=
  Forall (fun kv => exists x, snd kv = VNum x) d.

(** The total of a day so far: what the dict holds for it, or [0]. *)
Definition so_far (k : string) (d : list (string * value)) : num :=
  match assoc k d with
  | Some v => num_of v
  | None => num_int 0
  end.

(** The date a reading starts on, as [get_daily_usage] prints it. *)
Definition day_of {L : PyLib num} (c : Consumption num) : string :=
  strftime_date (start c).

(** The readings that start on the date [d], in the order fetched. *)
Definition readings_on {L : PyLib num} (d : string)
  (cs : list (Consumption num)) : list (Consumption num) :=
  filter (fun c => String.eqb d (day_of c)) cs.

Definition kwh_sum (cs : list (Consumption num)) : num :=
  sum_nums (map (fun c => num_of (kwh c)) cs).

Definition numeric_kwh (c : Consumption num) : Prop :=
  exists x, as_num (kwh c) = Some x.

(** *** Gas readings *)

(** A raw reading with a numeric consumption and an interval that
    parses. *)
Definition gas_row_ok {L : PyLib num} (r : value) : Prop :=
  (exists v, getitem r "consumption" = inr (VNum v)) /\
  (exists a da,
     getitem r "interval_start" = inr a /\ parse_datetime a = inr da) /\
  (exists b db,
     getitem r "interval_end" = inr b /\ parse_datetime b = inr db).

(** The record [g] holds the raw value [v] of [r] by its magnitude: as
    cubic metres, converted, when [v < 10], and as kWh otherwise. *)
Definition classified (r : value) (g : GasConsumption num) : Prop :=
  exists v,
    getitem r "consumption" = inr (VNum v) /\
    if num_lt v (num_int 10)
    then gas_kwh g = VNum (num_mul v M3_TO_KWH) /\ m3 g = VNum v
    else gas_kwh g = VNum v /\ m3 g = VNone.

(** The REST API answers the request of [get_gas_consumption] with the
    raw readings [rs]. *)
Definition gas_reply {L : PyLib num} (s : St) (periods : Z)
  (start_arg end_arg : option datetime) (rs : list value) : Prop :=
  opt_truthy (gas_mprn (self s)) = true /\
  opt_truthy (gas_meter_serial (self s)) = true /\
  exists resp data,
    server W (calls s)
      (consumption_request "/gas-meter-points/" (gas_mprn (self s))
         (gas_meter_serial (self s)) (self s) periods start_arg end_arg)
      = Replies resp /\
    status_ok resp = true /\ body resp = Some data /\
    dict_get data "results" (VList []) = inr (VList rs).

(** *** The error envelope *)

(** The body has an "errors" field whose first entry has message [m]. *)
Definition first_error_message (data m : value) : Prop :=
  exists errors first,
    getitem data "errors" = inr errors /\
    getfirst errors = inr first /\
    getitem first "message" = inr m.

(** A body in the response format of GraphQL: an object whose "errors"
    field, when present, is a list that is not empty, of objects with a
    "message"; and which has a "data" field when it has no errors. *)
Definition graphql_response (data : value) : Prop :=
  exists kv,
    data = VDict kv /\
    (forall errors,
       assoc "errors" kv = Some errors ->
       exists first rest m,
         errors = VList (first :: rest) /\ getitem first "message" = inr m) /\
    (assoc "errors" kv = None -> exists d, assoc "data" kv = Some d).

(** [data] is the parsed body of the reply to the query that
    [_graphql q v] posts from state [s]. *)
Definition graphql_reply {L : PyLib num} (s : St) (q : string) (v data : value)
  : Prop :=
  exists token s1 resp,
    _get_token W s = (inr token, s1) /\
    server W (calls s1) (graphql_request (self s1) token q v) = Replies resp /\
    status_ok resp = true /\ body resp = Some data.

(** [data] is the parsed body of the reply to the token request that
    [_get_token] sends from state [s]. *)
Definition token_reply (s : St) (data : value) : Prop :=
  expiry_naive (self s) /\ token_usable s = false /\
  exists req resp,
    token_request (self s) = inr req /\
    server W (calls s) req = Replies resp /\
    status_ok resp = true /\ body resp = Some data.

(** *** Unit rates *)

(** The price of a rate of the REST reply: [rate.get("value_inc_vat", 0)]. *)
Definition rate_value (rate : value) : res value :=
  dict_get rate "value_inc_vat" (VNum (num_int 0)).

(** A price under 15 counts as off-peak. *)
Definition is_cheap (val : value) : bool :=
  match as_num val with
  | Some n => num_lt n (num_int 15)
  | None => false
  end.

Definition is_dear (val : value) : bool := negb (is_cheap val).

(** The last object of a list that satisfies [p]. *)
Definition last_where (p : value -> bool) (l : list value) : option value :=
  find p (rev l).

Definition or_none (o : option value) : value :=
  match o with
  | Some v => v
  | None => VNone
  end.

(** *** Decimal strings *)

Definition is_digit (c : ascii) : bool :=
  let n := nat_of_ascii c in (48 <=? n)%nat && (n <=? 57)%nat.

Fixpoint all_digits (s : string) : bool :=
  match s with
  | EmptyString => true
  | String c s' => is_digit c && all_digits s'
  end.

(** *** Where requests go *)

(** A request of the client [c]: a POST to its GraphQL endpoint, or a GET
    under the REST API that authenticates with its API key and an empty
    password. *)
Definition goes_to_api (c : OctopusClient) (r : Request) : Prop :=
  match r with
  | POST u _ _ => u = _graphql_url c
  | GET u _ a => is_prefix REST_API_URL u = true /\ a = (api_key c, "")
  end.

(** Between two states the configuration is kept and every request made
    is one of the client. *)
Definition traffic (s s' : St) : Prop :=
  config (self s') = config (self s) /\
  exists new, sent s' = (new ++ sent s)%list /\
              Forall (goes_to_api (self s)) new.

(** *** Dispatches and sessions *)

(** No record stands after one that starts strictly later, and the
    reverse. *)
Definition ascending {A} (key : A -> datetime) (l : list A) : Prop :=
  StronglySorted (fun c d => dt_lt (num := num) (key d) (key c) = inr false) l.

Definition descending {A} (key : A -> datetime) (l : list A) : Prop :=
  StronglySorted (fun c d => dt_lt (num := num) (key c) (key d) = inr false) l.

(** A raw dispatch is an object whose "start" and "end", when it has
    them, are strings. *)
Definition times_are_str (d : value) : Prop :=
  (exists kv, d = VDict kv) /\
  (forall v, getitem d "start" = inr v -> exists str, v = VStr str) /\
  (forall v, getitem d "end" = inr v -> exists str, v = VStr str).

(** The dispatch of a raw dispatch that parses; nothing for one that
    does not. *)
Definition planned {L : PyLib num} (d : value) : list Dispatch :=
  match dispatch_of d with
  | inr ds => ds
  | inl _ => []
  end.

(** The session of a raw completed dispatch that parses; nothing for one
    that does not. *)
Definition completed {L : PyLib num} (d : value)
  : list (CompletedDispatch num) :=
  match completed_of d with
  | inr cs => cs
  | inl _ => []
  end.

(** The "delta" of a raw dispatch, when it has one, is a number or a
    string. *)
Definition delta_is_plain (d : value) : Prop :=
  forall v, dict_get d "delta" (VNum (num_int 0)) = inr v ->
            (exists x, v = VNum x) \/ (exists str, v = VStr str).

(** The items of the list an object holds under [key]; none when it
    holds nothing there. *)
Definition children (key : string) (d : value) : list value :=
  match dict_get d key (VList []) with
  | inr (VList l) => l
  | _ => []
  end.

(** [device.get("deviceId")] *)
Definition id_of (device : value) : value :=
  match dict_get device "deviceId" VNone with
  | inr v => v
  | inl _ => VNone
  end.

(** The device ids of the properties [props], in the order of the reply:
    property by property, meter point by meter point, meter by meter. *)
Definition device_ids (props : list value) : list value :=
  flat_map (fun prop =>
    flat_map (fun mp =>
      flat_map (fun meter => map id_of (children "smartDevices" meter))
        (children "meters" mp))
      (children "electricityMeterPoints" prop)) props.

(** An object that holds under [key] a list, or nothing. *)
Definition lists_under (key : string) (d : value) : Prop :=
  exists kv, d = VDict kv /\
             forall v, assoc key kv = Some v -> exists l, v = VList l.

(** Properties as the query asks for them: objects, with lists of
    objects below. *)
Definition devices_tree (props : list value) : Prop :=
  Forall (fun prop =>
    lists_under "electricityMeterPoints" prop /\
    Forall (fun mp =>
      lists_under "meters" mp /\
      Forall (fun meter =>
        lists_under "smartDevices" meter /\
        Forall (fun device => exists kv, device = VDict kv)
          (children "smartDevices" meter))
        (children "meters" mp))
      (children "electricityMeterPoints" prop)) props.

(** The dispatch [d] is under way at the instant [i]. *)
Definition covers (d : Dispatch) (i : Z) : Prop :=
  dt_key (dispatch_start d) <= i <= dt_key (dispatch_end d).

Definition starts_after (d : Dispatch) (i : Z) : Prop :=
  i < dt_key (dispatch_start d).

(** *** The time of day *)

(** The minute of the day of a wall-clock reading in microseconds. *)
Definition minute_of_day (t : Z) : Z := (t / 60000000) mod 1440.

(** The second of the day of a wall-clock reading. *)
Definition second_of_day (t : Z) : Z := (t / 1000000) mod 86400.

(** From 23:30 to 05:30. *)
Definition in_off_peak_hours (t : Z) : bool :=
  (1410 <=? minute_of_day t) || (minute_of_day t <? 330).

(** The REST API answers the [n]-th call, of [req], with the parsed body
    [data]. *)
Definition rest_reply (n : nat) (req : Request) (data : value) : Prop :=
  exists resp,
    server W n req = Replies resp /\
    status_ok resp = true /\ body resp = Some data.

End Notions.

(** * A library and worlds to run the client in *)

(** The numbers of the examples are the rationals: Python's [int], and
    [float] without rounding.  The library reads and prints datetimes in
    the one format [YYYY-MM-DDTHH:MM:SS], with or without an offset
    [+HH:MM], and reads decimal numbers. *)
Module Sample.

Definition Q_lt (x y : Q) : bool := negb (Qle_bool y x).

#[export] Instance QNum : PyNum Q := {|
  num_int := inject_Z;
  num_dec := fun m k => Qmake m (Z.to_pos (10 ^ Z.of_nat k));
  num_add := Qplus;
  num_mul := Qmult;
  num_truediv := Qdiv;
  num_lt := Q_lt;
  num_truth := fun x => negb (Qeq_bool x (inject_Z 0));
  num_float := fun x => x;
  num_trunc := fun x => inject_Z (Z.quot (Qnum x) (Zpos (Qden x)));
  num_abs := Qabs
|}.

Definition digit (c : ascii) : option Z :=
  let n := Z.of_nat (nat_of_ascii c) in
  if (48 <=? n) && (n <=? 57) then Some (n - 48) else None.

Fixpoint digits (cs : list ascii) (acc : Z) : option Z :=
  match cs with
  | [] => Some acc
  | c :: rest =>
      match digit c with
      | Some d => digits rest (10 * acc + d)
      | None => None
      end
  end.

(** A field of [len] digits at position [from]. *)
Definition field (from len : nat) (cs : list ascii) : option Z :=
  let f := firstn len (skipn from cs) in
  if Nat.eqb (List.length f) len then digits f 0 else None.

Definition is_char (n : nat) (c : ascii) (cs : list ascii) : bool :=
  match nth_error cs n with
  | Some c' => Ascii.eqb c c'
  | None => false
  end.

Definition is_leap (y : Z) : bool :=
  ((y mod 4 =? 0) && negb (y mod 100 =? 0)) || (y mod 400 =? 0).

Definition days_in_month (y m : Z) : Z :=
  if m =? 2 then (if is_leap y then 29 else 28)
  else if (m =? 4) || (m =? 6) || (m =? 9) || (m =? 11) then 30
  else 31.

(** Days from 1970-01-01 to a date of the proleptic Gregorian calendar,
    and back. *)
Definition days_from_civil (y m d : Z) : Z :=
  let y' := if m <=? 2 then y - 1 else y in
  let era := y' / 400 in
  let yoe := y' - era * 400 in
  let doy := (153 * (if 2 <? m then m - 3 else m + 9) + 2) / 5 + d - 1 in
  let doe := yoe * 365 + yoe / 4 - yoe / 100 + doy in
  era * 146097 + doe - 719468.

Definition civil_from_days (z : Z) : Z * Z * Z :=
  let z' := z + 719468 in
  let era := z' / 146097 in
  let doe := z' - era * 146097 in
  let yoe := (doe - doe / 1460 + doe / 36524 - doe / 146096) / 365 in
  let doy := doe - (365 * yoe + yoe / 4 - yoe / 100) in
  let mp := (5 * doy + 2) / 153 in
  let d := doy - (153 * mp + 2) / 5 + 1 in
  let m := if mp <? 10 then mp + 3 else mp - 9 in
  (yoe + era * 400 + (if m <=? 2 then 1 else 0), m, d).

Definition offset_of (cs : list ascii) : option (option Z) :=
  match cs with
  | [] => Some None
  | sign :: _ =>
      match field 1 2 cs, field 4 2 cs with
      | Some h, Some m =>
          if is_char 3 ":" cs && Nat.eqb (List.length cs) 6
             && (h <? 24) && (m <? 60)
          then
            let off := (h * 3600 + m * 60) * 1000000 in
            if Ascii.eqb sign "+" then Some (Some off)
            else if Ascii.eqb sign "-" then Some (Some (- off))
            else None
          else None
      | _, _ => None
      end
  end.

Definition read_iso (s : string) : option datetime :=
  let cs := list_ascii_of_string s in
  match field 0 4 cs, field 5 2 cs, field 8 2 cs,
        field 11 2 cs, field 14 2 cs, field 17 2 cs with
  | Some y, Some mo, Some d, Some h, Some mi, Some se =>
      if is_char 4 "-" cs && is_char 7 "-" cs && is_char 10 "T" cs
         && is_char 13 ":" cs && is_char 16 ":" cs
         && (1 <=? y) && (1 <=? mo) && (mo <=? 12)
         && (1 <=? d) && (d <=? days_in_month y mo)
         && (h <? 24) && (mi <? 60) && (se <? 60)
      then
        match offset_of (skipn 19 cs) with
        | Some off =>
            Some {| wall := (days_from_civil y mo d * 86400
                             + h * 3600 + mi * 60 + se) * 1000000;
                    utcoffset := off |}
        | None => None
        end
      else None
  | _, _, _, _, _, _ => None
  end.

(** [z] in [w] decimal digits. *)
Fixpoint pad (w : nat) (z : Z) : string :=
  match w with
  | O => ""
  | S w' =>
      pad w' (z / 10)
        ++ String (ascii_of_nat (48 + Z.to_nat (z mod 10))) ""
  end.

Definition print_date (d : datetime) : string :=
  let '(y, m, dd) := civil_from_days (wall d / 86400000000) in
  pad 4 y ++ "-" ++ pad 2 m ++ "-" ++ pad 2 dd.

Definition print_offset (o : option Z) : string :=
  match o with
  | None => ""
  | Some off =>
      let a := Z.abs off / 1000000 in
      (if off <? 0 then "-" else "+")
        ++ pad 2 (a / 3600) ++ ":" ++ pad 2 (a / 60 mod 60)
  end.

Definition print_iso (d : datetime) : string :=
  let secs := wall d / 1000000 mod 86400 in
  print_date d ++ "T" ++ pad 2 (secs / 3600) ++ ":"
    ++ pad 2 (secs / 60 mod 60) ++ ":" ++ pad 2 (secs mod 60)
    ++ print_offset (utcoffset d).

Fixpoint split_dot (cs : list ascii) : list ascii * option (list ascii) :=
  match cs with
  | [] => ([], None)
  | c :: rest =>
      if Ascii.eqb c "." then ([], Some rest)
      else let '(a, b) := split_dot rest in (c :: a, b)
  end.

Definition unsigned (cs : list ascii) : option Q :=
  match split_dot cs with
  | ([], _) => None
  | (ip, None) =>
      match digits ip 0 with
      | Some n => Some (inject_Z n)
      | None => None
      end
  | (_, Some []) => None
  | (ip, Some fp) =>
      match digits ip 0, digits fp 0 with
      | Some n, Some f =>
          let scale := 10 ^ Z.of_nat (List.length fp) in
          Some (Qmake (n * scale + f) (Z.to_pos scale))
      | _, _ => None
      end
  end.

Definition read_decimal (s : string) : option Q :=
  match list_ascii_of_string s with
  | c :: rest =>
      if Ascii.eqb c "-" then
        match unsigned rest with
        | Some q => Some (Qopp q)
        | None => None
        end
      else unsigned (c :: rest)
  | [] => None
  end.

Definition print_object (v : value Q) : string :=
  match v with
  | VNone => "None"
  | VBool true => "True"
  | VBool false => "False"
  | VStr s => s
  | _ => "<object>"
  end.

Definition read_int (s : string) : option Q :=
  match list_ascii_of_string s with
  | c :: rest =>
      if Ascii.eqb c "-" then
        match rest with
        | [] => None
        | _ => option_map (fun n => inject_Z (- n)) (digits rest 0)
        end
      else option_map inject_Z (digits (c :: rest) 0)
  | [] => None
  end.

Definition print_hm (d : datetime) : string :=
  let secs := wall d / 1000000 mod 86400 in
  pad 2 (secs / 3600) ++ ":" ++ pad 2 (secs / 60 mod 60).

(** The time of day is set, the date and the microseconds are kept. *)
Definition set_time (d : datetime) (h m s : Z) : datetime :=
  {| wall := (wall d / 86400000000 * 86400 + h * 3600 + m * 60 + s) * 1000000
             + wall d mod 1000000;
     utcoffset := utcoffset d |}.

(** The local zone of the examples is nine hours east of Greenwich. *)
Definition local_offset : Z := 32400000000.

Definition to_zone (d : datetime) (tz : option Z) : datetime :=
  let from := match utcoffset d with Some o => o | None => local_offset end in
  let to := match tz with Some o => o | None => local_offset end in
  {| wall := wall d - from + to; utcoffset := Some to |}.

#[export] Instance QLib : PyLib Q := {|
  fromisoformat := read_iso;
  isoformat := print_iso;
  strftime_date := print_date;
  float_of_str := read_decimal;
  int_of_str := read_int;
  py_str := print_object;
  strftime_hm := print_hm;
  replace_time := set_time;
  astimezone := to_zone
|}.

(** The world in which the clock reads [t0], then [t0] plus a second at
    every further call, and the [n]-th HTTP call gets the [n]-th of
    [outcomes]; a call beyond the list fails in transport. *)
Definition world (t0 : Z) (outcomes : list (Outcome Q)) : World Q :=
  {| clock := fun n => t0 + Z.of_nat n * 1000000;
     server := fun n _ => nth n outcomes (Raises HTTPError) |}.

Definition ok (v : value Q) : Outcome Q :=
  Replies {| status_ok := true; body := Some v |}.

(** 2024-01-15T09:00:00, in microseconds from 1970-01-01. *)
Definition nine : Z := 1705309200000000.

Definition start_of (c : OctopusClient Q) : St Q :=
  {| self := c; ticks := 0; calls := 0; sent := [] |}.

Definition japan_client : OctopusClient Q :=
  __init__ (Some "user@example.com") (Some "secret") None None "japan"
    None None None None.

Definition uk_client : OctopusClient Q :=
  __init__ None None (Some "sk_live_x") (Some "A-1234") "uk"
    (Some "1200000000000") (Some "21E0000000") (Some "7000000000")
    (Some "G4A00000000000").

(** A client without credentials. *)
Definition anonymous_client : OctopusClient Q :=
  __init__ None None None None "japan" None None None None.

(** A client that holds a token, good until [expires]. *)
Definition logged_in (c : OctopusClient Q) (expires : Z) : OctopusClient Q :=
  set_token_expires (Some {| wall := expires; utcoffset := None |})
    (set_token (VStr "tok-0") c).

Definition token_body : value Q :=
  VDict [("data",
          VDict [("obtainKrakenToken",
                  VDict [("token", VStr "tok-1");
                         ("refreshToken", VStr "ref-1")])])].

Definition errors_body : value Q :=
  VDict [("errors", VList [VDict [("message", VStr "Invalid data.")]])].

Definition viewer_body : value Q :=
  VDict [("data",
          VDict [("viewer",
                  VDict [("accounts",
                          VList [VDict [("number", VStr "A-12345678")]])])])].

Definition account_body : value Q :=
  VDict [("data",
          VDict [("account",
                  VDict [("balance", VNum (inject_Z 1234));
                         ("billingName", VNone);
                         ("status", VStr "ACTIVE");
                         ("properties",
                          VList [VDict [("address", VStr "1-2-3 Shibuya")]])])])].

Definition tariffs_body : value Q :=
  VDict [("data",
          VDict [("account",
                  VDict [("electricityAgreements",
                          VList [VDict [("tariff",
                            VDict [("displayName", VStr "Intelligent Octopus Go");
                                   ("productCode", VStr "INTELLI-VAR-22-10-14");
                                   ("standingCharge", VNum (Qmake 4785 100))])]]);
                         ("gasAgreements",
                          VList [VDict [("tariff",
                            VDict [("displayName", VStr "Flexible Octopus");
                                   ("productCode", VStr "VAR-22-11-01");
                                   ("standingCharge",
                                    VNum (Qmake 2911 100))])]])])])].

Definition gas_row (v : Q) (a b : string) : value Q :=
  VDict [("consumption", VNum v);
         ("interval_start", VStr a);
         ("interval_end", VStr b)].

Definition gas_rows : list (value Q) :=
  [ gas_row (Qmake 5 10) "2024-01-15T00:00:00Z" "2024-01-15T00:30:00Z";
    gas_row (inject_Z 12) "2024-01-15T00:30:00Z" "2024-01-15T01:00:00Z" ].

Definition gas_body : value Q :=
  VDict [("count", VNum (inject_Z 2)); ("results", VList gas_rows)].

Definition reading_row (a : string) (v ce : value Q) : value Q :=
  VDict [("startAt", VStr a); ("value", v); ("costEstimate", ce)].

Definition reading_rows : list (value Q) :=
  [ reading_row "2024-01-15T00:30:00+09:00" (VStr "0.25") (VStr "7.5");
    reading_row "not a date" (VStr "0.10") VNone;
    reading_row "2024-01-14T23:30:00+09:00" (VStr "0.40") VNone;
    reading_row "2024-01-15T00:00:00+09:00" (VStr "0.35") (VStr "9.1");
    reading_row "2024-01-15T01:00:00+09:00" (VStr "n/a") VNone ].

Definition readings_body : value Q :=
  VDict [("data",
          VDict [("account",
                  VDict [("properties",
                          VList [VDict [("electricitySupplyPoints",
                            VList [VDict [("status", VStr "ON_SUPPLY");
                                          ("halfHourlyReadings",
                                           VList reading_rows)]])]])])])].

(** A reply with the readings [rows] of one supply point. *)
Definition readings_of (rows : list (value Q)) : value Q :=
  VDict [("data",
          VDict [("account",
                  VDict [("properties",
                          VList [VDict [("electricitySupplyPoints",
                            VList [VDict [("status", VStr "ON_SUPPLY");
                                          ("halfHourlyReadings",
                                           VList rows)]])]])])])].

(** Two readings, the second without a time: its "startAt" is null. *)
Definition null_start_rows : list (value Q) :=
  [ reading_row "2024-01-15T00:00:00+09:00" (VStr "0.35") VNone;
    VDict [("startAt", VNone); ("value", VStr "0.40"); ("costEstimate", VNone)] ].

(** Two readings, the second without a value: its "value" is null. *)
Definition null_value_rows : list (value Q) :=
  [ reading_row "2024-01-15T00:00:00+09:00" (VStr "0.35") VNone;
    reading_row "2024-01-15T00:30:00+09:00" VNone VNone ].

(** Two readings, one with and one without a UTC offset. *)
Definition mixed_rows : list (value Q) :=
  [ reading_row "2024-01-15T00:00:00+09:00" (VStr "0.35") VNone;
    reading_row "2024-01-15T00:30:00" (VStr "0.40") VNone ].

Definition no_agreements_body : value Q :=
  VDict [("data",
          VDict [("account",
                  VDict [("electricityAgreements", VList []);
                         ("gasAgreements", VNone)])])].

Definition rate_row (v : Q) : value Q :=
  VDict [("value_exc_vat", VNum v); ("value_inc_vat", VNum v)].

(** Five unit rates: the fifth is beyond what [get_tariff] reads. *)
Definition rate_rows : list (value Q) :=
  [ rate_row (Qmake 75 10); rate_row (Qmake 302 10); rate_row (Qmake 81 10);
    rate_row (inject_Z 31); rate_row (inject_Z 5) ].

Definition rates_body : value Q :=
  VDict [("count", VNum (inject_Z 5)); ("results", VList rate_rows)].

Definition empty_rates_body : value Q :=
  VDict [("count", VNum (inject_Z 0)); ("results", VList [])].

Definition dispatch_row (a b delta : string) : value Q :=
  VDict [("start", VStr a); ("end", VStr b); ("delta", VStr delta)].

(** Four raw dispatches: the second has no end and the third does not
    parse. *)
Definition dispatch_rows : list (value Q) :=
  [ dispatch_row "2024-01-15T12:00:00+00:00" "2024-01-15T13:00:00+00:00"
      "-7.25";
    VDict [("start", VStr "2024-01-15T14:00:00Z")];
    dispatch_row "soon" "later" "0";
    dispatch_row "2024-01-14T23:30:00Z" "2024-01-15T00:30:00Z" "-3.5" ].

Definition dispatches_body : value Q :=
  VDict [("data",
          VDict [("plannedDispatches", VList dispatch_rows);
                 ("completedDispatches", VList dispatch_rows)])].

Definition session_row (c a b : string) : value Q :=
  VDict [("code", VStr c); ("startAt", VStr a); ("endAt", VStr b);
         ("rewardPerKwhInOctoPoints", VNum (inject_Z 1800))].

(** Three events: the second has ended by 09:00, wherever it is. *)
Definition session_rows : list (value Q) :=
  [ session_row "EVENT-3" "2024-01-15T17:00:00Z" "2024-01-15T18:00:00Z";
    session_row "EVENT-1" "2024-01-15T07:00:00Z" "2024-01-15T08:00:00Z";
    session_row "EVENT-2" "2024-01-15T08:30:00Z" "2024-01-15T09:30:00Z" ].

Definition sessions_body : value Q :=
  VDict [("data",
          VDict [("savingSessions", VDict [("events", VList session_rows)])])].

Definition go_tariff : Tariff Q :=
  mk_Tariff (VStr "Intelligent Octopus Go") (VStr "INTELLI-VAR-22-10-14")
    (VNum (Qmake 4785 100)) [] (VNum (Qmake 75 10)) VNone "23:30" "05:30".

(** Two half hours of telemetry, the older one first. *)
Definition telemetry_rows : list (value Q) :=
  [ VDict [("readAt", VStr "2024-01-15T08:30:00Z");
           ("demand", VStr "812"); ("consumption", VStr "0.2")];
    VDict [("readAt", VStr "2024-01-15T09:00:00Z");
           ("demand", VStr "450"); ("consumption", VStr "0.1")] ].

Definition telemetry_body : value Q :=
  VDict [("data", VDict [("smartMeterTelemetry", VList telemetry_rows)])].

Definition smart_device (id : value Q) : value Q :=
  VDict [("deviceId", id)].

(** Two properties: the first has a meter point without meters and one
    whose meter has a device without an id; the second has a meter with
    an unnamed device and two named ones, and one more meter. *)
Definition device_properties : list (value Q) :=
  let meter := fun ds : list (value Q) => VDict [("smartDevices", VList ds)] in
  let point := fun ms : list (value Q) => VDict [("meters", VList ms)] in
  let property := fun ps : list (value Q) =>
    VDict [("electricityMeterPoints", VList ps)] in
  [ property [VDict []; point [meter [smart_device VNone]]];
    property [point [meter [VDict []; smart_device (VStr "");
                            smart_device (VStr "00-11-22-33");
                            smart_device (VStr "44-55-66-77")];
                     meter [smart_device (VStr "88-99-AA-BB")]]] ].

Definition devices_body : value Q :=
  VDict [("data",
          VDict [("account",
                  VDict [("properties", VList device_properties)])])].

(** The variables of a shell that has set the first two. *)
Definition shell (k : string) : option string :=
  if String.eqb k "OCTOPUS_API_KEY" then Some "sk_live_x"
  else if String.eqb k "OCTOPUS_ACCOUNT" then Some "A-1234"
  else None.

(** Clients that hold a token good for 55 minutes from [nine]. *)
Definition japan_ready : St Q :=
  start_of (logged_in (set_account (VStr "A-12345678") japan_client)
              (nine + 3300000000)).

Definition uk_ready : St Q :=
  start_of (logged_in uk_client (nine + 3300000000)).

End Sample.

(** * Python's floats *)

(** The numbers of Python as the binary64 values of IEEE 754, which is
    what a [float] of CPython is, computed by the primitive floats of the
    kernel: [+], [*] and [/] round to nearest, ties to even.  An [int] is
    taken for the float of the same value, which is exact below 2^53; a
    decimal literal or string [m * 10^-k] is the quotient of the two
    integers, which is the float nearest to it when [m] and [10^k] are
    below 2^53.  The readings of a meter are well within that. *)
Module Binary64.

Local Abbreviation float := PrimFloat.float.

Fixpoint float_of_pos (p : positive) : float :=
  match p with
  | xH => PrimFloat.one
  | xO q => PrimFloat.mul PrimFloat.two (float_of_pos q)
  | xI q =>
      PrimFloat.add (PrimFloat.mul PrimFloat.two (float_of_pos q))
        PrimFloat.one
  end.

Definition float_of_Z (z : Z) : float :=
  match z with
  | Z0 => PrimFloat.zero
  | Zpos p => float_of_pos p
  | Zneg p => PrimFloat.opp (float_of_pos p)
  end.

Definition float_of_Q (q : Q) : float :=
  PrimFloat.div (float_of_Z (Qnum q)) (float_of_Z (Zpos (Qden q))).

(** 2^52: from here on every float is a whole number. *)
Definition whole_from : float := float_of_Z (2 ^ 52).

(** The whole part of a float that is not negative. *)
Definition whole_part (x : float) : float :=
  if PrimFloat.ltb x whole_from then
    let r := PrimFloat.sub (PrimFloat.add x whole_from) whole_from in
    if PrimFloat.ltb x r then PrimFloat.sub r PrimFloat.one else r
  else x.

#[export] Instance FloatNum : PyNum float := {|
  num_int := float_of_Z;
  num_dec := fun m k => float_of_Q (Qmake m (Z.to_pos (10 ^ Z.of_nat k)));
  num_add := PrimFloat.add;
  num_mul := PrimFloat.mul;
  num_truediv := PrimFloat.div;
  num_lt := PrimFloat.ltb;
  num_truth := fun x => negb (PrimFloat.eqb x PrimFloat.zero);
  num_float := fun x => x;
  num_trunc := fun x =>
    if PrimFloat.ltb x PrimFloat.zero
    then PrimFloat.opp (whole_part (PrimFloat.opp x))
    else whole_part x;
  num_abs := PrimFloat.abs
|}.

Definition print_object (v : value float) : string :=
  match v with
  | VNone => "None"
  | VBool true => "True"
  | VBool false => "False"
  | VStr s => s
  | _ => "<object>"
  end.

#[export] Instance FloatLib : PyLib float := {|
  fromisoformat := Sample.read_iso;
  isoformat := Sample.print_iso;
  strftime_date := Sample.print_date;
  float_of_str := fun s => option_map float_of_Q (Sample.read_decimal s);
  int_of_str := fun s => option_map float_of_Q (Sample.read_int s);
  py_str := print_object;
  strftime_hm := Sample.print_hm;
  replace_time := Sample.set_time;
  astimezone := Sample.to_zone
|}.

(** The clock and the server of [Sample.world]. *)
Definition world (t0 : Z) (outcomes : list (Outcome float)) : World float :=
  {| clock := fun n => t0 + Z.of_nat n * 1000000;
     server := fun n _ => nth n outcomes (Raises HTTPError) |}.

Definition ok (v : value float) : Outcome float :=
  Replies {| status_ok := true; body := Some v |}.

(** A "japan" client that has its account number and holds a token good
    for 55 minutes from [Sample.nine]. *)
Definition ready : St float :=
  {| self :=
       set_token_expires
         (Some {| wall := Sample.nine + 3300000000; utcoffset := None |})
         (set_token (VStr "tok-0")
            (set_account (VStr "A-12345678")
               (__init__ (Some "user@example.com") (Some "secret") None None
                  "japan" None None None None)));
     ticks := 0; calls := 0; sent := [] |}.

Definition reading_row (a v : string) : value float :=
  VDict [("startAt", VStr a); ("value", VStr v); ("costEstimate", VNone)].

(** Three readings: the last half hour of a day, with 0.1 kWh, and the
    first two of the next, with 0.2 and 0.3 kWh. *)
Definition reading_rows : list (value float) :=
  [ reading_row "2024-01-14T23:30:00+09:00" "0.1";
    reading_row "2024-01-15T00:00:00+09:00" "0.2";
    reading_row "2024-01-15T00:30:00+09:00" "0.3" ].

Definition readings_body : value float :=
  VDict [("data",
          VDict [("account",
                  VDict [("properties",
                          VList [VDict [("electricitySupplyPoints",
                            VList [VDict [("status", VStr "ON_SUPPLY");
                                          ("halfHourlyReadings",
                                           VList reading_rows)]])]])])])].

End Binary64.

(** * Laws of the library *)

(** A library whose [strftime("%H:%M")] prints, and whose
    [replace(hour=, minute=, second=)] sets, the time of day of the
    wall-clock reading of a datetime, as Python's do. *)
Class WallClock {num : Type} (L : PyLib num) : Prop := {
  strftime_hm_wall : forall d, strftime_hm d = Sample.print_hm d;
  replace_time_wall :
    forall d h m s, replace_time d h m s = Sample.set_time d h m s
}.

(** A library whose [astimezone] gives an aware datetime, and the same
    instant whatever the zone asked for, as Python's does. *)
Class ZoneLaws {num : Type} (L : PyLib num) : Prop := {
  astimezone_aware : forall d tz, is_aware (astimezone d tz) = true;
  astimezone_instant :
    forall d tz tz', dt_key (astimezone d tz) = dt_key (astimezone d tz')
}.

(** * Properties *)

Section Properties.
Context {num : Type} {N : PyNum num} {L : PyLib num}.
Variable W : World num.

Local Abbreviation value := (value num).
Local Abbreviation exn := (exn num).
Local Abbreviation res := (res num).
Local Abbreviation Request := (Request num).
Local Abbreviation Response := (Response num).
Local Abbreviation OctopusClient := (OctopusClient num).
Local Abbreviation St := (St num).
Local Abbreviation M := (M num).
Local Abbreviation same_config := (same_config (num := num)).
Local Abbreviation posts_to_endpoint := (posts_to_endpoint (num := num)).
Local Open Scope py_scope.

(** ** Running a computation step by step *)

Lemma bind_inr {A B} (m : M A) (f : A -> M B) s a s' :
  m s = (inr a, s') -> bind m f s = f a s'.
Proof. intros H. unfold bind. now rewrite H. Qed.

Lemma bind_lift_inr {A B} (r : res A) (f : A -> M B) s a :
  r = inr a -> bind (lift r) f s = f a s.
Proof. intros ->. reflexivity. Qed.

(** ** Relations every step keeps *)

Section Keeps.
Variable R : St -> St -> Prop.
Hypothesis R_refl : forall s, R s s.
Hypothesis R_trans : forall a b c, R a b -> R b c -> R a c.

Lemma keeps_ret {A} (a : A) : keeps R (ret a).
Proof. intros s. apply R_refl. Qed.

Lemma keeps_raise {A} (e : exn) : keeps R (raise (A := A) e).
Proof. intros s. apply R_refl. Qed.

Lemma keeps_lift {A} (r : res A) : keeps R (lift r).
Proof. intros s. apply R_refl. Qed.

Lemma keeps_get_self : keeps R (get_self (num := num)).
Proof. intros s. apply R_refl. Qed.

Lemma keeps_bind {A B} (m : M A) (f : A -> M B) :
  keeps R m -> (forall a, keeps R (f a)) -> keeps R (bind m f).
Proof.
  intros Hm Hf s. unfold bind. specialize (Hm s).
  destruct (m s) as [[e | a] s1]; simpl in *.
  - exact Hm.
  - eapply R_trans; [exact Hm | apply Hf].
Qed.

Lemma keeps_try {A} (m h : M A) (caught : exn -> bool) :
  keeps R m -> keeps R h -> keeps R (try_except m caught h).
Proof.
  intros Hm Hh s. unfold try_except. specialize (Hm s).
  destruct (m s) as [[e | a] s1]; simpl in *.
  - destruct (caught e); [eapply R_trans; [exact Hm | apply Hh] | exact Hm].
  - exact Hm.
Qed.

Lemma keeps_discard {A} (m : M A) : keeps R m -> keeps R (discard m).
Proof. intros Hm. apply keeps_bind; [exact Hm | intros; apply keeps_ret]. Qed.

(** The same, for one run: the rest starts where the first step ends. *)
Lemma run_bind {A B} (m : M A) (f : A -> M B) (s : St) :
  R s (snd (m s)) ->
  (forall a s1, m s = (inr a, s1) -> R s1 (snd (f a s1))) ->
  R s (snd (bind m f s)).
Proof.
  intros Hm Hf. unfold bind. destruct (m s) as [[e | a] s1] eqn:E; simpl in *.
  - exact Hm.
  - eapply R_trans; [exact Hm | now apply Hf].
Qed.

End Keeps.

(** Breaks a computation into its steps. *)
Ltac keeps_step :=
  first
    [ apply keeps_ret | apply keeps_raise | apply keeps_lift
    | apply keeps_get_self | apply keeps_discard | apply keeps_try
    | apply keeps_bind
    | match goal with
      | |- keeps _ (if ?b then _ else _) => destruct b
      | |- keeps _ (match ?x with _ => _ end) => destruct x
      end
    | match goal with |- forall _, _ => intro end ].

Ltac keeps_steps :=
  try solve [eauto]; repeat (keeps_step; try solve [eauto]).

Lemma same_config_refl : forall s : St, same_config s s.
Proof. reflexivity. Qed.

Lemma same_config_trans :
  forall a b c : St, same_config a b -> same_config b c -> same_config a c.
Proof. unfold same_config. intros a b c H1 H2. now rewrite H2. Qed.

Lemma posts_to_endpoint_refl : forall s : St, posts_to_endpoint s s.
Proof. intros s. split; [reflexivity | exists []; split; [reflexivity | constructor]]. Qed.

Lemma posts_to_endpoint_trans :
  forall a b c : St,
    posts_to_endpoint a b -> posts_to_endpoint b c -> posts_to_endpoint a c.
Proof.
  intros a b c [U1 (n1 & S1 & F1)] [U2 (n2 & S2 & F2)]. split.
  - now rewrite U2.
  - exists (n2 ++ n1)%list. split.
    + rewrite S2, S1. now rewrite app_assoc.
    + apply Forall_app. split; [now rewrite <- U1 | exact F1].
Qed.

#[local] Hint Resolve same_config_refl same_config_trans
  posts_to_endpoint_refl posts_to_endpoint_trans : core.

(** ** What every operation keeps *)

(** A relation between states that the clock, a request, the writes of
    the HTTP handle and of the account, and the storing of a token keep,
    is kept by every operation: the client is written nowhere else. *)
Section Frame.
Variable R : St -> St -> Prop.
Hypothesis R_refl : forall s, R s s.
Hypothesis R_trans : forall a b c, R a b -> R b c -> R a c.
Hypothesis R_now : keeps R (now W).
Hypothesis R_send : forall r, keeps R (http_send W r).
Hypothesis R_http : forall h, keeps R (modify_self (set_http h)).
Hypothesis R_account : forall v, keeps R (modify_self (set_account v)).
Hypothesis R_store : forall resp, keeps R (store_token W resp).

Lemma frame_get_http : keeps R _get_http.
Proof. unfold _get_http. keeps_steps. Qed.

#[local] Hint Resolve frame_get_http : core.

Lemma frame_get_token : keeps R (_get_token W).
Proof. unfold _get_token, token_is_fresh, acquire_token. keeps_steps. Qed.

#[local] Hint Resolve frame_get_token : core.

Lemma frame_graphql (q : string) (v : value) : keeps R (_graphql W q v).
Proof. unfold _graphql. keeps_steps. Qed.

#[local] Hint Resolve frame_graphql : core.

Lemma frame_ensure_account : keeps R (_ensure_account W).
Proof. unfold _ensure_account. keeps_steps. Qed.

#[local] Hint Resolve frame_ensure_account : core.

Lemma frame_get_account : keeps R (get_account W).
Proof. unfold get_account. keeps_steps. Qed.

Lemma frame_get_consumption p a b : keeps R (get_consumption W p a b).
Proof.
  unfold get_consumption, _get_consumption_japan, half_hourly_query,
    _get_consumption_uk.
  keeps_steps.
Qed.

Lemma frame_get_gas_consumption p a b : keeps R (get_gas_consumption W p a b).
Proof. unfold get_gas_consumption. keeps_steps. Qed.

#[local] Hint Resolve frame_get_consumption frame_get_gas_consumption : core.

Lemma frame_get_daily_usage d : keeps R (get_daily_usage W d).
Proof. unfold get_daily_usage. keeps_steps. Qed.

Lemma frame_get_daily_gas_usage d : keeps R (get_daily_gas_usage W d).
Proof. unfold get_daily_gas_usage. keeps_steps. Qed.

Lemma frame_get_gas_tariff r : keeps R (get_gas_tariff W r).
Proof. unfold get_gas_tariff, fetch_gas_unit_rate. keeps_steps. Qed.

Lemma frame_get_tariff r : keeps R (get_tariff W r).
Proof. unfold get_tariff, fetch_unit_rates. keeps_steps. Qed.

Lemma frame_get_current_rate t : keeps R (get_current_rate W t).
Proof. unfold get_current_rate. keeps_steps. Qed.

Lemma frame_get_dispatches : keeps R (get_dispatches W).
Proof. unfold get_dispatches. keeps_steps. Qed.

#[local] Hint Resolve frame_get_dispatches : core.

Lemma frame_get_dispatch_status : keeps R (get_dispatch_status W).
Proof. unfold get_dispatch_status. keeps_steps. Qed.

Lemma frame_get_completed_dispatches n :
  keeps R (get_completed_dispatches W n).
Proof. unfold get_completed_dispatches. keeps_steps. Qed.

Lemma frame_get_saving_sessions : keeps R (get_saving_sessions W).
Proof. unfold get_saving_sessions. keeps_steps. Qed.

Lemma frame_get_smart_devices : keeps R (get_smart_devices W).
Proof. unfold get_smart_devices. keeps_steps. Qed.

Lemma frame_discover : keeps R (_discover_meter_device W).
Proof. unfold _discover_meter_device. keeps_steps. Qed.

#[local] Hint Resolve frame_discover : core.

Lemma frame_get_live_power d : keeps R (get_live_power W d).
Proof. unfold get_live_power, live_power_for. keeps_steps. Qed.

Lemma frame_perform (o : Operation) : keeps R (perform W o).
Proof.
  destruct o; simpl;
    first [ apply R_http
          | unfold __aexit__; solve [keeps_steps]
          | apply keeps_discard; [auto | eauto | ] ];
    auto using frame_get_account, frame_get_daily_usage,
      frame_get_daily_gas_usage, frame_get_gas_tariff, frame_get_tariff,
      frame_get_current_rate, frame_get_dispatch_status,
      frame_get_completed_dispatches, frame_get_saving_sessions,
      frame_get_live_power, frame_get_smart_devices.
Qed.

End Frame.

(** *** The configuration is never written *)

Lemma same_config_now : keeps same_config (now W).
Proof. intros s. reflexivity. Qed.

Lemma same_config_http_send (r : Request) : keeps same_config (http_send W r).
Proof. intros s. unfold http_send. now destruct (server W (calls s) r). Qed.

Lemma same_config_modify (f : OctopusClient -> OctopusClient) :
  (forall c, config (f c) = config c) -> keeps same_config (modify_self f).
Proof. intros H s. apply H. Qed.

#[local] Hint Resolve same_config_now same_config_http_send : core.

#[local] Hint Extern 1 (keeps same_config (modify_self _)) =>
  apply same_config_modify; reflexivity : core.

Lemma same_config_store_token (resp : Response) :
  keeps same_config (store_token W resp).
Proof. unfold store_token. keeps_steps. Qed.

Lemma same_config_perform (o : Operation) : keeps same_config (perform W o).
Proof.
  apply frame_perform; eauto using same_config_store_token.
Qed.

Lemma same_config_graphql (q : string) (v : value) :
  keeps same_config (_graphql W q v).
Proof. apply frame_graphql; eauto using same_config_store_token. Qed.

Lemma same_config_ensure_account : keeps same_config (_ensure_account W).
Proof. apply frame_ensure_account; eauto using same_config_store_token. Qed.

(** ** Where requests go *)

Lemma snd_http_send (r : Request) (s : St) :
  snd (http_send W r s) = mk_St (self s) (ticks s) (S (calls s)) (r :: sent s).
Proof. unfold http_send. now destruct (server W (calls s) r). Qed.

Lemma posts_http_send (r : Request) (s : St) :
  is_post_to (_graphql_url (self s)) r ->
  posts_to_endpoint s (snd (http_send W r s)).
Proof.
  intros H. rewrite snd_http_send. split; [reflexivity | ].
  exists [r]. split; [reflexivity | now constructor].
Qed.

Lemma posts_now : keeps posts_to_endpoint (now W).
Proof.
  intros s. split; [reflexivity | ].
  exists []. split; [reflexivity | constructor].
Qed.

Lemma posts_modify (f : OctopusClient -> OctopusClient) :
  (forall c, _graphql_url (f c) = _graphql_url c) ->
  keeps posts_to_endpoint (modify_self f).
Proof.
  intros H s. split; [apply H | ].
  exists []. split; [reflexivity | constructor].
Qed.

#[local] Hint Resolve posts_now : core.

#[local] Hint Extern 1 (keeps posts_to_endpoint (modify_self _)) =>
  apply posts_modify; reflexivity : core.

Lemma posts_get_http : keeps posts_to_endpoint _get_http.
Proof. unfold _get_http. keeps_steps. Qed.

Lemma posts_token_is_fresh : keeps posts_to_endpoint (token_is_fresh W).
Proof. unfold token_is_fresh. keeps_steps. Qed.

#[local] Hint Resolve posts_get_http posts_token_is_fresh : core.

Lemma token_request_post (c : OctopusClient) (req : Request) :
  token_request c = inr req -> is_post_to (_graphql_url c) req.
Proof.
  unfold token_request. destruct (is_japan c).
  - destruct (japan_variables c); simpl; [discriminate | ].
    now intros [= <-].
  - destruct (negb (opt_truthy (api_key c))); [discriminate | ].
    now intros [= <-].
Qed.

Lemma posts_store_token (resp : Response) :
  keeps posts_to_endpoint (store_token W resp).
Proof. unfold store_token. keeps_steps. Qed.

Lemma posts_acquire_token : keeps posts_to_endpoint (acquire_token W).
Proof.
  intros s. unfold acquire_token.
  apply run_bind; [eauto | apply posts_get_http | intros h s1 _].
  apply run_bind; [eauto | apply posts_to_endpoint_refl | intros c s2 E].
  injection E as <- <-.
  apply run_bind; [eauto | apply posts_to_endpoint_refl | intros req s3 E].
  unfold lift in E. injection E as E <-.
  apply run_bind; [eauto | | intros resp s4 _; apply posts_store_token].
  apply posts_http_send. now apply token_request_post.
Qed.

#[local] Hint Resolve posts_acquire_token : core.

Lemma posts_get_token : keeps posts_to_endpoint (_get_token W).
Proof. unfold _get_token. keeps_steps. Qed.

Lemma posts_graphql (q : string) (v : value) :
  keeps posts_to_endpoint (_graphql W q v).
Proof.
  intros s. unfold _graphql.
  apply run_bind; [eauto | apply posts_get_token | intros token s1 _].
  apply run_bind; [eauto | apply posts_get_http | intros h s2 _].
  apply run_bind; [eauto | apply posts_to_endpoint_refl | intros c s3 E].
  injection E as <- <-.
  apply run_bind; [eauto | now apply posts_http_send | intros resp s4 _].
  revert s4. change (keeps posts_to_endpoint
    (lift (raise_for_status resp) ;;
     data <- lift (json_of resp) ;; lift (unwrap_envelope APIError data))).
  keeps_steps.
Qed.

(** ** The token cache *)

Lemma token_is_fresh_run (s : St) :
  expiry_naive (self s) ->
  token_is_fresh W s = (inr (token_usable W s), after_check s).
Proof.
  unfold expiry_naive, token_is_fresh, token_usable, after_check, bind,
    get_self, lift, ret, now, dt_lt, dt_key, is_aware, tick.
  destruct (truthy (_token (self s))); simpl; [ | reflexivity].
  destruct (_token_expires (self s)) as [e | ]; [ | reflexivity].
  intros ->. reflexivity.
Qed.

Lemma get_token_run (s : St) :
  expiry_naive (self s) ->
  _get_token W s =
    if token_usable W s then (inr (_token (self s)), after_check s)
    else acquire_token W (after_check s).
Proof.
  intros H. unfold _get_token.
  rewrite (bind_inr _ _ _ _ _ (token_is_fresh_run s H)).
  destruct (token_usable W s) eqn:E; [ | reflexivity].
  unfold bind, get_self, ret. simpl.
  unfold after_check. now destruct (truthy (_token (self s))), (_token_expires (self s)).
Qed.

Lemma after_check_usable (s : St) :
  token_usable W s = true -> after_check s = tick s.
Proof.
  unfold token_usable, after_check.
  destruct (truthy (_token (self s))); [ | discriminate].
  now destruct (_token_expires (self s)).
Qed.

(** A response is stored as a whole or not at all: when [store_token]
    raises, the state is the one it started in. *)
Lemma store_token_run (resp : Response) (s : St) :
  match store_token W resp s with
  | (inr token, s') =>
      _token (self s') = token /\
      _token_expires (self s') =
        Some (dt_add (reading W s) (timedelta_minutes 55)) /\
      account (self s') = account (self s) /\
      _http (self s') = _http (self s) /\
      ticks s' = S (ticks s) /\ calls s' = calls s /\ sent s' = sent s /\
      exists data d token_data,
        status_ok resp = true /\ body resp = Some data /\
        unwrap_envelope AuthenticationError data = inr d /\
        getitem d "obtainKrakenToken" = inr token_data /\
        getitem token_data "token" = inr token
  | (inl e, s') => s' = s
  end.
Proof.
  unfold store_token, raise_for_status, json_of, bind, lift, modify_self,
    get_self, ret, now.
  destruct (status_ok resp); simpl; [ | reflexivity].
  destruct (body resp) as [data | ]; simpl; [ | reflexivity].
  destruct (unwrap_envelope AuthenticationError data) as [e | d] eqn:Ed;
    simpl; [reflexivity | ].
  destruct (getitem d "obtainKrakenToken") as [e | td] eqn:Etd;
    simpl; [reflexivity | ].
  destruct (getitem td "token") as [e | token] eqn:Etok;
    simpl; [reflexivity | ].
  assert (Hdict : exists kv, td = VDict kv).
  { destruct td; try discriminate. now eexists. }
  destruct Hdict as [kv ->]. simpl.
  destruct (assoc "refreshToken" kv) as [rt | ]; simpl;
    repeat split; try reflexivity; exists data, d, (VDict kv); auto.
Qed.

Lemma get_http_run (s : St) :
  exists h, _get_http s = (inr h, with_http s).
Proof.
  unfold _get_http, with_http, bind, get_self, modify_self, ret.
  destruct (_http (self s)); eexists; reflexivity.
Qed.

Lemma http_send_run (r : Request) (s : St) :
  http_send W r s =
    (match server W (calls s) r with
     | Raises e => inl e
     | Replies resp => inr resp
     end, after_send r s).
Proof. unfold http_send, after_send. now destruct (server W (calls s) r). Qed.

Lemma token_request_with_http (s : St) :
  token_request (self (with_http s)) = token_request (self s).
Proof. unfold with_http. now destruct (_http (self s)). Qed.

Lemma cache_with_http (s : St) : cache (self (with_http s)) = cache (self s).
Proof. unfold with_http. now destruct (_http (self s)). Qed.

Lemma acquire_token_run (s : St) :
  acquire_token W s =
    match token_request (self s) with
    | inl e => (inl e, with_http s)
    | inr req =>
        match server W (calls s) req with
        | Raises e => (inl e, after_send req (with_http s))
        | Replies resp => store_token W resp (after_send req (with_http s))
        end
    end.
Proof.
  unfold acquire_token. destruct (get_http_run s) as [h Eh].
  rewrite (bind_inr _ _ _ _ _ Eh).
  unfold bind at 1, get_self at 1.
  rewrite token_request_with_http.
  destruct (token_request (self s)) as [e | req]; [reflexivity | ].
  unfold bind at 1, lift at 1. unfold bind. rewrite http_send_run.
  assert (Ec : calls (with_http s) = calls s).
  { unfold with_http. now destruct (_http (self s)). }
  rewrite Ec. now destruct (server W (calls s) req).
Qed.

Lemma sent_with_http (s : St) : sent (with_http s) = sent s.
Proof. unfold with_http. now destruct (_http (self s)). Qed.

Lemma ticks_with_http (s : St) : ticks (with_http s) = ticks s.
Proof. unfold with_http. now destruct (_http (self s)). Qed.

Lemma self_after_check (s : St) : self (after_check s) = self s.
Proof.
  unfold after_check.
  now destruct (truthy (_token (self s))), (_token_expires (self s)).
Qed.

Lemma sent_after_check (s : St) : sent (after_check s) = sent s.
Proof.
  unfold after_check.
  now destruct (truthy (_token (self s))), (_token_expires (self s)).
Qed.

Lemma calls_after_check (s : St) : calls (after_check s) = calls s.
Proof.
  unfold after_check.
  now destruct (truthy (_token (self s))), (_token_expires (self s)).
Qed.

(** Without a usable token, [_get_token] is [acquire_token]: it raises
    for want of credentials before any request, or sends the request of
    the region and stores what comes back. *)
Lemma get_token_stale (s : St) :
  expiry_naive (self s) -> token_usable W s = false ->
  _get_token W s =
    match token_request (self s) with
    | inl e => (inl e, with_http (after_check s))
    | inr req =>
        match server W (calls s) req with
        | Raises e => (inl e, after_send req (with_http (after_check s)))
        | Replies resp =>
            store_token W resp (after_send req (with_http (after_check s)))
        end
    end.
Proof.
  intros Hn Hu. rewrite (get_token_run s Hn), Hu, acquire_token_run.
  now rewrite self_after_check, calls_after_check.
Qed.

Lemma store_token_sent (resp : Response) (s : St) :
  sent (snd (store_token W resp s)) = sent s.
Proof.
  generalize (store_token_run resp s).
  destruct (store_token W resp s) as [[e | token] s']; simpl.
  - now intros ->.
  - tauto.
Qed.

(** What a client without a usable token sends. *)
Lemma get_token_stale_sent (s : St) :
  expiry_naive (self s) -> token_usable W s = false ->
  match token_request (self s) with
  | inr req => sent (snd (_get_token W s)) = req :: sent s
  | inl e =>
      fst (_get_token W s) = inl e /\ sent (snd (_get_token W s)) = sent s
  end.
Proof.
  intros Hn Hu. rewrite (get_token_stale s Hn Hu).
  destruct (token_request (self s)) as [e | req]; simpl.
  - now rewrite sent_with_http, sent_after_check.
  - destruct (server W (calls s) req); [ | rewrite store_token_sent ];
      simpl; now rewrite sent_with_http, sent_after_check.
Qed.

Lemma is_japan_region (c : OctopusClient) :
  region c = "japan" -> is_japan c = true.
Proof. unfold is_japan. now intros ->. Qed.

Lemma is_uk_region (c : OctopusClient) : region c = "uk" -> is_japan c = false.
Proof. unfold is_japan. now intros ->. Qed.

(** *** The recorded expiry stays naive *)

Lemma naive_kept_store_token (resp : Response) :
  keeps naive_kept (store_token W resp).
Proof.
  intros s Hs. generalize (store_token_run resp s).
  destruct (store_token W resp s) as [[e | token] s']; simpl.
  - now intros ->.
  - intros (_ & He & _). unfold expiry_naive. now rewrite He.
Qed.

Lemma naive_kept_modify (f : OctopusClient -> OctopusClient) :
  (forall c, _token_expires (f c) = _token_expires c) ->
  keeps naive_kept (modify_self f).
Proof. intros H s. unfold naive_kept, expiry_naive. simpl. now rewrite H. Qed.

(** The invariant [expiry_naive] of the client: it holds of a new
    client, and every operation keeps it. *)
Lemma expiry_stays_naive :
  (forall e p k a r m ms g gs,
     expiry_naive (__init__ (num := num) e p k a r m ms g gs)) /\
  (forall (o : Operation) (s : St),
     expiry_naive (self s) -> expiry_naive (self (snd (perform W o s)))).
Proof.
  split; [intros; exact I | ]. intros o s.
  apply (frame_perform naive_kept).
  - intros s0 H. exact H.
  - intros a b c Hab Hbc H. exact (Hbc (Hab H)).
  - intros s0 H. exact H.
  - intros r s0 H. rewrite snd_http_send. exact H.
  - intros h. now apply naive_kept_modify.
  - intros v. now apply naive_kept_modify.
  - exact naive_kept_store_token.
Qed.

(** ** The token is cached with a fixed skew *)

Lemma unwrap_envelope_ok (E : value -> exn) (data d : value) :
  unwrap_envelope E data = inr d -> getitem data "data" = inr d.
Proof.
  unfold unwrap_envelope.
  destruct (contains "errors" data) as [e | has]; simpl; [discriminate | ].
  destruct has; [ | trivial].
  destruct (getitem data "errors") as [e | errors]; simpl; [discriminate | ].
  destruct (getfirst errors) as [e | first]; simpl; [discriminate | ].
  destruct (getitem first "message"); discriminate.
Qed.

(** C1 (as amended).  [_get_token] returns the cached token, sending
    nothing, exactly when a token is present and the clock reads strictly
    before the recorded expiry.  In every other case it attempts a fresh
    acquisition: either it raises and leaves the cached token, refresh
    token, expiry and account as they were, or it sends one request,
    stores the token of the response and records as expiry the reading of
    the clock taken once the response is read, plus exactly 55 minutes.
    The token stored and returned is the "token" of the
    "obtainKrakenToken" object in the data of the response to that
    request, a response of good status: it is never the token that was
    cached before, unless the server sends that very token again. *)
Theorem get_token_cache_policy (s : St) :
  expiry_naive (self s) ->
  (token_usable W s = true ->
   _get_token W s = (inr (_token (self s)), tick s)) /\
  (token_usable W s = false ->
   match _get_token W s with
   | (inr token, s') =>
       _token (self s') = token /\
       _token_expires (self s') =
         Some (dt_add (reading W (after_check s)) (timedelta_minutes 55)) /\
       (exists req resp data d token_data,
          token_request (self s) = inr req /\
          sent s' = req :: sent s /\
          server W (calls s) req = Replies resp /\
          status_ok resp = true /\ body resp = Some data /\
          getitem data "data" = inr d /\
          getitem d "obtainKrakenToken" = inr token_data /\
          getitem token_data "token" = inr token) /\
       calls s' = S (calls s)
   | (inl e, s') => cache (self s') = cache (self s)
   end).
Proof.
  intros Hn. split; intros Hu.
  - rewrite (get_token_run s Hn), Hu. now rewrite after_check_usable.
  - rewrite (get_token_stale s Hn Hu).
    destruct (token_request (self s)) as [e | req].
    + now rewrite cache_with_http, self_after_check.
    + destruct (server W (calls s) req) as [e | resp] eqn:Hsrv.
      * simpl. now rewrite cache_with_http, self_after_check.
      * generalize
          (store_token_run resp (after_send req (with_http (after_check s)))).
        destruct (store_token W resp
                    (after_send req (with_http (after_check s))))
          as [[e | token] s'].
        -- intros ->. simpl. now rewrite cache_with_http, self_after_check.
        -- intros (Ht & He & _ & _ & _ & Hc & Hs
                   & data & d & td & Hok & Hb & Hd & Htd & Htok).
           split; [exact Ht | split; [ | split]].
           ++ rewrite He. unfold reading. simpl. now rewrite ticks_with_http.
           ++ exists req, resp, data, d, td.
              split; [reflexivity | ].
              split; [rewrite Hs; simpl;
                      now rewrite sent_with_http, sent_after_check | ].
              split; [exact Hsrv | ].
              split; [exact Hok | split; [exact Hb | ]].
              split; [exact (unwrap_envelope_ok _ _ _ Hd) | ].
              split; [exact Htd | exact Htok].
           ++ rewrite Hc. simpl.
              assert (E : calls (with_http (after_check s)) = calls s).
              { unfold with_http.
                destruct (_http (self (after_check s)));
                  apply calls_after_check. }
              now rewrite E.
Qed.

(** ** Two authentication flows *)

(** C3.  Without a usable token, the flow is chosen by the region.  For
    "japan": the cached refresh token is sent when there is one, else
    the email and password; with neither, [AuthenticationError] is
    raised and nothing is sent.  For "uk": the API key is sent, and
    without one [AuthenticationError] is raised and nothing is sent. *)
Theorem token_flow_by_region (s : St) :
  expiry_naive (self s) -> token_usable W s = false ->
  let c := self s in
  let run := _get_token W s in
  (region c = "japan" -> truthy (_refresh_token c) = true ->
   sent (snd run) =
     POST (_graphql_url c) []
       (VDict [("query", VStr OBTAIN_TOKEN_JAPAN);
               ("variables",
                VDict [("input",
                        VDict [("refreshToken", _refresh_token c)])])])
     :: sent s) /\
  (region c = "japan" -> truthy (_refresh_token c) = false ->
   opt_truthy (email c) = true -> opt_truthy (password c) = true ->
   sent (snd run) =
     POST (_graphql_url c) []
       (VDict [("query", VStr OBTAIN_TOKEN_JAPAN);
               ("variables",
                VDict [("input",
                        VDict [("email", of_opt (email c));
                               ("password", of_opt (password c))])])])
     :: sent s) /\
  (region c = "japan" -> truthy (_refresh_token c) = false ->
   opt_truthy (email c) && opt_truthy (password c) = false ->
   fst run =
     inl (AuthenticationError
            (VStr "Japan region requires email and password")) /\
   sent (snd run) = sent s) /\
  (region c = "uk" -> opt_truthy (api_key c) = true ->
   sent (snd run) =
     POST (_graphql_url c) []
       (VDict [("query", VStr OBTAIN_TOKEN_UK);
               ("variables", VDict [("key", of_opt (api_key c))])])
     :: sent s) /\
  (region c = "uk" -> opt_truthy (api_key c) = false ->
   fst run = inl (AuthenticationError (VStr "UK region requires API key")) /\
   sent (snd run) = sent s).
Proof.
  intros Hn Hu c run. subst c run.
  generalize (get_token_stale_sent s Hn Hu).
  unfold token_request, japan_variables. intros Hsent.
  split; [ | split; [ | split; [ | split]]].
  - intros Hr Ht. now rewrite (is_japan_region _ Hr), Ht in Hsent.
  - intros Hr Ht He Hp. now rewrite (is_japan_region _ Hr), Ht, He, Hp in Hsent.
  - intros Hr Ht Hep. now rewrite (is_japan_region _ Hr), Ht, Hep in Hsent.
  - intros Hr Hk. now rewrite (is_uk_region _ Hr), Hk in Hsent.
  - intros Hr Hk. now rewrite (is_uk_region _ Hr), Hk in Hsent.
Qed.

(** ** The error envelope *)

Lemma getitem_raises (v : value) (k : string) (e : exn) :
  getitem v k = inl e -> e = KeyError \/ e = TypeError.
Proof.
  destruct v as [ | b | n | str | l | kv]; simpl;
    try (intros [= <-]; now right).
  destruct (assoc k kv); [discriminate | ]. intros [= <-]. now left.
Qed.

Lemma getfirst_raises (v : value) (e : exn) :
  getfirst v = inl e -> e = KeyError \/ e = IndexError \/ e = TypeError.
Proof.
  destruct v as [ | b | n | str | l | kv]; simpl;
    try (intros [= <-]; tauto).
  - destruct str; [intros [= <-]; tauto | discriminate].
  - destruct l; [intros [= <-]; tauto | discriminate].
Qed.

Lemma contains_raises (k : string) (v : value) (e : exn) :
  contains k v = inl e -> e = TypeError.
Proof.
  destruct v as [ | b | n | str | l | kv]; simpl;
    try discriminate; now intros [= <-].
Qed.

Lemma unwrap_envelope_errors (E : value -> exn) (data m : value) :
  first_error_message data m -> unwrap_envelope E data = inl (E m).
Proof.
  intros (errors & first & H1 & H2 & H3). unfold unwrap_envelope.
  destruct data as [ | b | n | str | l | kv]; try discriminate.
  simpl in *. destruct (assoc "errors" kv); [ | discriminate].
  injection H1 as ->. simpl. rewrite H2. simpl. now rewrite H3.
Qed.

(** The envelope raises [E m] only for the message of the first error,
    whatever else it may raise. *)
Lemma unwrap_envelope_raises (E : value -> exn) (data : value) (e : exn) :
  unwrap_envelope E data = inl e ->
  (exists m, e = E m /\ first_error_message data m) \/
  e = KeyError \/ e = IndexError \/ e = TypeError.
Proof.
  unfold unwrap_envelope, first_error_message.
  destruct (contains "errors" data) as [e0 | has] eqn:Hc; simpl.
  - intros [= <-]. apply contains_raises in Hc. tauto.
  - destruct has; [ | intros H; apply getitem_raises in H; tauto].
    destruct (getitem data "errors") as [e1 | errors] eqn:H1; simpl.
    { intros [= <-]. apply getitem_raises in H1. tauto. }
    destruct (getfirst errors) as [e2 | first] eqn:H2; simpl.
    { intros [= <-]. apply getfirst_raises in H2. tauto. }
    destruct (getitem first "message") as [e3 | m] eqn:H3; simpl.
    { intros [= <-]. apply getitem_raises in H3. tauto. }
    intros [= <-]. left. exists m. split; [reflexivity | ].
    now exists errors, first.
Qed.

Lemma graphql_request_with_http (s : St) token q v :
  graphql_request (self (with_http s)) token q v =
  graphql_request (self s) token q v.
Proof. unfold with_http. now destruct (_http (self s)). Qed.

Lemma graphql_run (q : string) (v : value) (s s1 : St) (token : value) :
  _get_token W s = (inr token, s1) ->
  let req := graphql_request (self s1) token q v in
  _graphql W q v s =
    (match server W (calls s1) req with
     | Raises e => inl e
     | Replies resp =>
         res_bind (raise_for_status resp) (fun _ =>
         res_bind (json_of resp) (unwrap_envelope APIError))
     end, after_send req (with_http s1)).
Proof.
  intros Ht req. unfold _graphql. rewrite (bind_inr _ _ _ _ _ Ht).
  destruct (get_http_run s1) as [h Eh]. rewrite (bind_inr _ _ _ _ _ Eh).
  unfold bind at 1, get_self at 1. rewrite graphql_request_with_http.
  fold req. unfold bind at 1. rewrite http_send_run.
  assert (Ec : calls (with_http s1) = calls s1).
  { unfold with_http. now destruct (_http (self s1)). }
  rewrite Ec. destruct (server W (calls s1) req) as [e | resp];
    [reflexivity | ].
  unfold bind, lift. simpl.
  destruct (raise_for_status resp); simpl; [reflexivity | ].
  destruct (json_of resp); reflexivity.
Qed.

(** What [store_token] returns is read off the response alone. *)
Lemma store_token_fst (resp : Response) (s : St) :
  fst (store_token W resp s) =
    res_bind (raise_for_status resp) (fun _ =>
    res_bind (json_of resp) (fun data =>
    res_bind (unwrap_envelope AuthenticationError data) (fun d =>
    res_bind (getitem d "obtainKrakenToken") (fun token_data =>
    getitem token_data "token")))).
Proof.
  unfold store_token, bind, lift, modify_self, get_self, ret, now.
  destruct (raise_for_status resp); simpl; [reflexivity | ].
  destruct (json_of resp) as [e | data]; simpl; [reflexivity | ].
  destruct (unwrap_envelope AuthenticationError data) as [e | d]; simpl;
    [reflexivity | ].
  destruct (getitem d "obtainKrakenToken") as [e | td]; simpl;
    [reflexivity | ].
  destruct (getitem td "token") as [e | token] eqn:Etok; simpl;
    [reflexivity | ].
  destruct td as [ | b | n | str | l | kv]; try discriminate. simpl.
  now destruct (assoc "refreshToken" kv).
Qed.

Lemma graphql_response_errors (data : value) :
  graphql_response data -> contains "errors" data = inr true ->
  exists m, first_error_message data m.
Proof.
  intros (kv & -> & Herr & _). simpl.
  destruct (assoc "errors" kv) as [errors | ] eqn:E; [ | discriminate].
  intros _. destruct (Herr errors eq_refl) as (first & rest & m & -> & Hm).
  exists m, (VList (first :: rest)), first. simpl. now rewrite E.
Qed.

Lemma graphql_response_data (data : value) :
  graphql_response data -> contains "errors" data = inr false ->
  exists d, getitem data "data" = inr d.
Proof.
  intros (kv & -> & _ & Hdata). simpl.
  destruct (assoc "errors" kv) as [errors | ] eqn:E; [discriminate | ].
  intros _. destruct (Hdata eq_refl) as [d Hd]. exists d. now rewrite Hd.
Qed.

Lemma first_error_message_contains (data m : value) :
  first_error_message data m -> contains "errors" data = inr true.
Proof.
  intros (errors & first & H & _).
  destruct data as [ | b | n | str | l | kv]; try discriminate. simpl in *.
  now destruct (assoc "errors" kv).
Qed.

(** C2.  Both methods read a reply through the same envelope.  With the
    parsed body [data] of the reply, a GraphQL response: [_graphql]
    raises [APIError] exactly when [data] has the "errors" key, and the
    error carries the message of the first entry of that field;
    otherwise it returns [data["data"]].  [_get_token] raises
    [AuthenticationError] with the first message exactly when the key is
    present.  Whatever the body, the error raised carries [m] exactly
    when the first entry of "errors" has message [m]. *)
Theorem error_envelope_uniform :
  (forall (s : St) (q : string) (v data : value),
     graphql_reply W s q v data ->
     (forall m, first_error_message data m <->
                fst (_graphql W q v s) = inl (APIError m)) /\
     (graphql_response data ->
      (contains "errors" data = inr true <->
       exists m, fst (_graphql W q v s) = inl (APIError m)) /\
      (contains "errors" data = inr false ->
       exists d, getitem data "data" = inr d /\
                 fst (_graphql W q v s) = inr d))) /\
  (forall (s : St) (data : value),
     token_reply W s data ->
     (forall m, first_error_message data m <->
                fst (_get_token W s) = inl (AuthenticationError m)) /\
     (graphql_response data ->
      (contains "errors" data = inr true <->
       exists m, fst (_get_token W s) = inl (AuthenticationError m)))).
Proof.
  split.
  - intros s q v data (token & s1 & resp & Ht & Hs & Hok & Hb).
    rewrite (graphql_run q v s s1 token Ht). simpl. rewrite Hs.
    unfold raise_for_status, json_of. rewrite Hok, Hb. simpl.
    assert (Hiff : forall m, first_error_message data m <->
                             unwrap_envelope APIError data = inl (APIError m)).
    { intros m. split; [apply unwrap_envelope_errors | ].
      intros H. apply unwrap_envelope_raises in H.
      destruct H as [(m' & [= ->] & H) | [H | [H | H]]];
        [exact H | discriminate ..]. }
    split; [exact Hiff | ]. intros Hwf. split; [split | ].
    + intros Hc. destruct (graphql_response_errors data Hwf Hc) as [m Hm].
      exists m. now apply Hiff.
    + intros [m Hm]. apply Hiff in Hm.
      exact (first_error_message_contains data m Hm).
    + intros Hc. destruct (graphql_response_data data Hwf Hc) as [d Hd].
      exists d. split; [exact Hd | ]. unfold unwrap_envelope. now rewrite Hc.
  - intros s data (Hn & Hu & req & resp & Hr & Hs & Hok & Hb).
    rewrite (get_token_stale s Hn Hu), Hr, Hs, store_token_fst.
    unfold raise_for_status, json_of. rewrite Hok, Hb. simpl.
    assert (Hiff : forall m,
      first_error_message data m <->
      res_bind (unwrap_envelope AuthenticationError data) (fun d =>
      res_bind (getitem d "obtainKrakenToken") (fun token_data =>
      getitem token_data "token")) = inl (AuthenticationError m)).
    { intros m. split.
      - intros H. now rewrite (unwrap_envelope_errors _ _ _ H).
      - destruct (unwrap_envelope AuthenticationError data) as [e | d] eqn:Eu;
          simpl.
        + intros [= ->]. apply unwrap_envelope_raises in Eu.
          destruct Eu as [(m' & [= ->] & H) | [H | [H | H]]];
            [exact H | discriminate ..].
        + destruct (getitem d "obtainKrakenToken") as [e | td] eqn:E1; simpl.
          { intros [= ->]. apply getitem_raises in E1.
            destruct E1; discriminate. }
          intros E2. apply getitem_raises in E2. destruct E2; discriminate. }
    split; [exact Hiff | ]. intros Hwf. split.
    + intros Hc. destruct (graphql_response_errors data Hwf Hc) as [m Hm].
      exists m. now apply Hiff.
    + intros [m Hm]. apply Hiff in Hm.
      exact (first_error_message_contains data m Hm).
Qed.

(** ** Dispatch by region *)

Lemma sent_graphql (q : string) (v : value) (s s1 : St) (token : value) :
  _get_token W s = (inr token, s1) ->
  sent (snd (_graphql W q v s)) =
    graphql_request (self s1) token q v :: sent s1.
Proof.
  intros Ht. rewrite (graphql_run q v s s1 token Ht). simpl.
  now rewrite sent_with_http.
Qed.

(** C4.  The endpoint of a client is the one [GRAPHQL_URLS] registers
    for its region, "japan" or "uk", and the Japan endpoint for any
    other value.  Every request a call of [_graphql] makes is a POST to
    the endpoint of the client, which the call leaves as it is; and once
    the token is there, the query is posted to it. *)
Theorem graphql_posts_to_region_endpoint :
  (forall (e p k a : option string) (r : string) (m ms g gs : option string),
     let c := __init__ (num := num) e p k a r m ms g gs in
     _graphql_url c = urls_get r GRAPHQL_URLS GRAPHQL_URL /\
     (r = "japan" ->
      _graphql_url c = "https://api.oejp-kraken.energy/v1/graphql/") /\
     (r = "uk" -> _graphql_url c = "https://api.octopus.energy/v1/graphql/") /\
     (r <> "japan" -> r <> "uk" ->
      _graphql_url c = "https://api.oejp-kraken.energy/v1/graphql/")) /\
  (forall (q : string) (v : value) (s : St),
     posts_to_endpoint s (snd (_graphql W q v s))) /\
  (forall (q : string) (v : value) (s s1 : St) (token : value),
     _get_token W s = (inr token, s1) ->
     sent (snd (_graphql W q v s)) =
       POST (_graphql_url (self s)) [("Authorization", token)]
         (VDict [("query", VStr q); ("variables", variables_or_empty v)])
       :: sent s1).
Proof.
  split; [ | split].
  - intros e p k a r m ms g gs c. subst c. simpl. repeat split.
    + now intros ->.
    + now intros ->.
    + intros H1 H2.
      apply String.eqb_neq in H1. apply String.eqb_neq in H2.
      now rewrite H1, H2.
  - intros q v s. apply posts_graphql.
  - intros q v s s1 token Ht. rewrite (sent_graphql q v s s1 token Ht).
    unfold graphql_request. do 2 f_equal.
    generalize (posts_get_token s). rewrite Ht. simpl. now intros [U _].
Qed.

(** ** What the client keeps *)


(** ** The account record *)

Lemma region_of_config (c c' : OctopusClient) :
  config c' = config c -> region c' = region c.
Proof. unfold config. now intros [= -> _ _ _ _ _ _ _ _]. Qed.

Lemma region_after {A} (m : M A) (s s1 : St) (r : res A) :
  keeps same_config m -> m s = (r, s1) -> region (self s1) = region (self s).
Proof.
  intros Hk Hm. apply region_of_config. generalize (Hk s). now rewrite Hm.
Qed.

Lemma first_address_some (acc p a : value) (rest : list value) :
  getitem acc "properties" = inr (VList (p :: rest)) ->
  getitem p "address" = inr a ->
  first_address acc = inr a.
Proof.
  intros H1 H2. unfold first_address.
  destruct acc as [ | b | n | str | l | kv]; try discriminate.
  simpl in *. destruct (assoc "properties" kv); [ | discriminate].
  injection H1 as ->. simpl. exact H2.
Qed.

Lemma first_address_none (kv : list (string * value)) :
  assoc "properties" kv = None \/
  assoc "properties" kv = Some VNone \/
  assoc "properties" kv = Some (VList []) ->
  first_address (VDict kv) = inr (VStr "").
Proof.
  unfold first_address. simpl. now intros [-> | [-> | ->]].
Qed.

(** C5.  With the raw account [acc] of the reply: in region "japan" the
    balance of the record is the raw balance; in region "uk" it is the
    raw balance divided by 100; name and status are the raw fields, or
    the empty string for a null; the address is that of the first
    property, or the empty string when the raw account has no
    properties. *)
Theorem get_account_normalizes
  (s s1 s2 : St) (n data acc raw billing_name st addr : value) :
  _ensure_account W s = (inr n, s1) ->
  _graphql W GET_ACCOUNT (VDict [("account", n)]) s1 = (inr data, s2) ->
  getitem data "account" = inr acc ->
  getitem acc "balance" = inr raw ->
  getitem acc "billingName" = inr billing_name ->
  getitem acc "status" = inr st ->
  first_address acc = inr addr ->
  (region (self s) = "japan" ->
   get_account W s =
     (inr (mk_Account n raw (py_or billing_name (VStr ""))
             (py_or st (VStr "")) addr), s2)) /\
  (region (self s) = "uk" ->
   forall x, as_num raw = Some x ->
   get_account W s =
     (inr (mk_Account n (VNum (num_truediv x (num_int 100)))
             (py_or billing_name (VStr "")) (py_or st (VStr "")) addr), s2)) /\
  py_or VNone (VStr "") = VStr "" /\
  (forall p rest a,
     getitem acc "properties" = inr (VList (p :: rest)) ->
     getitem p "address" = inr a -> addr = a) /\
  (getitem acc "properties" = inl KeyError \/
   getitem acc "properties" = inr VNone \/
   getitem acc "properties" = inr (VList []) -> addr = VStr "").
Proof.
  intros He Hg Ha Hb Hn Hs Hp.
  assert (Hr : region (self s2) = region (self s)).
  { rewrite (region_after _ _ _ _ (same_config_graphql _ _) Hg).
    exact (region_after _ _ _ _ same_config_ensure_account He). }
  assert (Run : forall bal,
    (if is_japan (self s2) then inr raw
     else res_bind (inr raw) (fun b => py_truediv_num b (num_int 100)))
      = inr bal ->
    get_account W s =
      (inr (mk_Account n bal (py_or billing_name (VStr ""))
              (py_or st (VStr "")) addr), s2)).
  { intros bal Hbal. unfold get_account.
    rewrite (bind_inr _ _ _ _ _ He), (bind_inr _ _ _ _ _ Hg).
    unfold bind, lift, get_self, ret. rewrite Ha.
    destruct (is_japan (self s2)); simpl in Hbal; rewrite Hb.
    - injection Hbal as <-. now rewrite Hn, Hs, Hp.
    - rewrite Hbal. now rewrite Hn, Hs, Hp. }
  repeat split.
  - intros J. apply Run. unfold is_japan. now rewrite Hr, J.
  - intros U x Hx. apply Run. unfold is_japan. rewrite Hr, U. simpl.
    unfold py_truediv_num. now rewrite Hx.
  - intros p rest a H1 H2. rewrite (first_address_some _ _ _ _ H1 H2) in Hp.
    now injection Hp.
  - destruct acc as [ | b | k | str | l | kv]; try discriminate.
    intros H. rewrite first_address_none in Hp; [now injection Hp | ].
    simpl in H. destruct (assoc "properties" kv) as [v | ].
    + destruct H as [H | [H | H]]; [discriminate | | ];
        injection H as ->; auto.
    + now left.
Qed.

(** ** Tariffs when the REST fetch fails *)

Lemma unit_rates_request_with_http kind n (s : St) pc tc :
  unit_rates_request kind n (self (with_http s)) pc tc =
  unit_rates_request kind n (self s) pc tc.
Proof. unfold with_http. now destruct (_http (self s)). Qed.

Lemma calls_with_http (s : St) : calls (with_http s) = calls s.
Proof. unfold with_http. now destruct (_http (self s)). Qed.

Lemma fetch_unit_rates_fails (c : OctopusClient) pc tc (s : St) :
  rest_fails W (calls s)
    (unit_rates_request "/electricity-tariffs/" 10 c pc tc) ->
  fst (fetch_unit_rates W c pc tc s) = inl HTTPError.
Proof.
  unfold fetch_unit_rates, bind. rewrite http_send_run.
  intros [-> | (resp & -> & Hok)]; [reflexivity | ].
  unfold lift, raise_for_status. now rewrite Hok.
Qed.

Lemma fetch_gas_unit_rate_fails (c : OctopusClient) pc tc (s : St) :
  rest_fails W (calls s) (unit_rates_request "/gas-tariffs/" 1 c pc tc) ->
  fst (fetch_gas_unit_rate W c pc tc s) = inl HTTPError.
Proof.
  unfold fetch_gas_unit_rate, bind. rewrite http_send_run.
  intros [-> | (resp & -> & Hok)]; [reflexivity | ].
  unfold lift, raise_for_status. now rewrite Hok.
Qed.

Lemma try_except_caught {A} (m h : M A) (caught : exn -> bool) s e :
  fst (m s) = inl e -> caught e = true ->
  try_except m caught h s = h (snd (m s)).
Proof.
  unfold try_except. destruct (m s) as [[e' | a] s']; simpl;
    [ | discriminate].
  intros [= ->] ->. reflexivity.
Qed.

(** An object that answered one [get] answers every [get]. *)
Lemma dict_get_again (v : value) (k k' : string) (d x d' : value) :
  dict_get v k d = inr x -> exists y, dict_get v k' d' = inr y.
Proof.
  destruct v as [ | b | n | str | l | kv]; try discriminate. simpl.
  intros _. destruct (assoc k' kv); eexists; reflexivity.
Qed.

(** C6.  When the GraphQL half has found an agreement and the REST
    fetch of the unit rates fails with an HTTP error, [get_tariff] still
    returns a [Tariff], with an empty rates map and neither peak nor
    off-peak rate, and [get_gas_tariff] still returns a [GasTariff], with
    unit rate 0. *)
Theorem tariffs_survive_rest_failure :
  (forall (r : string) (s s1 : St) (tariff_data pc : value),
     tariff_lookup W GET_TARIFF "electricityAgreements" s s1 tariff_data pc ->
     rest_fails W (calls s1)
       (unit_rates_request "/electricity-tariffs/" 10 (self s1) pc
          ("E-1R-" ++ format_value pc ++ "-" ++ r)) ->
     exists display_name charge s2,
       dict_get tariff_data "displayName" (VStr "Unknown") = inr display_name /\
       dict_get tariff_data "standingCharge" (VNum (num_int 0)) = inr charge /\
       get_tariff W r s =
         (inr (Some (mk_Tariff display_name pc charge [] VNone VNone
                       "23:30" "05:30")), s2)) /\
  (forall (r : string) (s s1 : St) (tariff_data pc : value),
     tariff_lookup W GET_GAS_TARIFF "gasAgreements" s s1 tariff_data pc ->
     rest_fails W (calls s1)
       (unit_rates_request "/gas-tariffs/" 1 (self s1) pc
          ("G-1R-" ++ format_value pc ++ "-" ++ r)) ->
     exists display_name charge s2,
       dict_get tariff_data "displayName" (VStr "Unknown") = inr display_name /\
       dict_get tariff_data "standingCharge" (VNum (num_int 0)) = inr charge /\
       get_gas_tariff W r s =
         (inr (Some (mk_GasTariff display_name pc charge (VNum (num_int 0)))),
          s2)).
Proof.
  split.
  - intros r s s1 td pc
      (data & acc & ags & ag & Hg & Ha & Hags & Ht & Hag & Htd & Hpc) Hf.
    destruct (dict_get_again td _ "displayName" _ _ (VStr "Unknown") Hpc)
      as [dn Hdn].
    destruct (dict_get_again td _ "standingCharge" _ _ (VNum (num_int 0)) Hpc)
      as [ch Hch].
    exists dn, ch. eexists. split; [exact Hdn | split; [exact Hch | ]].
    unfold get_tariff.
    unfold bind at 1, get_self at 1. rewrite (bind_inr _ _ _ _ _ Hg).
    rewrite (bind_lift_inr _ _ _ _ Ha), (bind_lift_inr _ _ _ _ Hags), Ht.
    cbv beta iota delta [negb].
    rewrite (bind_lift_inr _ _ _ _ Hag), (bind_lift_inr _ _ _ _ Htd).
    rewrite (bind_lift_inr _ _ _ _ Hpc).
    destruct (get_http_run s1) as [h Eh]. rewrite (bind_inr _ _ _ _ _ Eh).
    cbv zeta. unfold bind at 1, get_self at 1.
    rewrite <- unit_rates_request_with_http, <- calls_with_http in Hf.
    apply fetch_unit_rates_fails in Hf.
    unfold bind at 1. rewrite (try_except_caught _ _ _ _ _ Hf eq_refl).
    unfold ret at 1. simpl first_four.
    unfold bind, lift, ret. simpl. rewrite Hdn, Hch. reflexivity.
  - intros r s s1 td pc
      (data & acc & ags & ag & Hg & Ha & Hags & Ht & Hag & Htd & Hpc) Hf.
    destruct (dict_get_again td _ "displayName" _ _ (VStr "Unknown") Hpc)
      as [dn Hdn].
    destruct (dict_get_again td _ "standingCharge" _ _ (VNum (num_int 0)) Hpc)
      as [ch Hch].
    exists dn, ch. eexists. split; [exact Hdn | split; [exact Hch | ]].
    unfold get_gas_tariff.
    unfold bind at 1, get_self at 1. rewrite (bind_inr _ _ _ _ _ Hg).
    rewrite (bind_lift_inr _ _ _ _ Ha), (bind_lift_inr _ _ _ _ Hags), Ht.
    cbv beta iota delta [negb].
    rewrite (bind_lift_inr _ _ _ _ Hag), (bind_lift_inr _ _ _ _ Htd).
    rewrite (bind_lift_inr _ _ _ _ Hpc).
    destruct (get_http_run s1) as [h Eh]. rewrite (bind_inr _ _ _ _ _ Eh).
    cbv zeta. unfold bind at 1, get_self at 1.
    rewrite <- unit_rates_request_with_http, <- calls_with_http in Hf.
    apply fetch_gas_unit_rate_fails in Hf.
    unfold bind at 1. rewrite (try_except_caught _ _ _ _ _ Hf eq_refl).
    unfold ret at 1.
    unfold bind, lift, ret. rewrite Hdn, Hch. reflexivity.
Qed.

(** ** Gas readings by magnitude *)

Lemma map_res_Forall2 {A B} (f : A -> res B) (P : A -> B -> Prop)
  (l : list A) :
  Forall (fun x => exists y, f x = inr y /\ P x y) l ->
  exists ys, map_res f l = inr ys /\ Forall2 P l ys.
Proof.
  induction 1 as [ | x l (y & Hy & Py) _ (ys & Hys & Pys)].
  - exists []. split; [reflexivity | constructor].
  - exists (y :: ys). simpl. rewrite Hy. simpl. rewrite Hys.
    split; [reflexivity | now constructor].
Qed.

Lemma map_res_inv {A B} (f : A -> res B) (l : list A) (ys : list B) :
  map_res f l = inr ys -> Forall2 (fun x y => f x = inr y) l ys.
Proof.
  revert ys. induction l as [ | x l IH]; simpl; intros ys.
  - intros [= <-]. constructor.
  - destruct (f x) as [e | y] eqn:Hy; simpl; [discriminate | ].
    destruct (map_res f l) as [e | zs]; simpl; [discriminate | ].
    intros [= <-]. constructor; [exact Hy | now apply IH].
Qed.

Lemma gas_reading_classified (r : value) (g : GasConsumption num) :
  gas_reading r = inr g ->
  forall v, getitem r "consumption" = inr (VNum v) -> classified r g.
Proof.
  intros Hg v Hv. exists v. split; [exact Hv | ].
  revert Hg. unfold gas_reading. rewrite Hv. simpl.
  destruct (num_lt v (num_int 10)); simpl;
    destruct (getitem r "interval_start") as [e | a]; simpl;
      try discriminate;
    destruct (parse_datetime a) as [e | da]; simpl; try discriminate;
    destruct (getitem r "interval_end") as [e | b]; simpl; try discriminate;
    destruct (parse_datetime b) as [e | db]; simpl; try discriminate;
    intros [= <-]; now split.
Qed.

Lemma gas_reading_ok (r : value) :
  gas_row_ok r -> exists g, gas_reading r = inr g /\ classified r g.
Proof.
  intros ((v & Hv) & (a & da & Ha & Hda) & (b & db & Hb & Hdb)).
  assert (E : exists g, gas_reading r = inr g).
  { unfold gas_reading. rewrite Hv. simpl.
    destruct (num_lt v (num_int 10)); simpl;
      rewrite Ha; simpl; rewrite Hda; simpl; rewrite Hb; simpl;
      rewrite Hdb; simpl; eexists; reflexivity. }
  destruct E as [g Hg]. exists g. split; [exact Hg | ].
  exact (gas_reading_classified r g Hg v Hv).
Qed.

Lemma get_gas_consumption_run p a b (s : St) (rs : list value) :
  gas_reply W s p a b rs ->
  fst (get_gas_consumption W p a b s) = map_res gas_reading rs.
Proof.
  intros (Hm & Hs & resp & data & Hr & Hok & Hb & Hres).
  unfold get_gas_consumption. unfold bind at 1, get_self at 1.
  rewrite Hm, Hs. cbv beta iota delta [negb orb].
  destruct (get_http_run s) as [h Eh]. rewrite (bind_inr _ _ _ _ _ Eh).
  unfold bind at 1. rewrite http_send_run, calls_with_http, Hr.
  unfold bind, lift, raise_for_status, json_of. rewrite Hok, Hb, Hres.
  reflexivity.
Qed.


(** ** Loops that append *)

Lemma for_each_Forall {A B} (f : A -> res (list B)) (P : B -> Prop)
  (l : list A) :
  (forall x ys, f x = inr ys -> Forall P ys) ->
  forall zs, for_each f l = inr zs -> Forall P zs.
Proof.
  intros Hf. induction l as [ | x l IH]; simpl; intros zs.
  - intros [= <-]. constructor.
  - destruct (f x) as [e | ys] eqn:Hx; simpl; [discriminate | ].
    destruct (for_each f l) as [e | ws]; simpl; [discriminate | ].
    intros [= <-]. apply Forall_app. split; [now apply (Hf x) | now apply IH].
Qed.

Lemma for_each_singletons {A} (l : list A) :
  for_each (num := num) (fun x => inr [x]) l = inr l.
Proof.
  induction l as [ | x l IH]; simpl; [reflexivity | now rewrite IH].
Qed.

Lemma for_each_app_inv {A B} (g : A -> res (list B)) (l1 l2 : list A)
  (zs : list B) :
  for_each g (l1 ++ l2) = inr zs ->
  exists z1 z2,
    for_each g l1 = inr z1 /\ for_each g l2 = inr z2 /\ zs = (z1 ++ z2)%list.
Proof.
  revert zs. induction l1 as [ | x l1 IH]; simpl; intros zs H.
  - exists [], zs. auto.
  - destruct (g x) as [e | ys]; simpl in *; [discriminate | ].
    destruct (for_each g (l1 ++ l2)) as [e | ws] eqn:E; simpl in *;
      [discriminate | ].
    injection H as <-. destruct (IH ws eq_refl) as (z1 & z2 & -> & H2 & ->).
    exists (ys ++ z1)%list, z2. simpl. now rewrite app_assoc.
Qed.

(** Visiting with [g] what [f] collects is visiting with [h], when it is
    so at every turn. *)
Lemma for_each_compose {A B C} (f : A -> res (list B))
  (g : B -> res (list C)) (h : A -> res (list C)) :
  (forall x ys zs, f x = inr ys -> for_each g ys = inr zs -> h x = inr zs) ->
  forall l ys zs,
    for_each f l = inr ys -> for_each g ys = inr zs -> for_each h l = inr zs.
Proof.
  intros Hh. induction l as [ | x l IH]; simpl; intros ys zs.
  - intros [= <-]. simpl. auto.
  - destruct (f x) as [e | y1] eqn:Hx; simpl; [discriminate | ].
    destruct (for_each f l) as [e | y2]; simpl; [discriminate | ].
    intros [= <-] Hg. apply for_each_app_inv in Hg.
    destruct Hg as (z1 & z2 & H1 & H2 & ->).
    rewrite (Hh x y1 z1 Hx H1). simpl. now rewrite (IH y2 z2 eq_refl H2).
Qed.

Lemma for_each_total {A B} (f : A -> res (list B)) (g : A -> list B)
  (l : list A) :
  Forall (fun x => f x = inr (g x)) l -> for_each f l = inr (flat_map g l).
Proof.
  induction 1 as [ | x l Hx _ IH]; simpl; [reflexivity | ].
  now rewrite Hx, IH.
Qed.

Lemma walk_supply_point_compose {B} (step : value -> res (list B))
  (sp : value) (rs : list value) (zs : list B) :
  walk_supply_point (fun r => inr [r]) sp = inr rs ->
  for_each step rs = inr zs -> walk_supply_point step sp = inr zs.
Proof.
  unfold walk_supply_point.
  destruct (dict_get sp "halfHourlyReadings" (VList [])) as [e | x]; simpl;
    [discriminate | ].
  destruct (iter x) as [e | l]; simpl; [discriminate | ].
  rewrite for_each_singletons. now intros [= <-].
Qed.

Lemma walk_property_compose {B} (step : value -> res (list B))
  (prop : value) (rs : list value) (zs : list B) :
  walk_property (fun r => inr [r]) prop = inr rs ->
  for_each step rs = inr zs -> walk_property step prop = inr zs.
Proof.
  unfold walk_property.
  destruct (dict_get prop "electricitySupplyPoints" (VList [])) as [e | x];
    simpl; [discriminate | ].
  destruct (iter x) as [e | l]; simpl; [discriminate | ].
  apply for_each_compose. intros sp. apply walk_supply_point_compose.
Qed.

Lemma walk_account_compose {B} (step : value -> res (list B))
  (data : value) (rs : list value) (zs : list B) :
  walk_account (fun r => inr [r]) data = inr rs ->
  for_each step rs = inr zs -> walk_account step data = inr zs.
Proof.
  unfold walk_account.
  destruct (dict_get data "account" (VDict [])) as [e | acc]; simpl;
    [discriminate | ].
  destruct (dict_get acc "properties" (VList [])) as [e | x]; simpl;
    [discriminate | ].
  destruct (iter x) as [e | l]; simpl; [discriminate | ].
  apply for_each_compose. intros prop. apply walk_property_compose.
Qed.

Lemma walk_account_Forall {B} (step : value -> res (list B)) (P : B -> Prop)
  (data : value) (zs : list B) :
  (forall r ys, step r = inr ys -> Forall P ys) ->
  walk_account step data = inr zs -> Forall P zs.
Proof.
  intros Hs. unfold walk_account.
  destruct (dict_get data "account" (VDict [])) as [e | acc]; simpl;
    [discriminate | ].
  destruct (dict_get acc "properties" (VList [])) as [e | x]; simpl;
    [discriminate | ].
  destruct (iter x) as [e | l]; simpl; [discriminate | ].
  apply for_each_Forall. intros prop ys. unfold walk_property.
  destruct (dict_get prop "electricitySupplyPoints" (VList [])) as [e | y];
    simpl; [discriminate | ].
  destruct (iter y) as [e | l']; simpl; [discriminate | ].
  apply for_each_Forall. intros sp ws. unfold walk_supply_point.
  destruct (dict_get sp "halfHourlyReadings" (VList [])) as [e | z]; simpl;
    [discriminate | ].
  destruct (iter z) as [e | l'']; simpl; [discriminate | ].
  now apply for_each_Forall.
Qed.

(** ** Sorting by start *)

Section Sorting.
Context {A : Type} (key : A -> datetime).

Let le_key (x y : A) : Prop := dt_key (key x) <= dt_key (key y).

Lemma insert_by_perm (x : A) (l : list A) :
  Permutation (x :: l) (insert_by key x l).
Proof.
  induction l as [ | y l IH]; simpl; [reflexivity | ].
  destruct (dt_key (key y) <? dt_key (key x)); [ | reflexivity].
  rewrite perm_swap. now apply perm_skip.
Qed.

Lemma sort_by_perm (l : list A) : Permutation l (sort_by key l).
Proof.
  induction l as [ | x l IH]; simpl; [reflexivity | ].
  rewrite <- insert_by_perm. now apply perm_skip.
Qed.

Lemma insert_by_sorted (x : A) (l : list A) :
  StronglySorted le_key l -> StronglySorted le_key (insert_by key x l).
Proof.
  induction 1 as [ | y l Hs IH Hy]; simpl.
  - repeat constructor.
  - destruct (dt_key (key y) <? dt_key (key x)) eqn:E.
    + constructor; [exact IH | ].
      apply (Permutation_Forall (insert_by_perm x l)).
      constructor; [ | exact Hy].
      apply Z.ltb_lt in E. unfold le_key. lia.
    + apply Z.ltb_ge in E. constructor; [now constructor | ].
      constructor; [exact E | ].
      eapply Forall_impl; [ | exact Hy].
      unfold le_key. intros z Hz. lia.
Qed.

Lemma sort_by_sorted (l : list A) : StronglySorted le_key (sort_by key l).
Proof.
  induction l as [ | x l IH]; simpl; [constructor | ].
  now apply insert_by_sorted.
Qed.

Lemma comparable_all (l : list A) :
  comparable (map key l) = true ->
  forall x y, In x l -> In y l -> is_aware (key x) = is_aware (key y).
Proof.
  destruct l as [ | h l]; simpl; [contradiction | ].
  intros Hc.
  assert (Hh : forall z, h = z \/ In z l -> is_aware (key z) = is_aware (key h)).
  { intros z [<- | Hz]; [reflexivity | ].
    rewrite forallb_forall in Hc.
    apply Bool.eqb_prop, Hc, in_map, Hz. }
  intros x y Hx Hy. now rewrite (Hh x Hx), (Hh y Hy).
Qed.

(** Sorted keys of one kind are in the order of Python's [<]. *)
Lemma sorted_never_before (l : list A) :
  StronglySorted le_key l ->
  (forall x y, In x l -> In y l -> is_aware (key x) = is_aware (key y)) ->
  StronglySorted
    (fun c d => dt_lt (num := num) (key d) (key c) = inr false) l.
Proof.
  induction 1 as [ | x l Hs IH Hx]; intros Ha; constructor.
  - apply IH. intros a b Ha' Hb'. apply Ha; now right.
  - rewrite Forall_forall in *. intros d Hd. unfold dt_lt.
    rewrite (Ha d x (or_intror Hd) (or_introl eq_refl)).
    rewrite Bool.eqb_reflx. f_equal. apply Z.ltb_ge. exact (Hx d Hd).
Qed.

Lemma py_sorted_inv (l r : list A) :
  py_sorted (num := num) key l = inr r ->
  r = sort_by key l /\ comparable (map key l) = true.
Proof.
  unfold py_sorted. destruct (comparable (map key l)); [ | discriminate].
  now intros [= <-].
Qed.

Lemma py_sorted_ascending (l r : list A) :
  py_sorted (num := num) key l = inr r ->
  Permutation l r /\
  StronglySorted
    (fun c d => dt_lt (num := num) (key d) (key c) = inr false) r.
Proof.
  intros H. apply py_sorted_inv in H. destruct H as [-> Hc].
  split; [apply sort_by_perm | ].
  apply sorted_never_before; [apply sort_by_sorted | ].
  intros x y Hx Hy.
  apply (comparable_all l Hc);
    eapply Permutation_in; try eassumption;
    apply Permutation_sym, sort_by_perm.
Qed.

End Sorting.

(** ** Half-hourly readings *)

Lemma japan_reading_half_hour (r : value) (c : Consumption num) :
  japan_reading r = inr c -> half_hour_long c.
Proof.
  unfold japan_reading, half_hour_long.
  destruct (getitem r "startAt") as [e | sa]; simpl; [discriminate | ].
  destruct (parse_datetime sa) as [e | d]; simpl; [discriminate | ].
  destruct (getitem r "value") as [e | v]; simpl; [discriminate | ].
  destruct (py_float v) as [e | k]; simpl; [discriminate | ].
  destruct (dict_get r "costEstimate" VNone) as [e | ce]; simpl;
    [discriminate | ].
  destruct (py_float (py_or ce (VNum (num_int 0)))) as [e | cost]; simpl;
    [discriminate | ].
  now intros [= <-].
Qed.

Lemma py_float_raises (v : value) (e : exn) :
  py_float v = inl e -> caught_parse e = true.
Proof.
  destruct v as [ | b | n | str | l | kv]; simpl;
    try discriminate; try (now intros [= <-]).
  destruct (float_of_str str); [discriminate | now intros [= <-]].
Qed.

(** Every exception the [try] can raise for a reading whose "startAt"
    is a string is one of the caught ones. *)
Lemma japan_reading_raises (r : value) (e : exn) :
  start_is_str r -> japan_reading r = inl e -> caught_parse e = true.
Proof.
  intros Hstr. unfold japan_reading.
  destruct (getitem r "startAt") as [e1 | sa] eqn:Hsa; simpl.
  { intros [= <-]. apply getitem_raises in Hsa. now destruct Hsa as [-> | ->]. }
  destruct (Hstr sa Hsa) as [str ->]. unfold parse_datetime. simpl.
  destruct (fromisoformat (replace_Z str)) as [d | ]; simpl;
    [ | now intros [= <-]].
  destruct (getitem r "value") as [e1 | v] eqn:Hv; simpl.
  { intros [= <-]. apply getitem_raises in Hv. now destruct Hv as [-> | ->]. }
  destruct (py_float v) as [e1 | k] eqn:Hk; simpl.
  { intros [= <-]. exact (py_float_raises _ _ Hk). }
  assert (Hd : exists ce, dict_get r "costEstimate" VNone = inr ce).
  { destruct r as [ | b | n | s0 | l | kv]; try discriminate. simpl.
    destruct (assoc "costEstimate" kv); eexists; reflexivity. }
  destruct Hd as [ce ->]. simpl.
  destruct (py_float (py_or ce (VNum (num_int 0)))) as [e1 | cost] eqn:Hc;
    simpl; [ | discriminate].
  intros [= <-]. exact (py_float_raises _ _ Hc).
Qed.

Lemma japan_step_parsed (r : value) :
  start_is_str r -> japan_step r = inr (parsed r).
Proof.
  intros Hstr. unfold japan_step, parsed.
  destruct (japan_reading r) as [e | c] eqn:E; [ | reflexivity].
  now rewrite (japan_reading_raises r e Hstr E).
Qed.

Lemma japan_step_half_hour (r : value) (ys : list (Consumption num)) :
  japan_step r = inr ys -> Forall half_hour_long ys.
Proof.
  unfold japan_step. destruct (japan_reading r) as [e | c] eqn:E.
  - destruct (caught_parse e); [ | discriminate]. intros [= <-]. constructor.
  - intros [= <-]. constructor; [ | constructor].
    exact (japan_reading_half_hour r c E).
Qed.


(** ** Daily totals *)

Lemma assoc_dict_set (k k' : string) (v : value) (d : list (string * value)) :
  assoc k (dict_set k' v d) = if String.eqb k k' then Some v else assoc k d.
Proof.
  induction d as [ | [k0 v0] d IH]; simpl.
  - reflexivity.
  - destruct (String.eqb k' k0) eqn:E0; simpl.
    + apply String.eqb_eq in E0. subst k0.
      now destruct (String.eqb k k').
    + destruct (String.eqb k k0) eqn:E1; [ | exact IH].
      apply String.eqb_eq in E1. subst k0.
      rewrite String.eqb_sym in E0. now rewrite E0.
Qed.

Lemma keys_dict_set (k : string) (v : value) (d : list (string * value)) :
  map fst (dict_set k v d) =
    match assoc k d with
    | Some _ => map fst d
    | None => (map fst d ++ [k])%list
    end.
Proof.
  induction d as [ | [k0 v0] d IH]; simpl; [reflexivity | ].
  destruct (String.eqb k k0) eqn:E; simpl.
  - apply String.eqb_eq in E. now subst k0.
  - rewrite IH. now destruct (assoc k d).
Qed.

Lemma assoc_None_keys (k : string) (d : list (string * value)) :
  assoc k d = None <-> ~ In k (map fst d).
Proof.
  induction d as [ | [k0 v0] d IH]; simpl; [tauto | ].
  destruct (String.eqb k k0) eqn:E.
  - apply String.eqb_eq in E. subst k0. split; [discriminate | tauto].
  - apply String.eqb_neq in E. rewrite IH. split.
    + intros H [H1 | H1]; [now apply E | now apply H].
    + tauto.
Qed.

Lemma assoc_In (k : string) (v : value) (d : list (string * value)) :
  NoDup (map fst d) -> In (k, v) d -> assoc k d = Some v.
Proof.
  induction d as [ | [k0 v0] d IH]; simpl; [contradiction | ].
  intros Hn [H | H].
  - injection H as -> ->. now rewrite String.eqb_refl.
  - inversion Hn as [ | ? ? Hk Hd]; subst.
    destruct (String.eqb k k0) eqn:E; [ | now apply IH].
    apply String.eqb_eq in E. subst k0. exfalso. apply Hk.
    now apply (in_map fst) in H.
Qed.

Lemma NoDup_dict_set (k : string) (v : value) (d : list (string * value)) :
  NoDup (map fst d) -> NoDup (map fst (dict_set k v d)).
Proof.
  intros Hn. rewrite keys_dict_set.
  destruct (assoc k d) eqn:E; [exact Hn | ].
  apply assoc_None_keys in E.
  apply NoDup_app; [exact Hn | repeat constructor; simpl; tauto | ].
  intros x Hx [<- | []]. now apply E.
Qed.

Lemma assoc_Some_In (k : string) (v : value) (d : list (string * value)) :
  assoc k d = Some v -> In (k, v) d.
Proof.
  induction d as [ | [k0 v0] d IH]; simpl; [discriminate | ].
  destruct (String.eqb k k0) eqn:E.
  - apply String.eqb_eq in E. subst k0. intros [= ->]. now left.
  - intros H. right. now apply IH.
Qed.

Lemma all_num_dict_set (k : string) (x : num) (d : list (string * value)) :
  all_num d -> all_num (dict_set k (VNum x) d).
Proof.
  unfold all_num. induction 1 as [ | [k0 v0] d H0 Hd IH]; simpl.
  - repeat constructor. now exists x.
  - destruct (String.eqb k k0).
    + constructor; [now exists x | exact Hd].
    + now constructor.
Qed.

Lemma add_to_day_run (d : list (string * value)) (k : string) (v : value)
  (y : num) :
  all_num d -> as_num v = Some y ->
  add_to_day d k v = inr (dict_set k (VNum (num_add (so_far k d) y)) d).
Proof.
  intros Hd Hv. unfold add_to_day, so_far, py_add, num_of.
  destruct (assoc k d) as [w | ] eqn:E.
  - apply assoc_Some_In in E. unfold all_num in Hd.
    rewrite Forall_forall in Hd. destruct (Hd _ E) as [x Hx].
    simpl in Hx. subst w. simpl. now rewrite Hv.
  - simpl. now rewrite Hv.
Qed.

Section DailyLoop.
Context {A : Type} (day : A -> string) (kw : A -> value).

Let amounts (k : string) (l : list A) : list num :=
  map (fun a => num_of (kw a)) (filter (fun a => String.eqb k (day a)) l).

Lemma daily_loop_spec (l : list A) :
  forall d0,
    Forall (fun a => exists y, as_num (kw a) = Some y) l ->
    all_num d0 -> NoDup (map fst d0) ->
    exists d1,
      daily_loop day kw l d0 = inr d1 /\
      all_num d1 /\ NoDup (map fst d1) /\
      forall k,
        assoc k d1 =
          match amounts k l with
          | [] => assoc k d0
          | xs => Some (VNum (fold_left num_add xs (so_far k d0)))
          end.
Proof.
  induction l as [ | a l IH]; intros d0 Hl Hd Hn.
  - exists d0. repeat split; auto.
  - inversion Hl as [ | ? ? [y Hy] Hl']; subst. simpl.
    rewrite (add_to_day_run d0 (day a) (kw a) y Hd Hy). simpl.
    set (d := dict_set (day a) (VNum (num_add (so_far (day a) d0) y)) d0).
    destruct (IH d Hl' (all_num_dict_set _ _ _ Hd)
                (NoDup_dict_set _ _ _ Hn)) as (d1 & Hrun & Hd1 & Hn1 & Hk).
    exists d1. repeat split; auto.
    intros k. rewrite Hk. unfold amounts, so_far, d. simpl.
    rewrite assoc_dict_set.
    destruct (String.eqb k (day a)) eqn:E; simpl.
    + apply String.eqb_eq in E. subst k.
      assert (Ey : num_of (kw a) = y) by (unfold num_of; now rewrite Hy).
      rewrite Ey. fold (so_far (day a) d0).
      now destruct (map (fun a0 => num_of (kw a0))
                      (filter (fun a0 => String.eqb (day a) (day a0)) l)).
    + reflexivity.
Qed.

End DailyLoop.

(** *** Totals in exact arithmetic *)

Section Exact.
Context {EA : ExactAdd num}.

Lemma num_add_0_r (a : num) : num_add a (num_int 0) = a.
Proof. rewrite num_add_comm. apply num_add_0_l. Qed.

Lemma fold_add_shift (l : list num) (a : num) :
  fold_left num_add l a = num_add a (sum_nums l).
Proof.
  unfold sum_nums. revert a. induction l as [ | x l IH]; intros a; simpl.
  - now rewrite num_add_0_r.
  - rewrite (IH (num_add a x)), (IH (num_add (num_int 0) x)).
    now rewrite num_add_0_l, num_add_assoc.
Qed.

Lemma values_sum_cons (k : string) (v : value) (d : list (string * value)) :
  values_sum ((k, v) :: d) = num_add (num_of v) (values_sum d).
Proof.
  unfold values_sum at 1, sum_nums. simpl.
  now rewrite fold_add_shift, num_add_0_l.
Qed.

Lemma values_sum_dict_set (k : string) (y : num) (d : list (string * value)) :
  values_sum (dict_set k (VNum (num_add (so_far k d) y)) d) =
  num_add (values_sum d) y.
Proof.
  induction d as [ | [k0 v0] d IH].
  - unfold so_far. simpl. rewrite values_sum_cons. unfold values_sum, sum_nums.
    simpl. unfold num_of. simpl. now rewrite num_add_0_r.
  - unfold so_far. simpl. destruct (String.eqb k k0) eqn:E.
    + rewrite !values_sum_cons. unfold num_of at 1. simpl.
      rewrite <- !num_add_assoc. f_equal. apply num_add_comm.
    + rewrite !values_sum_cons. fold (so_far k d). rewrite IH.
      now rewrite num_add_assoc.
Qed.

Lemma daily_loop_total {A} (day : A -> string) (kw : A -> value)
  (l : list A) :
  forall d0 d1,
    Forall (fun a => exists y, as_num (kw a) = Some y) l ->
    all_num d0 ->
    daily_loop day kw l d0 = inr d1 ->
    values_sum d1 =
      num_add (values_sum d0) (sum_nums (map (fun a => num_of (kw a)) l)).
Proof.
  induction l as [ | a l IH]; intros d0 d1 Hl Hd; simpl.
  - intros [= <-]. unfold sum_nums. simpl. now rewrite num_add_0_r.
  - inversion Hl as [ | ? ? [y Hy] Hl']; subst.
    rewrite (add_to_day_run d0 (day a) (kw a) y Hd Hy). simpl. intros Hrun.
    rewrite (IH _ _ Hl' (all_num_dict_set _ _ _ Hd) Hrun).
    rewrite values_sum_dict_set.
    assert (Ey : num_of (kw a) = y) by (unfold num_of; now rewrite Hy).
    unfold sum_nums at 2. simpl. rewrite Ey, fold_add_shift, num_add_0_l.
    now rewrite num_add_assoc.
Qed.

End Exact.

Lemma filter_nil_iff {A} (f : A -> bool) (l : list A) :
  filter f l = [] <-> forall a, In a l -> f a = false.
Proof.
  induction l as [ | x l IH]; simpl.
  - split; [intros _ a [] | reflexivity].
  - destruct (f x) eqn:E.
    + split; [discriminate | ].
      intros H. rewrite (H x (or_introl eq_refl)) in E. discriminate.
    + rewrite IH. split.
      * intros H a [<- | Ha]; [exact E | now apply H].
      * intros H a Ha. apply H. now right.
Qed.


(** * Further properties of the client *)

(** ** The account number is discovered once *)

(** X1.  [_ensure_account] returns the account number the client has
    without sending anything.  Without one, a client of a region other
    than "japan" raises [ConfigurationError] at once; a "japan" client
    asks the viewer query, stores the number of the first account and
    returns it, and raises [ConfigurationError] when the viewer has no
    account.  Whatever number a call returns is the one the client then
    holds, and when it is a true value the next call returns it again
    and leaves the state as it is. *)
Theorem ensure_account_discovers_once (s : St) :
  (truthy (account (self s)) = true ->
   _ensure_account W s = (inr (account (self s)), s)) /\
  (truthy (account (self s)) = false -> is_japan (self s) = false ->
   _ensure_account W s =
     (inl (ConfigurationError (VStr "Account number required for UK region")),
      s)) /\
  (truthy (account (self s)) = false -> is_japan (self s) = true ->
   forall data s1 viewer accounts,
     _graphql W ACCOUNT_VIEWER VNone s = (inr data, s1) ->
     dict_get data "viewer" (VDict []) = inr viewer ->
     dict_get viewer "accounts" (VList []) = inr accounts ->
     (truthy accounts = false ->
      _ensure_account W s =
        (inl (ConfigurationError (VStr "No account found for this user")),
         s1)) /\
     (forall first rest n,
        accounts = VList (first :: rest) -> getitem first "number" = inr n ->
        _ensure_account W s =
          (inr n,
           mk_St (set_account n (self s1)) (ticks s1) (calls s1) (sent s1)))) /\
  (forall n s',
     _ensure_account W s = (inr n, s') ->
     account (self s') = n /\
     (truthy n = true -> _ensure_account W s' = (inr n, s'))).
Proof.
  assert (Known : forall s0 : St,
    truthy (account (self s0)) = true ->
    _ensure_account W s0 = (inr (account (self s0)), s0)).
  { intros s0 H. unfold _ensure_account, bind, get_self, ret. simpl.
    now rewrite H. }
  split; [apply Known | split; [ | split]].
  - intros Ha Hj. unfold _ensure_account, bind, get_self, raise. simpl.
    now rewrite Ha, Hj.
  - intros Ha Hj data s1 viewer accounts Hg Hv Hacc.
    assert (Run : _ensure_account W s =
      (if truthy accounts then
         first <- lift (getfirst accounts) ;;
         n <- lift (getitem first "number") ;;
         modify_self (set_account n) ;;
         c' <- get_self ;;
         ret (account c')
       else raise (ConfigurationError (VStr "No account found for this user")))
        s1).
    { unfold _ensure_account. unfold bind at 1, get_self at 1.
      rewrite Ha, Hj. rewrite (bind_inr _ _ _ _ _ Hg).
      rewrite (bind_lift_inr _ _ _ _ Hv).
      now rewrite (bind_lift_inr _ _ _ _ Hacc). }
    split.
    + intros Ht. rewrite Run, Ht. reflexivity.
    + intros first rest n -> Hn. rewrite Run. simpl truthy. cbv iota.
      unfold bind, lift, modify_self, get_self, ret. simpl. now rewrite Hn.
  - intros n s' Hrun.
    assert (Hacc : account (self s') = n).
    { revert Hrun. unfold _ensure_account. unfold bind at 1, get_self at 1.
      destruct (truthy (account (self s))).
      - unfold ret. now intros [= <- <-].
      - destruct (is_japan (self s)); [ | discriminate].
        unfold bind at 1.
        destruct (_graphql W ACCOUNT_VIEWER VNone s) as [[e | data] s1];
          [discriminate | ].
        unfold bind, lift, modify_self, get_self, ret, raise.
        destruct (dict_get data "viewer" (VDict [])) as [e | viewer];
          [discriminate | ].
        destruct (dict_get viewer "accounts" (VList [])) as [e | accounts];
          [discriminate | ].
        destruct (truthy accounts); [ | discriminate].
        destruct (getfirst accounts) as [e | first]; [discriminate | ].
        destruct (getitem first "number") as [e | k]; [discriminate | ].
        simpl. now intros [= <- <-]. }
    split; [exact Hacc | ]. intros Ht. rewrite <- Hacc. apply Known.
    now rewrite Hacc.
Qed.

(** ** The REST readings of a meter *)

Lemma is_prefix_app (p s : string) : is_prefix p (p ++ s) = true.
Proof.
  induction p as [ | a p IH]; simpl; [reflexivity | ].
  now rewrite Ascii.eqb_refl, IH.
Qed.

Lemma map_res_raises {A B} (f : A -> res B) (l : list A) (x : A) (e : exn) :
  In x l -> f x = inl e -> exists e', map_res f l = inl e'.
Proof.
  induction l as [ | y l IH]; simpl; [contradiction | ].
  intros [-> | Hx] He.
  - rewrite He. now exists e.
  - destruct (f y) as [e0 | b]; simpl; [now exists e0 | ].
    destruct (IH Hx He) as [e' ->]. now exists e'.
Qed.

Lemma uk_reading_fields (r : value) (c : Consumption num) :
  uk_reading r = inr c ->
  getitem r "consumption" = inr (kwh c) /\ cost_estimate c = None /\
  (exists a, getitem r "interval_start" = inr a /\
             parse_datetime a = inr (start c)) /\
  (exists b, getitem r "interval_end" = inr b /\
             parse_datetime b = inr (end_ c)).
Proof.
  unfold uk_reading.
  destruct (getitem r "interval_start") as [e | a]; simpl; [discriminate | ].
  destruct (parse_datetime a) as [e | da] eqn:Ea; simpl; [discriminate | ].
  destruct (getitem r "interval_end") as [e | b]; simpl; [discriminate | ].
  destruct (parse_datetime b) as [e | db] eqn:Eb; simpl; [discriminate | ].
  destruct (getitem r "consumption") as [e | k]; simpl; [discriminate | ].
  intros [= <-]. simpl. repeat split; eauto.
Qed.

(** X2.  [_get_consumption_uk] raises [ConfigurationError] and sends
    nothing unless the client has both an MPAN and a meter serial.  With
    both it sends exactly one request, a GET for the readings of that
    meter under the REST API, authenticated with the API key and an empty
    password, and no token is asked for.  The rows of the reply are
    turned into records all or nothing: one record for each row, in the
    order of the rows, with the raw consumption as its kWh; a single row
    that lacks a field or has an interval that does not parse makes the
    whole call raise. *)
Theorem uk_consumption_all_or_nothing
  (periods : Z) (start_arg end_arg : option datetime) (s : St) :
  let c := self s in
  let req := consumption_request "/electricity-meter-points/" (mpan c)
               (meter_serial c) c periods start_arg end_arg in
  (opt_truthy (mpan c) && opt_truthy (meter_serial c) = false ->
   _get_consumption_uk W periods start_arg end_arg s =
     (inl (ConfigurationError
             (VStr "MPAN and meter serial required for UK consumption data")),
      s)) /\
  (opt_truthy (mpan c) && opt_truthy (meter_serial c) = true ->
   sent (snd (_get_consumption_uk W periods start_arg end_arg s))
     = req :: sent s /\
   (exists rest,
      req = GET (REST_API_URL ++ rest)
              (("page_size", VNum (num_int periods))
               :: match start_arg with
                  | Some b => [("period_from", VStr (isoformat b))]
                  | None => []
                  end
               ++ match end_arg with
                  | Some e => [("period_to", VStr (isoformat e))]
                  | None => []
                  end)%list
              (api_key c, "")) /\
   forall resp data rows,
     server W (calls s) req = Replies resp ->
     status_ok resp = true -> body resp = Some data ->
     dict_get data "results" (VList []) = inr (VList rows) ->
     fst (_get_consumption_uk W periods start_arg end_arg s)
       = map_res uk_reading rows /\
     (forall cs,
        map_res uk_reading rows = inr cs ->
        Forall2 (fun r c0 => getitem r "consumption" = inr (kwh c0) /\
                            cost_estimate c0 = None) rows cs) /\
     (forall r e,
        In r rows -> uk_reading r = inl e ->
        exists e',
          fst (_get_consumption_uk W periods start_arg end_arg s) = inl e')).
Proof.
  intros c req. subst c req. split.
  - intros H. unfold _get_consumption_uk, bind, get_self, raise. simpl.
    destruct (opt_truthy (mpan (self s))),
      (opt_truthy (meter_serial (self s))); try discriminate; reflexivity.
  - intros H. apply andb_prop in H. destruct H as [Hm Hs].
    assert (Run : _get_consumption_uk W periods start_arg end_arg s =
      (resp <- http_send W
                 (consumption_request "/electricity-meter-points/"
                    (mpan (self s)) (meter_serial (self s)) (self s) periods
                    start_arg end_arg) ;;
       lift (raise_for_status resp) ;;
       data <- lift (json_of resp) ;;
       results <- lift (dict_get data "results" (VList [])) ;;
       rs <- lift (iter results) ;;
       lift (map_res uk_reading rs)) (with_http s)).
    { unfold _get_consumption_uk. unfold bind at 1, get_self at 1.
      rewrite Hm, Hs. cbv beta iota delta [negb orb].
      destruct (get_http_run s) as [h Eh].
      now rewrite (bind_inr _ _ _ _ _ Eh). }
    split; [ | split].
    + rewrite Run. unfold bind at 1. rewrite http_send_run.
      destruct (server W (calls (with_http s)) _) as [e | resp]; simpl.
      * now rewrite sent_with_http.
      * unfold bind, lift.
        destruct (raise_for_status resp); simpl;
          [now rewrite sent_with_http | ].
        destruct (json_of resp) as [e | data]; simpl;
          [now rewrite sent_with_http | ].
        destruct (dict_get data "results" (VList [])) as [e | results]; simpl;
          [now rewrite sent_with_http | ].
        destruct (iter results); simpl; now rewrite sent_with_http.
    + unfold consumption_request, consumption_params. eexists. reflexivity.
    + intros resp data rows Hsrv Hok Hb Hres.
      assert (Hfst : fst (_get_consumption_uk W periods start_arg end_arg s)
                     = map_res uk_reading rows).
      { rewrite Run. unfold bind at 1.
        rewrite http_send_run, calls_with_http, Hsrv.
        unfold bind, lift, raise_for_status, json_of.
        now rewrite Hok, Hb, Hres. }
      split; [exact Hfst | split].
      * intros cs Hcs. apply map_res_inv in Hcs.
        eapply Forall2_impl; [ | exact Hcs].
        intros r c0 Hr. apply uk_reading_fields in Hr. tauto.
      * intros r e Hin He. rewrite Hfst.
        exact (map_res_raises _ _ _ _ Hin He).
Qed.

(** ** Daily totals of gas *)

Section DailyTotals.
Context {A : Type} (day : A -> string) (kw : A -> value).

(** The dict the loop builds from nothing: its keys are the days of the
    readings, each once, and the value of a day is the sum, from the
    left, over the readings of that day. *)
Lemma daily_loop_totals (l : list A) :
  Forall (fun a => exists y, as_num (kw a) = Some y) l ->
  exists daily,
    daily_loop day kw l [] = inr daily /\
    NoDup (map fst daily) /\
    (forall d, In d (map fst daily) <-> exists a, In a l /\ day a = d) /\
    (forall d v,
       In (d, v) daily ->
       v = VNum (sum_nums (map (fun a => num_of (kw a))
                             (filter (fun a => String.eqb d (day a)) l)))).
Proof.
  intros Hnum.
  destruct (daily_loop_spec day kw l [] Hnum (Forall_nil _) (NoDup_nil _))
    as (daily & Hrun & Hd & Hn & Hk).
  exists daily. split; [exact Hrun | split; [exact Hn | split]].
  - intros d. specialize (Hk d). simpl in Hk.
    destruct (filter (fun a => String.eqb d (day a)) l) as [ | c rest] eqn:Ef;
      simpl in Hk.
    + apply assoc_None_keys in Hk. split; [contradiction | ].
      intros (a & Ha & <-).
      rewrite filter_nil_iff in Ef. specialize (Ef a Ha).
      now rewrite String.eqb_refl in Ef.
    + split.
      * intros _. exists c.
        assert (Hin : In c (filter (fun a => String.eqb d (day a)) l)).
        { rewrite Ef. now left. }
        apply filter_In in Hin. destruct Hin as [Hc He].
        apply String.eqb_eq in He. now split.
      * intros _. destruct (in_dec string_dec d (map fst daily)) as [H | H];
          [exact H | ].
        apply assoc_None_keys in H. rewrite H in Hk. discriminate.
  - intros d v Hin. apply (assoc_In _ _ _ Hn) in Hin.
    specialize (Hk d). rewrite Hin in Hk. unfold sum_nums.
    destruct (map (fun a => num_of (kw a))
                (filter (fun a => String.eqb d (day a)) l))
      as [ | x xs] eqn:Em; [discriminate | ].
    injection Hk as ->. reflexivity.
Qed.

End DailyTotals.

Lemma gas_reading_numeric (r : value) (g : GasConsumption num) :
  gas_reading r = inr g -> exists x, as_num (gas_kwh g) = Some x.
Proof.
  unfold gas_reading, py_lt_num, py_mul_num.
  destruct (getitem r "consumption") as [e | v]; simpl; [discriminate | ].
  destruct (as_num v) as [x | ] eqn:Ev; simpl; [ | discriminate].
  destruct (num_lt x (num_int 10)); simpl;
    destruct (getitem r "interval_start") as [e | a]; simpl;
      try discriminate;
    destruct (parse_datetime a) as [e | da]; simpl; try discriminate;
    destruct (getitem r "interval_end") as [e | b]; simpl; try discriminate;
    destruct (parse_datetime b) as [e | db]; simpl; try discriminate;
    intros [= <-]; simpl; eauto.
Qed.

Lemma get_gas_consumption_inv p a b (s s1 : St) (gs : list (GasConsumption num)) :
  get_gas_consumption W p a b s = (inr gs, s1) ->
  exists rs, map_res gas_reading rs = inr gs.
Proof.
  unfold get_gas_consumption. unfold bind at 1, get_self at 1.
  destruct (negb (opt_truthy (gas_mprn (self s)))
            || negb (opt_truthy (gas_meter_serial (self s))));
    [discriminate | ].
  unfold bind at 1. destruct (_get_http s) as [[e | h] s2]; [discriminate | ].
  unfold bind at 1. destruct (http_send W _ s2) as [[e | resp] s3];
    [discriminate | ].
  unfold bind, lift.
  destruct (raise_for_status resp); [discriminate | ].
  destruct (json_of resp) as [e | data]; [discriminate | ].
  destruct (dict_get data "results" (VList [])) as [e | results];
    [discriminate | ].
  destruct (iter results) as [e | rs]; [discriminate | ].
  intros [= H _]. now exists rs.
Qed.

(** X3.  Whenever [get_gas_consumption] returns, [get_daily_gas_usage]
    returns too, in the same state: the kWh of a gas record is always a
    number.  The keys of its dict are the dates on which the records
    start, each once, and the value of a date is the sum, from the left
    and starting at 0, of the kWh of exactly the records of that date. *)
Theorem daily_gas_usage_sums_by_day
  (days : Z) (s s1 : St) (gs : list (GasConsumption num)) :
  get_gas_consumption W (days * 48) None None s = (inr gs, s1) ->
  exists daily,
    get_daily_gas_usage W days s = (inr daily, s1) /\
    NoDup (map fst daily) /\
    (forall d,
       In d (map fst daily) <->
       exists g, In g gs /\ strftime_date (gas_start g) = d) /\
    (forall d v,
       In (d, v) daily ->
       v = VNum (sum_nums
                   (map (fun g => num_of (gas_kwh g))
                      (filter (fun g => String.eqb d
                                          (strftime_date (gas_start g)))
                         gs)))).
Proof.
  intros Hg.
  assert (Hnum : Forall (fun g => exists y, as_num (gas_kwh g) = Some y) gs).
  { destruct (get_gas_consumption_inv _ _ _ _ _ _ Hg) as [rs Hrs].
    apply map_res_inv in Hrs. clear Hg.
    induction Hrs as [ | r g rs gs Hr _ IH]; constructor;
      [exact (gas_reading_numeric r g Hr) | exact IH]. }
  destruct (daily_loop_totals (fun g => strftime_date (gas_start g)) gas_kwh
              gs Hnum) as (daily & Hrun & Hn & Hkeys & Hvals).
  exists daily. split; [ | split; [exact Hn | split; [exact Hkeys | exact Hvals]]].
  unfold get_daily_gas_usage. rewrite (bind_inr _ _ _ _ _ Hg).
  unfold lift. now rewrite Hrun.
Qed.

(** ** Unit rates *)

Lemma find_snoc {A} (p : A -> bool) (l : list A) (x : A) :
  find p (l ++ [x]) =
    match find p l with
    | Some y => Some y
    | None => if p x then Some x else None
    end.
Proof.
  induction l as [ | y l IH]; simpl; [reflexivity | ].
  now destruct (p y).
Qed.

Lemma rates_loop_spec (l : list value) :
  forall rates0 off0 peak0 rates off peak,
    rates_loop l (rates0, off0, peak0) = inr (rates, off, peak) ->
    exists vals,
      map_res rate_value l = inr vals /\
      Forall (fun v => exists n, as_num v = Some n) vals /\
      off = match last_where is_cheap vals with Some v => v | None => off0 end /\
      peak = match last_where is_dear vals with Some v => v | None => peak0 end /\
      assoc "off_peak" rates =
        match last_where is_cheap vals with
        | Some v => Some v
        | None => assoc "off_peak" rates0
        end /\
      assoc "peak" rates =
        match last_where is_dear vals with
        | Some v => Some v
        | None => assoc "peak" rates0
        end /\
      (forall k, In k (map fst rates) ->
                 In k (map fst rates0) \/ k = "off_peak" \/ k = "peak").
Proof.
  induction l as [ | r l IH]; intros rates0 off0 peak0 rates off peak; simpl.
  - intros [= <- <- <-]. exists []. repeat split; auto.
  - change (dict_get r "value_inc_vat" (VNum (num_int 0)))
      with (rate_value r).
    destruct (rate_value r) as [e | val]; simpl; [discriminate | ].
    unfold py_lt_num. destruct (as_num val) as [n | ] eqn:En; simpl;
      [ | discriminate].
    assert (Hc : is_cheap val = num_lt n (num_int 15)).
    { unfold is_cheap. now rewrite En. }
    assert (Hd : is_dear val = negb (num_lt n (num_int 15))).
    { unfold is_dear. now rewrite Hc. }
    destruct (num_lt n (num_int 15)); simpl; intros Hrun;
      destruct (IH _ _ _ _ _ _ Hrun)
        as (vals & Hv & Hn & Ho & Hp & Hao & Hap & Hk);
      exists (val :: vals); rewrite Hv; simpl;
      unfold last_where in *; simpl; rewrite !find_snoc, Hc, Hd;
      rewrite assoc_dict_set in Hao, Hap; simpl in Hao, Hap;
      (split; [reflexivity | ]);
      (split; [constructor; [now exists n | exact Hn] | ]).
    + repeat split.
      * rewrite Ho. now destruct (find is_cheap (rev vals)).
      * rewrite Hp. now destruct (find is_dear (rev vals)).
      * rewrite Hao. now destruct (find is_cheap (rev vals)).
      * rewrite Hap. now destruct (find is_dear (rev vals)).
      * intros k Hin. apply Hk in Hin. rewrite keys_dict_set in Hin.
        destruct (assoc "off_peak" rates0); [tauto | ].
        destruct Hin as [Hin | Hin]; [ | tauto].
        apply in_app_or in Hin. destruct Hin as [Hin | [<- | []]]; tauto.
    + repeat split.
      * rewrite Ho. now destruct (find is_cheap (rev vals)).
      * rewrite Hp. now destruct (find is_dear (rev vals)).
      * rewrite Hao. now destruct (find is_cheap (rev vals)).
      * rewrite Hap. now destruct (find is_dear (rev vals)).
      * intros k Hin. apply Hk in Hin. rewrite keys_dict_set in Hin.
        destruct (assoc "peak" rates0); [tauto | ].
        destruct Hin as [Hin | Hin]; [ | tauto].
        apply in_app_or in Hin. destruct Hin as [Hin | [<- | []]]; tauto.
Qed.

Lemma get_tariff_found r (s s1 : St) (td pc : value) :
  tariff_lookup W GET_TARIFF "electricityAgreements" s s1 td pc ->
  get_tariff W r s =
    (rates_data <-
       try_except
         (fetch_unit_rates W (self (with_http s1)) pc
            ("E-1R-" ++ format_value pc ++ "-" ++ r))
         caught_http (ret (VDict [("results", VList [])])) ;;
     results <- lift (dict_get rates_data "results" (VList [])) ;;
     four <- lift (first_four results) ;;
     st <- lift (rates_loop four ([], VNone, VNone)) ;;
     let '(rates, off_peak, peak) := st in
     display_name <- lift (dict_get td "displayName" (VStr "Unknown")) ;;
     charge <- lift (dict_get td "standingCharge" (VNum (num_int 0))) ;;
     ret (Some (mk_Tariff display_name pc charge rates off_peak peak
                  "23:30" "05:30"))) (with_http s1).
Proof.
  intros (data & acc & ags & ag & Hg & Ha & Hags & Ht & Hag & Htd & Hpc).
  unfold get_tariff.
  unfold bind at 1, get_self at 1. rewrite (bind_inr _ _ _ _ _ Hg).
  rewrite (bind_lift_inr _ _ _ _ Ha), (bind_lift_inr _ _ _ _ Hags), Ht.
  cbv beta iota delta [negb].
  rewrite (bind_lift_inr _ _ _ _ Hag), (bind_lift_inr _ _ _ _ Htd).
  rewrite (bind_lift_inr _ _ _ _ Hpc).
  destruct (get_http_run s1) as [h Eh]. rewrite (bind_inr _ _ _ _ _ Eh).
  reflexivity.
Qed.

Lemma get_gas_tariff_found r (s s1 : St) (td pc : value) :
  tariff_lookup W GET_GAS_TARIFF "gasAgreements" s s1 td pc ->
  get_gas_tariff W r s =
    (unit_rate <-
       try_except
         (fetch_gas_unit_rate W (self (with_http s1)) pc
            ("G-1R-" ++ format_value pc ++ "-" ++ r))
         caught_http (ret (VNum (num_int 0))) ;;
     display_name <- lift (dict_get td "displayName" (VStr "Unknown")) ;;
     charge <- lift (dict_get td "standingCharge" (VNum (num_int 0))) ;;
     ret (Some (mk_GasTariff display_name pc charge unit_rate)))
      (with_http s1).
Proof.
  intros (data & acc & ags & ag & Hg & Ha & Hags & Ht & Hag & Htd & Hpc).
  unfold get_gas_tariff.
  unfold bind at 1, get_self at 1. rewrite (bind_inr _ _ _ _ _ Hg).
  rewrite (bind_lift_inr _ _ _ _ Ha), (bind_lift_inr _ _ _ _ Hags), Ht.
  cbv beta iota delta [negb].
  rewrite (bind_lift_inr _ _ _ _ Hag), (bind_lift_inr _ _ _ _ Htd).
  rewrite (bind_lift_inr _ _ _ _ Hpc).
  destruct (get_http_run s1) as [h Eh]. rewrite (bind_inr _ _ _ _ _ Eh).
  reflexivity.
Qed.

Lemma tariff_lookup_fields query key (s s1 : St) (td pc : value) :
  tariff_lookup W query key s s1 td pc ->
  exists dn ch,
    dict_get td "displayName" (VStr "Unknown") = inr dn /\
    dict_get td "standingCharge" (VNum (num_int 0)) = inr ch.
Proof.
  intros (data & acc & ags & ag & Hg & Ha & Hags & Ht & Hag & Htd & Hpc).
  destruct (dict_get_again td _ "displayName" _ _ (VStr "Unknown") Hpc)
    as [dn Hdn].
  destruct (dict_get_again td _ "standingCharge" _ _ (VNum (num_int 0)) Hpc)
    as [ch Hch].
  now exists dn, ch.
Qed.

(** X4.  Of the unit rates the REST API returns, [get_tariff] looks at
    the first four only.  Each has a price (0 when it names none) that is
    a number; a price under 15 is an off-peak rate and any other a peak
    rate, and the last of each kind among the four is the one kept: as
    [off_peak_rate] and [peak_rate] of the record ([None] when there is
    none of the kind) and under the keys "off_peak" and "peak" of
    [rates], which has no other key. *)
Theorem tariff_rates_from_first_four
  (r : string) (s s1 : St) (td pc rates_data : value) (rs : list value) :
  tariff_lookup W GET_TARIFF "electricityAgreements" s s1 td pc ->
  rest_reply W (calls s1)
    (unit_rates_request "/electricity-tariffs/" 10 (self s1) pc
       ("E-1R-" ++ format_value pc ++ "-" ++ r)) rates_data ->
  dict_get rates_data "results" (VList []) = inr (VList rs) ->
  forall t,
    fst (get_tariff W r s) = inr (Some t) ->
    exists vals,
      map_res rate_value (firstn 4 rs) = inr vals /\
      Forall (fun v => exists n, as_num v = Some n) vals /\
      off_peak_rate t = or_none (last_where is_cheap vals) /\
      peak_rate t = or_none (last_where is_dear vals) /\
      assoc "off_peak" (rates t) = last_where is_cheap vals /\
      assoc "peak" (rates t) = last_where is_dear vals /\
      (forall k, In k (map fst (rates t)) -> k = "off_peak" \/ k = "peak").
Proof.
  intros Hl (resp & Hsrv & Hok & Hb) Hres t.
  rewrite (get_tariff_found r s s1 td pc Hl).
  destruct (tariff_lookup_fields _ _ _ _ _ _ Hl) as (dn & ch & Hdn & Hch).
  unfold bind at 1. unfold try_except, fetch_unit_rates. unfold bind at 1.
  rewrite http_send_run, unit_rates_request_with_http, calls_with_http, Hsrv.
  unfold bind, lift, raise_for_status, json_of, ret.
  rewrite Hok, Hb, Hres. unfold first_four. cbv beta iota.
  destruct (rates_loop (firstn 4 rs) ([], VNone, VNone))
    as [e | [[rates off] peak]] eqn:Hloop; [discriminate | ].
  rewrite Hdn, Hch. simpl. intros [= <-]. simpl.
  destruct (rates_loop_spec _ _ _ _ _ _ _ Hloop)
    as (vals & Hv & Hn & Ho & Hp & Hao & Hap & Hk).
  exists vals. unfold or_none. simpl in Hao, Hap.
  repeat split; auto.
  - rewrite Hao. now destruct (last_where is_cheap vals).
  - rewrite Hap. now destruct (last_where is_dear vals).
  - intros k Hin. destruct (Hk k Hin) as [[] | H]; exact H.
Qed.


(** X6.  When the account has no active agreement (the list is missing,
    null or empty), [get_tariff] and [get_gas_tariff] return [None] once
    the GraphQL query is answered: the REST API is not called. *)
Theorem no_agreement_no_tariff (r : string) (s s1 : St)
  (data acc agreements : value) :
  dict_get data "account" (VDict []) = inr acc ->
  truthy agreements = false ->
  (_graphql W GET_TARIFF (VDict [("account", account (self s))]) s
     = (inr data, s1) ->
   dict_get acc "electricityAgreements" (VList []) = inr agreements ->
   get_tariff W r s = (inr None, s1)) /\
  (_graphql W GET_GAS_TARIFF (VDict [("account", account (self s))]) s
     = (inr data, s1) ->
   dict_get acc "gasAgreements" (VList []) = inr agreements ->
   get_gas_tariff W r s = (inr None, s1)).
Proof.
  intros Ha Ht. split; intros Hg Hags.
  - unfold get_tariff. unfold bind at 1, get_self at 1.
    rewrite (bind_inr _ _ _ _ _ Hg).
    rewrite (bind_lift_inr _ _ _ _ Ha), (bind_lift_inr _ _ _ _ Hags), Ht.
    reflexivity.
  - unfold get_gas_tariff. unfold bind at 1, get_self at 1.
    rewrite (bind_inr _ _ _ _ _ Hg).
    rewrite (bind_lift_inr _ _ _ _ Ha), (bind_lift_inr _ _ _ _ Hags), Ht.
    reflexivity.
Qed.

(** ** Dispatches *)

Local Abbreviation ascending := (ascending (num := num)).
Local Abbreviation descending := (descending (num := num)).

Lemma try_append_total {A B} (body : A -> res (list B)) (caught : exn -> bool)
  (x : A) :
  (forall e, body x = inl e -> caught e = true) ->
  try_append body caught x =
    inr (match body x with inr ys => ys | inl _ => [] end).
Proof.
  intros H. unfold try_append. destruct (body x) as [e | ys]; [ | reflexivity].
  now rewrite (H e eq_refl).
Qed.

Lemma try_append_Forall {A B} (body : A -> res (list B))
  (caught : exn -> bool) (P : B -> Prop) :
  (forall x ys, body x = inr ys -> Forall P ys) ->
  forall x ys, try_append body caught x = inr ys -> Forall P ys.
Proof.
  intros H x ys. unfold try_append. destruct (body x) as [e | zs] eqn:E.
  - destruct (caught e); [ | discriminate]. intros [= <-]. constructor.
  - intros [= <-]. exact (H x zs E).
Qed.

Lemma parse_datetime_str (str : string) (e : exn) :
  parse_datetime (VStr str) = inl e -> e = ValueError.
Proof.
  unfold parse_datetime. simpl.
  destruct (fromisoformat (replace_Z str)); [discriminate | now intros [= <-]].
Qed.

Lemma getitem_dict_raises (kv : list (string * value)) (k : string) (e : exn) :
  getitem (VDict kv) k = inl e -> e = KeyError.
Proof.
  simpl. destruct (assoc k kv); [discriminate | now intros [= <-]].
Qed.

Lemma dispatch_of_raises (d : value) (e : exn) :
  times_are_str d -> dispatch_of d = inl e -> caught_value_key e = true.
Proof.
  intros ([kv Hd] & Hs & He). unfold dispatch_of.
  destruct (getitem d "start") as [e1 | a] eqn:Ha; simpl.
  { intros [= <-]. rewrite Hd in Ha.
    now rewrite (getitem_dict_raises _ _ _ Ha). }
  destruct (Hs a eq_refl) as [sa ->].
  destruct (parse_datetime (VStr sa)) as [e1 | da] eqn:Eda; simpl.
  { intros [= <-]. now rewrite (parse_datetime_str _ _ Eda). }
  destruct (getitem d "end") as [e1 | b] eqn:Hb; simpl.
  { intros [= <-]. rewrite Hd in Hb.
    now rewrite (getitem_dict_raises _ _ _ Hb). }
  destruct (He b eq_refl) as [sb ->].
  destruct (parse_datetime (VStr sb)) as [e1 | db] eqn:Edb; simpl;
    [ | discriminate].
  intros [= <-]. now rewrite (parse_datetime_str _ _ Edb).
Qed.

Lemma dispatch_of_source (d : value) (ds : list Dispatch) :
  dispatch_of d = inr ds -> Forall (fun x => source x = "smart-charge") ds.
Proof.
  unfold dispatch_of.
  destruct (getitem d "start") as [e | a]; simpl; [discriminate | ].
  destruct (parse_datetime a) as [e | da]; simpl; [discriminate | ].
  destruct (getitem d "end") as [e | b]; simpl; [discriminate | ].
  destruct (parse_datetime b) as [e | db]; simpl; [discriminate | ].
  intros [= <-]. now repeat constructor.
Qed.

Lemma get_dispatches_run (s s1 : St) (data : value) :
  _graphql W GET_DISPATCHES (VDict [("account", account (self s))]) s
    = (inr data, s1) ->
  get_dispatches W s =
    (res_bind (dict_get data "plannedDispatches" VNone) (fun planned =>
     res_bind (iter (py_or planned (VList []))) (fun ds =>
     res_bind (for_each (try_append dispatch_of caught_value_key) ds)
       (py_sorted dispatch_start))), s1).
Proof.
  intros Hg. unfold get_dispatches. unfold bind at 1, get_self at 1.
  rewrite (bind_inr _ _ _ _ _ Hg). unfold bind, lift.
  destruct (dict_get data "plannedDispatches" VNone) as [e | pl]; simpl;
    [reflexivity | ].
  destruct (iter (py_or pl (VList []))) as [e | ds]; simpl; [reflexivity | ].
  now destruct (for_each (try_append dispatch_of caught_value_key) ds).
Qed.

Lemma get_dispatches_inv (s : St) (l : list Dispatch) :
  fst (get_dispatches W s) = inr l ->
  exists raw,
    l = sort_by dispatch_start raw /\
    comparable (map dispatch_start raw) = true /\
    Forall (fun x => source x = "smart-charge") raw.
Proof.
  unfold get_dispatches. unfold bind at 1, get_self at 1. unfold bind at 1.
  destruct (_graphql W GET_DISPATCHES _ s) as [[e | data] s1];
    [discriminate | ].
  unfold bind, lift.
  destruct (dict_get data "plannedDispatches" VNone) as [e | pl]; simpl;
    [discriminate | ].
  destruct (iter (py_or pl (VList []))) as [e | ds]; simpl; [discriminate | ].
  destruct (for_each (try_append dispatch_of caught_value_key) ds)
    as [e | raw] eqn:Hraw; simpl; [discriminate | ].
  intros H. apply py_sorted_inv in H. destruct H as [-> Hc].
  exists raw. split; [reflexivity | split; [exact Hc | ]].
  apply (for_each_Forall _ _ ds
           (try_append_Forall _ _ _ dispatch_of_source) raw Hraw).
Qed.


Lemma sorted_rev {A} (R : A -> A -> Prop) (l : list A) :
  StronglySorted R l -> StronglySorted (fun x y => R y x) (rev l).
Proof.
  induction 1 as [ | x l Hs IH Hx]; simpl; [constructor | ].
  induction (rev l) as [ | y r IHr] eqn:E in IH, Hx, l, Hs |- *.
  - repeat constructor.
  - simpl. inversion IH as [ | ? ? Hr Hy]; subst. constructor.
    + assert (Hin : forall z, In z r -> In z l).
      { intros z Hz. apply in_rev. rewrite E. now right. }
      clear IHr. revert Hr Hin. clear - Hx. induction r as [ | z r IHr]; simpl.
      * intros _ _. repeat constructor.
      * intros Hr Hin. inversion Hr as [ | ? ? Hr' Hz]; subst.
        constructor; [apply IHr; auto | ].
        apply Forall_app. split; [exact Hz | ].
        constructor; [ | constructor].
        rewrite Forall_forall in Hx. apply Hx, Hin. now left.
    + apply Forall_app. split; [exact Hy | ].
      constructor; [ | constructor].
      rewrite Forall_forall in Hx. apply Hx, in_rev. rewrite E. now left.
Qed.

Lemma sorted_app_l {A} (R : A -> A -> Prop) (l1 l2 : list A) :
  StronglySorted R (l1 ++ l2) -> StronglySorted R l1.
Proof.
  induction l1 as [ | x l1 IH]; simpl; [constructor | ].
  intros H. inversion H as [ | ? ? Hs Hx]; subst.
  constructor; [now apply IH | ].
  apply Forall_app in Hx. tauto.
Qed.

(** Keys of one kind in descending order are in the order of Python's
    [<], reversed. *)
Lemma sorted_never_after {A} (key : A -> datetime) (l : list A) :
  StronglySorted (fun x y => dt_key (key y) <= dt_key (key x)) l ->
  (forall x y, In x l -> In y l -> is_aware (key x) = is_aware (key y)) ->
  descending key l.
Proof.
  induction 1 as [ | x l Hs IH Hx]; intros Ha; constructor.
  - apply IH. intros a b Ha' Hb'. apply Ha; now right.
  - rewrite Forall_forall in *. intros d Hd. unfold dt_lt.
    rewrite (Ha x d (or_introl eq_refl) (or_intror Hd)).
    rewrite Bool.eqb_reflx. f_equal. apply Z.ltb_ge. exact (Hx d Hd).
Qed.

Lemma py_sorted_reverse_descending {A} (key : A -> datetime) (l r : list A) :
  py_sorted_reverse (num := num) key l = inr r ->
  Permutation l r /\ descending key r.
Proof.
  unfold py_sorted_reverse.
  destruct (comparable (map key l)) eqn:Hc; [ | discriminate].
  intros [= <-].
  assert (Hp : Permutation l (rev (sort_by key (rev l)))).
  { rewrite <- Permutation_rev, <- sort_by_perm. apply Permutation_rev. }
  split; [exact Hp | ].
  apply sorted_never_after.
  - apply (sorted_rev _ _ (sort_by_sorted key (rev l))).
  - intros x y Hx Hy.
    apply (comparable_all key l Hc);
      eapply Permutation_in; try eassumption; now apply Permutation_sym.
Qed.

Lemma slice_to_prefix {A} (n : Z) (l : list A) :
  exists rest,
    l = (slice_to n l ++ rest)%list /\
    (0 <= n ->
     Z.of_nat (List.length (slice_to n l)) <= n /\
     (Z.of_nat (List.length (slice_to n l)) < n -> rest = [])).
Proof.
  unfold slice_to. destruct (0 <=? n) eqn:E.
  - exists (skipn (Z.to_nat n) l). split; [now rewrite firstn_skipn | ].
    intros Hn. rewrite length_firstn. split; [lia | ].
    intros Hlt. apply skipn_all2. lia.
  - exists (skipn (List.length l - Z.to_nat (- n)) l).
    split; [now rewrite firstn_skipn | ]. apply Z.leb_gt in E. lia.
Qed.

Lemma for_each_try_append_inv {A B} (body : A -> res (list B))
  (caught : exn -> bool) (l : list A) (zs : list B) :
  for_each (try_append body caught) l = inr zs ->
  zs = flat_map (fun x => match body x with inr ys => ys | inl _ => [] end) l.
Proof.
  revert zs. induction l as [ | x l IH]; simpl; intros zs.
  - now intros [= <-].
  - unfold try_append at 1.
    destruct (body x) as [e | ys]; [destruct (caught e) | ]; simpl;
      try discriminate;
      (destruct (for_each (try_append body caught) l) as [e' | ws]; simpl;
       [discriminate | ]);
      intros [= <-]; now rewrite (IH ws eq_refl).
Qed.

(** The session of a raw dispatch: its times are those of the raw
    dispatch, parsed, and its kWh the absolute value of the delta. *)
Lemma completed_of_fields (d : value) (c : CompletedDispatch num) :
  In c (completed d) ->
  exists a b delta x,
    getitem d "start" = inr a /\ parse_datetime a = inr (completed_start c) /\
    getitem d "end" = inr b /\ parse_datetime b = inr (completed_end c) /\
    dict_get d "delta" (VNum (num_int 0)) = inr delta /\
    py_float delta = inr (VNum x) /\
    completed_kwh c = VNum (num_abs x).
Proof.
  unfold completed, completed_of, py_abs.
  destruct (getitem d "start") as [e | a] eqn:Ha; simpl; [intros [] | ].
  destruct (parse_datetime a) as [e | da] eqn:Eda; simpl; [intros [] | ].
  destruct (getitem d "end") as [e | b] eqn:Hb; simpl; [intros [] | ].
  destruct (parse_datetime b) as [e | db] eqn:Edb; simpl; [intros [] | ].
  destruct (dict_get d "delta" (VNum (num_int 0))) as [e | delta] eqn:Edl;
    simpl; [intros [] | ].
  destruct (py_float delta) as [e | f] eqn:Ef; simpl; [intros [] | ].
  assert (Hf : exists x, f = VNum x).
  { destruct delta as [ | bb | n | str | l | kv]; simpl in Ef;
      try discriminate; try (injection Ef as <-; now eexists).
    destruct (float_of_str str); [ | discriminate].
    injection Ef as <-. now eexists. }
  destruct Hf as [x ->]. simpl. intros [<- | []].
  exists a, b, delta, x. simpl. repeat split; assumption.
Qed.

(** Every exception the [try] can raise for a raw dispatch with string
    times and a plain delta is one of the caught ones. *)
Lemma completed_of_raises (d : value) (e : exn) :
  times_are_str d -> delta_is_plain d ->
  completed_of d = inl e -> caught_value_key e = true.
Proof.
  intros ([kv Hd] & Hs & He) Hp. unfold completed_of, py_abs.
  destruct (getitem d "start") as [e1 | a] eqn:Ha; simpl.
  { intros [= <-]. rewrite Hd in Ha.
    now rewrite (getitem_dict_raises _ _ _ Ha). }
  destruct (Hs a eq_refl) as [sa ->].
  destruct (parse_datetime (VStr sa)) as [e1 | da] eqn:Eda; simpl.
  { intros [= <-]. now rewrite (parse_datetime_str _ _ Eda). }
  destruct (getitem d "end") as [e1 | b] eqn:Hb; simpl.
  { intros [= <-]. rewrite Hd in Hb.
    now rewrite (getitem_dict_raises _ _ _ Hb). }
  destruct (He b eq_refl) as [sb ->].
  destruct (parse_datetime (VStr sb)) as [e1 | db] eqn:Edb; simpl.
  { intros [= <-]. now rewrite (parse_datetime_str _ _ Edb). }
  destruct (dict_get d "delta" (VNum (num_int 0))) as [e1 | delta] eqn:Edl;
    simpl.
  { intros [= <-]. rewrite Hd in Edl. simpl in Edl.
    destruct (assoc "delta" kv); discriminate. }
  destruct (Hp delta Edl) as [[x ->] | [str ->]]; simpl.
  - discriminate.
  - destruct (float_of_str str); simpl; [discriminate | now intros [= <-]].
Qed.

Lemma get_completed_dispatches_run
  (limit : Z) (s s1 : St) (data : value) (rows : list value) :
  _graphql W GET_COMPLETED_DISPATCHES (VDict [("account", account (self s))]) s
    = (inr data, s1) ->
  getitem data "completedDispatches" = inr (VList rows) ->
  get_completed_dispatches W limit s =
    (res_bind (for_each (try_append completed_of caught_value_key) rows)
       (fun raw =>
        res_bind (py_sorted_reverse completed_start raw) (fun sorted =>
        inr (slice_to limit sorted))), s1).
Proof.
  intros Hg Hrows. unfold get_completed_dispatches.
  unfold bind at 1, get_self at 1. rewrite (bind_inr _ _ _ _ _ Hg).
  assert (Hd : dict_get data "completedDispatches" VNone = inr (VList rows)).
  { destruct data as [ | b | n | str | l | kv]; try discriminate.
    simpl in *. now destruct (assoc "completedDispatches" kv). }
  unfold bind, lift, ret. rewrite Hd. simpl.
  assert (Hi : iter (py_or (VList rows) (VList [])) = inr rows).
  { unfold py_or. now destruct rows. }
  rewrite Hi. simpl.
  destruct (for_each (try_append completed_of caught_value_key) rows)
    as [e | raw]; simpl; [reflexivity | ].
  now destruct (py_sorted_reverse completed_start raw).
Qed.

(** X9.  With the raw dispatches [rows] of the reply, let [newest] be the
    sessions of those that parse, put in descending order of start
    (sessions of equal start in the order of the reply).  Every list
    [get_completed_dispatches] returns is a head of [newest]: for a limit
    that is not negative it has at most [limit] sessions, and nothing of
    [newest] is left out when it has fewer.  The session of a raw
    dispatch has its start and end, parsed, and as kWh the absolute
    value of its delta read as a float (of 0 without one).  When the
    times of the raw dispatches are strings, their deltas numbers or
    strings, and the starts that parse all aware or all naive, the call
    returns: a raw dispatch that lacks a field or does not parse is
    skipped. *)
Theorem completed_dispatches_newest_first
  (limit : Z) (s s1 : St) (data : value) (rows : list value) :
  _graphql W GET_COMPLETED_DISPATCHES (VDict [("account", account (self s))]) s
    = (inr data, s1) ->
  getitem data "completedDispatches" = inr (VList rows) ->
  let newest := rev (sort_by completed_start (rev (flat_map completed rows))) in
  (forall l,
     fst (get_completed_dispatches W limit s) = inr l ->
     Permutation (flat_map completed rows) newest /\
     descending completed_start newest /\
     exists rest,
       (l ++ rest)%list = newest /\
       (0 <= limit ->
        Z.of_nat (List.length l) <= limit /\
        (Z.of_nat (List.length l) < limit -> rest = []))) /\
  (forall d c,
     In d rows -> In c (completed d) ->
     exists a b delta x,
       getitem d "start" = inr a /\
       parse_datetime a = inr (completed_start c) /\
       getitem d "end" = inr b /\
       parse_datetime b = inr (completed_end c) /\
       dict_get d "delta" (VNum (num_int 0)) = inr delta /\
       py_float delta = inr (VNum x) /\
       completed_kwh c = VNum (num_abs x)) /\
  (Forall times_are_str rows -> Forall delta_is_plain rows ->
   comparable (map completed_start (flat_map completed rows)) = true ->
   get_completed_dispatches W limit s = (inr (slice_to limit newest), s1)).
Proof.
  intros Hg Hrows newest.
  pose proof (get_completed_dispatches_run limit s s1 data rows Hg Hrows)
    as Run.
  split; [ | split].
  - intros l. rewrite Run. simpl.
    destruct (for_each (try_append completed_of caught_value_key) rows)
      as [e | raw] eqn:Hraw; simpl; [discriminate | ].
    apply for_each_try_append_inv in Hraw. fold completed in Hraw.
    change (fun x => completed x) with completed in Hraw.
    destruct (py_sorted_reverse completed_start raw) as [e | sorted] eqn:Hs;
      simpl; [discriminate | ].
    intros [= <-].
    destruct (py_sorted_reverse_descending _ _ _ Hs) as [Hp Hd].
    assert (E : sorted = newest).
    { unfold py_sorted_reverse in Hs.
      destruct (comparable (map completed_start raw)); [ | discriminate].
      injection Hs as <-. unfold newest. now rewrite Hraw. }
    rewrite <- E, <- Hraw. split; [exact Hp | split; [exact Hd | ]].
    destruct (slice_to_prefix limit sorted) as (rest & Hl & Hn).
    exists rest. split; [now rewrite <- Hl | exact Hn].
  - intros d c _. apply completed_of_fields.
  - intros Hstr Hpl Hc. rewrite Run.
    assert (Hf : for_each (try_append completed_of caught_value_key) rows
                 = inr (flat_map completed rows)).
    { apply for_each_total. apply Forall_forall. intros d Hd.
      rewrite Forall_forall in Hstr, Hpl.
      unfold completed. apply try_append_total.
      intros e. now apply completed_of_raises; auto. }
    rewrite Hf. simpl. unfold py_sorted_reverse. now rewrite Hc.
Qed.

(** ** The status of the dispatches *)

Lemma sorted_after_mid {A} (R : A -> A -> Prop) (l1 l2 : list A) (x : A) :
  StronglySorted R (l1 ++ x :: l2) -> Forall (R x) l2.
Proof.
  induction l1 as [ | y l1 IH]; simpl; intros H;
    inversion H as [ | ? ? Hs Hx]; subst; [exact Hx | now apply IH].
Qed.

Lemma get_dispatches_sorted (s s1 : St) (ds : list Dispatch) :
  get_dispatches W s = (inr ds, s1) ->
  StronglySorted
    (fun x y => dt_key (dispatch_start x) <= dt_key (dispatch_start y)) ds.
Proof.
  intros H. destruct (get_dispatches_inv s ds) as (raw & -> & _).
  - now rewrite H.
  - apply sort_by_sorted.
Qed.

Section Zones.
Context {ZL : ZoneLaws L}.

Lemma status_step_run (t : datetime) (c0 n0 : option Dispatch) (d : Dispatch) :
  let i := dt_key (astimezone t None) in
  status_step t (c0, n0) d =
    if is_aware (dispatch_start d) then
      if dt_key (dispatch_start d) <=? i then
        if is_aware (dispatch_end d) then
          if i <=? dt_key (dispatch_end d) then inr (Some d, n0)
          else inr (c0, n0)
        else inl TypeError
      else
        inr (c0, match n0 with
                 | None => Some d
                 | Some x => Some x
                 end)
    else inl TypeError.
Proof.
  intros i. unfold status_step, dt_le, dt_lt.
  rewrite !astimezone_aware.
  rewrite (astimezone_instant t (utcoffset (dispatch_start d)) None).
  fold i. simpl.
  destruct (is_aware (dispatch_start d)); simpl; [ | reflexivity].
  destruct (dt_key (dispatch_start d) <=? i) eqn:Es; simpl.
  - destruct (is_aware (dispatch_end d)); simpl; [ | reflexivity].
    destruct (i <=? dt_key (dispatch_end d)); simpl; [reflexivity | ].
    assert (El : (i <? dt_key (dispatch_start d)) = false).
    { apply Z.ltb_ge. now apply Z.leb_le. }
    rewrite El. now destruct n0.
  - assert (El : (i <? dt_key (dispatch_start d)) = true).
    { apply Z.ltb_lt. now apply Z.leb_gt. }
    rewrite El. now destruct n0.
Qed.

Lemma status_loop_raises (t : datetime) (l : list Dispatch) :
  forall st e, status_loop t l st = inl e -> e = TypeError.
Proof.
  induction l as [ | d l IH]; intros [c0 n0] e; simpl; [discriminate | ].
  rewrite status_step_run.
  destruct (is_aware (dispatch_start d)); [ | now intros [= <-]].
  destruct (dt_key (dispatch_start d) <=? dt_key (astimezone t None)).
  - destruct (is_aware (dispatch_end d)); [ | now intros [= <-]].
    destruct (dt_key (astimezone t None) <=? dt_key (dispatch_end d));
      simpl; apply IH.
  - simpl. apply IH.
Qed.

Lemma status_loop_naive (t : datetime) (l : list Dispatch) (d : Dispatch) :
  In d l -> is_aware (dispatch_start d) = false ->
  forall st, status_loop t l st = inl TypeError.
Proof.
  intros Hin Hd st.
  destruct (status_loop t l st) as [e | r] eqn:E.
  - now rewrite (status_loop_raises t l st e E).
  - exfalso. revert st r E.
    induction l as [ | x l IH]; [contradiction | ].
    intros [c0 n0] r. simpl. rewrite status_step_run.
    destruct Hin as [-> | Hin].
    + now rewrite Hd.
    + destruct (is_aware (dispatch_start x)); [ | discriminate].
      destruct (dt_key (dispatch_start x) <=? dt_key (astimezone t None)).
      * destruct (is_aware (dispatch_end x)); [ | discriminate].
        destruct (dt_key (astimezone t None) <=? dt_key (dispatch_end x));
          simpl; now apply IH.
      * simpl. now apply IH.
Qed.

Lemma status_loop_spec (t : datetime) (l : list Dispatch) :
  let i := dt_key (astimezone t None) in
  forall c0 n0 c n,
    status_loop t l (c0, n0) = inr (c, n) ->
    ((c = c0 /\ forall d, In d l -> ~ covers d i) \/
     (exists d, c = Some d /\ In d l /\ covers d i)) /\
    match n0 with
    | Some x => n = Some x
    | None =>
        (n = None /\ forall d, In d l -> ~ starts_after d i) \/
        (exists l1 d l2,
           l = (l1 ++ d :: l2)%list /\ n = Some d /\ starts_after d i /\
           forall d', In d' l1 -> ~ starts_after d' i)
    end.
Proof.
  intros i. induction l as [ | d l IH]; intros c0 n0 c n; simpl.
  - intros [= <- <-]. split; [left; split; [reflexivity | tauto] | ].
    destruct n0; [reflexivity | ]. left. split; [reflexivity | tauto].
  - rewrite status_step_run. fold i.
    destruct (is_aware (dispatch_start d)); [ | discriminate].
    destruct (dt_key (dispatch_start d) <=? i) eqn:Es.
    + apply Z.leb_le in Es.
      assert (Hna : ~ starts_after d i) by (unfold starts_after; lia).
      assert (Hn : forall n1,
        match n0 with
        | Some x => n1 = Some x
        | None =>
            (n1 = None /\ forall d0, In d0 l -> ~ starts_after d0 i) \/
            (exists l1 d0 l2,
               l = (l1 ++ d0 :: l2)%list /\ n1 = Some d0 /\
               starts_after d0 i /\
               forall d', In d' l1 -> ~ starts_after d' i)
        end ->
        match n0 with
        | Some x => n1 = Some x
        | None =>
            (n1 = None /\ forall d0, In d0 (d :: l) -> ~ starts_after d0 i) \/
            (exists l1 d0 l2,
               d :: l = (l1 ++ d0 :: l2)%list /\ n1 = Some d0 /\
               starts_after d0 i /\
               forall d', In d' l1 -> ~ starts_after d' i)
        end).
      { intros n1. destruct n0; [tauto | ].
        intros [[-> H] | (l1 & d0 & l2 & -> & -> & Ha & H)].
        - left. split; [reflexivity | ]. intros d0 [<- | H0]; auto.
        - right. exists (d :: l1), d0, l2. repeat split; auto.
          intros d' [<- | H0]; auto. }
      destruct (is_aware (dispatch_end d)); [ | discriminate].
      destruct (i <=? dt_key (dispatch_end d)) eqn:Ee; simpl; intros Hrun;
        destruct (IH _ _ _ _ Hrun) as [Hc Hnx]; (split; [ | now apply Hn]).
      * apply Z.leb_le in Ee. right.
        destruct Hc as [[-> _] | (d0 & -> & H0 & Hcov)].
        -- exists d.
           split; [reflexivity | split; [now left | unfold covers; lia]].
        -- exists d0. split; [reflexivity | split; [now right | exact Hcov]].
      * apply Z.leb_gt in Ee.
        destruct Hc as [[-> Hno] | (d0 & -> & H0 & Hcov)].
        -- left. split; [reflexivity | ].
           intros d0 [<- | H0]; [unfold covers; lia | now apply Hno].
        -- right. exists d0.
           split; [reflexivity | split; [now right | exact Hcov]].
    + apply Z.leb_gt in Es. simpl. intros Hrun.
      destruct (IH _ _ _ _ Hrun) as [Hc Hnx]. split.
      * destruct Hc as [[-> Hno] | (d0 & -> & H0 & Hcov)].
        -- left. split; [reflexivity | ].
           intros d0 [<- | H0]; [unfold covers; lia | now apply Hno].
        -- right. exists d0.
           split; [reflexivity | split; [now right | exact Hcov]].
      * destruct n0; [exact Hnx | ]. right.
        exists [], d, l.
        split; [reflexivity | split; [exact Hnx | split; [exact Es | ]]].
        intros d' [].
Qed.

(** X11.  With a library whose [astimezone] gives an aware datetime of
    the same instant: as soon as one of the dispatches has a start
    without a UTC offset, [get_dispatch_status] raises [TypeError].
    When it returns, with the dispatches [ds] of [get_dispatches] and
    the instant [i] of the clock reading taken after them: it reports
    dispatching exactly when some dispatch is under way at [i], and then
    the current dispatch is one of these; the next dispatch is one of
    [ds] that starts after [i], and none that starts after [i] starts
    earlier; and there is no next dispatch only when no dispatch starts
    after [i]. *)
Theorem dispatch_status_brackets_now (s s1 : St) (ds : list Dispatch) :
  get_dispatches W s = (inr ds, s1) ->
  let i := dt_key (astimezone (reading W s1) None) in
  ((exists d, In d ds /\ is_aware (dispatch_start d) = false) ->
   get_dispatch_status W s = (inl TypeError, tick s1)) /\
  (forall st,
     fst (get_dispatch_status W s) = inr st ->
     (is_dispatching st = true <-> exists d, In d ds /\ covers d i) /\
     (forall d, current_dispatch st = Some d -> In d ds /\ covers d i) /\
     (forall d,
        next_dispatch st = Some d ->
        In d ds /\ starts_after d i /\
        forall d', In d' ds -> starts_after d' i ->
                   dt_key (dispatch_start d) <= dt_key (dispatch_start d')) /\
     (next_dispatch st = None -> forall d, In d ds -> ~ starts_after d i)).
Proof.
  intros Hd i.
  assert (Run : get_dispatch_status W s =
    (match status_loop (reading W s1) ds (None, None) with
     | inl e => inl e
     | inr st =>
         inr (mk_DispatchStatus
                (match fst st with Some _ => true | None => false end)
                (fst st) (snd st))
     end, tick s1)).
  { unfold get_dispatch_status. rewrite (bind_inr _ _ _ _ _ Hd).
    unfold bind, now, lift, ret, reading, tick.
    now destruct (status_loop _ ds (None, None)). }
  rewrite Run. split.
  - intros (d & Hin & Hn). now rewrite (status_loop_naive _ ds d Hin Hn).
  - intros st. simpl.
    destruct (status_loop (reading W s1) ds (None, None)) as [e | [c n]] eqn:E;
      [discriminate | ].
    intros [= <-]. simpl.
    destruct (status_loop_spec _ ds _ _ _ _ E) as [Hc Hn]. fold i in Hc, Hn.
    split; [ | split; [ | split]].
    + destruct Hc as [[-> Hno] | (d & -> & Hin & Hcov)].
      * split; [discriminate | ]. intros (d & Hin & Hcov).
        exfalso. exact (Hno d Hin Hcov).
      * split; [ | reflexivity]. intros _. now exists d.
    + intros d ->. destruct Hc as [[Hc _] | (d0 & [= ->] & Hin & Hcov)];
        [discriminate | now split].
    + intros d ->.
      destruct Hn as [[Hn _] | (l1 & d0 & l2 & El & [= ->] & Ha & Hl1)];
        [discriminate | ].
      split; [rewrite El; apply in_elt | split; [exact Ha | ]].
      intros d' Hin' Ha'. rewrite El in Hin'.
      apply in_app_or in Hin'. destruct Hin' as [H1 | [<- | H2]].
      * exfalso. exact (Hl1 d' H1 Ha').
      * lia.
      * pose proof (get_dispatches_sorted s s1 ds Hd) as Hs. rewrite El in Hs.
        apply sorted_after_mid in Hs. rewrite Forall_forall in Hs.
        exact (Hs d' H2).
    + intros ->.
      destruct Hn as [[_ Hn] | (l1 & d0 & l2 & _ & [=] & _)]. exact Hn.
Qed.

End Zones.

(** ** Saving sessions *)

Lemma session_of_upcoming (t : datetime) (e : value)
  (ys : list (SavingSession num)) :
  utcoffset t = None ->
  session_of t e = inr ys ->
  Forall (fun x => wall t < wall (session_end x)) ys.
Proof.
  intros Ht. unfold session_of.
  destruct (getitem e "startAt") as [e1 | a]; simpl; [discriminate | ].
  destruct (parse_datetime a) as [e1 | da]; simpl; [discriminate | ].
  destruct (getitem e "endAt") as [e1 | b]; simpl; [discriminate | ].
  destruct (parse_datetime b) as [e1 | db]; simpl; [discriminate | ].
  unfold dt_lt, is_aware, dt_key, drop_zone. rewrite Ht. simpl.
  destruct (wall t <? wall db) eqn:E.
  - destruct (dict_get e "code" (VStr "")) as [e1 | c]; simpl;
      [discriminate | ].
    destruct (dict_get e "rewardPerKwhInOctoPoints" (VNum (num_int 0)))
      as [e1 | rw]; simpl; [discriminate | ].
    intros [= <-]. repeat constructor. simpl. now apply Z.ltb_lt.
  - intros [= <-]. constructor.
Qed.

(** X10.  Every session [get_saving_sessions] returns ends after the
    reading of the clock taken once the query is answered, the end being
    taken by its wall-clock reading, whatever its zone; an event that has
    ended by then is left out.  The list is in ascending order of
    start. *)
Theorem saving_sessions_upcoming_only (s s1 : St) (data : value) :
  _graphql W GET_SAVING_SESSIONS (VDict [("account", account (self s))]) s
    = (inr data, s1) ->
  forall l,
    fst (get_saving_sessions W s) = inr l ->
    Forall (fun x => clock W (ticks s1) < wall (session_end x)) l /\
    ascending session_start l.
Proof.
  intros Hg l. unfold get_saving_sessions. unfold bind at 1, get_self at 1.
  rewrite (bind_inr _ _ _ _ _ Hg). unfold bind, lift, now.
  destruct (dict_get data "savingSessions" (VDict [])) as [e | saving]; simpl;
    [discriminate | ].
  destruct (dict_get saving "events" (VList [])) as [e | events]; simpl;
    [discriminate | ].
  destruct (iter (py_or events (VList []))) as [e | es]; simpl;
    [discriminate | ].
  destruct (for_each _ es) as [e | raw] eqn:Hraw; simpl; [discriminate | ].
  intros H. destruct (py_sorted_ascending _ _ _ H) as [Hp Hs].
  split; [ | exact Hs].
  apply (Permutation_Forall Hp).
  apply (for_each_Forall _ _ es
           (try_append_Forall _ _ _
              (fun e ys =>
                 session_of_upcoming
                   {| wall := clock W (ticks s1); utcoffset := None |}
                   e ys eq_refl)) raw Hraw).
Qed.

(** ** The smart meter and its live power *)

Lemma find_first_some {A} (f : A -> res (option value)) (P : value -> Prop)
  (l : list A) (v : value) :
  (forall x w, f x = inr (Some w) -> P w) ->
  find_first f l = inr (Some v) -> P v.
Proof.
  intros Hf. induction l as [ | x l IH]; simpl; [discriminate | ].
  destruct (f x) as [e | [w | ]] eqn:E; simpl; [discriminate | | exact IH].
  intros [= <-]. exact (Hf x w E).
Qed.

Lemma find_first_raises {A} (f : A -> res (option value)) (Q : exn -> Prop)
  (l : list A) (e : exn) :
  (forall x e0, f x = inl e0 -> Q e0) ->
  find_first f l = inl e -> Q e.
Proof.
  intros Hf. induction l as [ | x l IH]; simpl; [discriminate | ].
  destruct (f x) as [e0 | [w | ]] eqn:E; simpl; [ | discriminate | exact IH].
  intros [= <-]. exact (Hf x e0 E).
Qed.

Lemma dict_get_raises (v : value) (k : string) (d : value) (e : exn) :
  dict_get v k d = inl e -> e = AttributeError.
Proof.
  destruct v as [ | b | n | str | l | kv]; simpl; try (now intros [= <-]).
  destruct (assoc k kv); discriminate.
Qed.

Lemma iter_raises (v : value) (e : exn) : iter v = inl e -> e = TypeError.
Proof.
  destruct v as [ | b | n | str | l | kv]; simpl;
    try discriminate; now intros [= <-].
Qed.

(** A level of the search: [d.get(key, [])], then the loop over it. *)
Lemma search_level (key : string) (f : value -> res (option value))
  (d : value) :
  (forall x w, f x = inr (Some w) -> truthy w = true) ->
  (forall x e, f x = inl e -> e = AttributeError \/ caught_discover e = true) ->
  (forall w,
     res_bind (dict_get d key (VList [])) (fun l =>
     res_bind (iter l) (find_first f)) = inr (Some w) -> truthy w = true) /\
  (forall e,
     res_bind (dict_get d key (VList [])) (fun l =>
     res_bind (iter l) (find_first f)) = inl e ->
     e = AttributeError \/ caught_discover e = true).
Proof.
  intros Hs He.
  destruct (dict_get d key (VList [])) as [e0 | l] eqn:E0; simpl.
  - split; [discriminate | ]. intros e [= <-]. left.
    exact (dict_get_raises _ _ _ _ E0).
  - destruct (iter l) as [e1 | xs] eqn:E1; simpl.
    + split; [discriminate | ]. intros e [= <-]. right.
      now rewrite (iter_raises _ _ E1).
    + split.
      * intros w. now apply (find_first_some f (fun w => truthy w = true)).
      * intros e.
        now apply (find_first_raises f
                     (fun e => e = AttributeError \/ caught_discover e = true)).
Qed.

Lemma device_of_spec (device : value) :
  (forall w, device_of device = inr (Some w) -> truthy w = true) /\
  (forall e, device_of device = inl e ->
             e = AttributeError \/ caught_discover e = true).
Proof.
  unfold device_of.
  destruct (dict_get device "deviceId" VNone) as [e0 | id] eqn:E0; simpl.
  - split; [discriminate | ]. intros e [= <-]. left.
    exact (dict_get_raises _ _ _ _ E0).
  - destruct (truthy id) eqn:Et; [ | split; discriminate].
    destruct device as [ | b | n | str | l | kv]; try discriminate.
    simpl in *. destruct (assoc "deviceId" kv) as [x | ]; simpl.
    + injection E0 as ->. split; [now intros w [= <-] | discriminate].
    + injection E0 as <-. discriminate.
Qed.

Lemma meter_device_spec (meter : value) :
  (forall w, meter_device meter = inr (Some w) -> truthy w = true) /\
  (forall e, meter_device meter = inl e ->
             e = AttributeError \/ caught_discover e = true).
Proof.
  apply search_level; intros x;
    [apply (proj1 (device_of_spec x)) | apply (proj2 (device_of_spec x))].
Qed.

Lemma meter_point_device_spec (mp : value) :
  (forall w, meter_point_device mp = inr (Some w) -> truthy w = true) /\
  (forall e, meter_point_device mp = inl e ->
             e = AttributeError \/ caught_discover e = true).
Proof.
  apply search_level; intros x;
    [apply (proj1 (meter_device_spec x)) | apply (proj2 (meter_device_spec x))].
Qed.

Lemma property_device_spec (prop : value) :
  (forall w, property_device prop = inr (Some w) -> truthy w = true) /\
  (forall e, property_device prop = inl e ->
             e = AttributeError \/ caught_discover e = true).
Proof.
  apply search_level; intros x;
    [apply (proj1 (meter_point_device_spec x))
    | apply (proj2 (meter_point_device_spec x))].
Qed.

Lemma discover_in_spec (data : value) :
  (forall v, discover_in data = inr (Some v) -> truthy v = true) /\
  (forall e, discover_in data = inl e -> e = AttributeError).
Proof.
  unfold discover_in.
  destruct (getitem data "account") as [e0 | acc] eqn:E0; simpl.
  { apply getitem_raises in E0. destruct E0 as [-> | ->]; split; discriminate. }
  destruct (getitem acc "properties") as [e1 | props] eqn:E1; simpl.
  { apply getitem_raises in E1. destruct E1 as [-> | ->]; split; discriminate. }
  destruct (iter props) as [e2 | ps] eqn:E2; simpl.
  { rewrite (iter_raises _ _ E2). split; discriminate. }
  destruct (find_first property_device ps) as [e3 | found] eqn:E3.
  - assert (H : e3 = AttributeError \/ caught_discover e3 = true).
    { revert E3.
      apply (find_first_raises property_device
               (fun e => e = AttributeError \/ caught_discover e = true)).
      intros x e. apply property_device_spec. }
    destruct H as [-> | ->]; split; try discriminate. now intros e [= <-].
  - split; [ | discriminate]. intros v [= ->]. revert E3.
    apply (find_first_some property_device (fun w => truthy w = true)).
    intros x w. apply property_device_spec.
Qed.

Lemma discover_found_truthy (s s1 : St) (device : value) :
  _discover_meter_device W s = (inr (Some device), s1) ->
  truthy device = true.
Proof.
  unfold _discover_meter_device.
  unfold bind at 1, get_self at 1. unfold bind, lift.
  destruct (_graphql W DISCOVER_DEVICES _ s) as [[e | data] s2];
    [discriminate | ].
  intros [= H _]. revert H. apply discover_in_spec.
Qed.

Lemma find_app_first {A} (p : A -> bool) (l1 l2 : list A) :
  find p (l1 ++ l2) =
    match find p l1 with
    | Some x => Some x
    | None => find p l2
    end.
Proof.
  induction l1 as [ | x l1 IH]; simpl; [reflexivity | ].
  now destruct (p x).
Qed.

(** A loop left at the first find is the first find of all its turns. *)
Lemma find_first_flat {A} (f : A -> res (option value)) (g : A -> list value)
  (l : list A) :
  Forall (fun x => f x = inr (find truthy (g x))) l ->
  find_first f l = inr (find truthy (flat_map g l)).
Proof.
  induction 1 as [ | x l Hx _ IH]; simpl; [reflexivity | ].
  rewrite Hx, find_app_first. simpl.
  now destruct (find truthy (g x)).
Qed.

Lemma search_level_flat (key : string) (f : value -> res (option value))
  (g : value -> list value) (d : value) :
  lists_under key d ->
  Forall (fun x => f x = inr (find truthy (g x))) (children key d) ->
  res_bind (dict_get d key (VList [])) (fun l =>
  res_bind (iter l) (find_first f))
  = inr (find truthy (flat_map g (children key d))).
Proof.
  intros (kv & -> & Hl). unfold children. simpl.
  destruct (assoc key kv) as [v | ] eqn:E; simpl.
  - destruct (Hl v eq_refl) as [l ->]. simpl. apply find_first_flat.
  - intros _. reflexivity.
Qed.

Lemma device_of_object (kv : list (string * value)) :
  device_of (VDict kv) = inr (find truthy [id_of (VDict kv)]).
Proof.
  unfold device_of, id_of. simpl.
  destruct (assoc "deviceId" kv) as [v | ]; simpl; [ | reflexivity].
  now destruct (truthy v).
Qed.

Lemma flat_map_singleton {A B} (f : A -> B) (l : list A) :
  flat_map (fun x => [f x]) l = map f l.
Proof. induction l as [ | x l IH]; simpl; [reflexivity | now rewrite IH]. Qed.

(** The search in properties of the expected shape finds the first of
    their device ids that is a true value. *)
Lemma find_first_device (props : list value) :
  devices_tree props ->
  find_first property_device props = inr (find truthy (device_ids props)).
Proof.
  intros Ht. unfold device_ids. apply find_first_flat.
  eapply Forall_impl; [ | exact Ht]. intros prop [Hp Hmps].
  unfold property_device. apply (search_level_flat _ _ _ _ Hp).
  eapply Forall_impl; [ | exact Hmps]. intros mp [Hmp Hms].
  unfold meter_point_device. apply (search_level_flat _ _ _ _ Hmp).
  eapply Forall_impl; [ | exact Hms]. intros meter [Hm Hds].
  unfold meter_device. rewrite <- flat_map_singleton.
  apply (search_level_flat _ _ _ _ Hm).
  eapply Forall_impl; [ | exact Hds]. intros device [kv ->].
  apply device_of_object.
Qed.

(** X12.  When the properties of the reply are objects with lists of
    objects below, as the query asks for them, [_discover_meter_device]
    returns the first device id of the reply that is a true value, in
    the order of the reply, and [None] when there is none: a device
    without an id, or with a null or empty one, is passed over, and so
    is a level that is missing.  An id it finds is never empty.  It
    returns [None] for a reply without an account, with a null account
    or with an account without properties.  The only exception that can
    leave the search is the [AttributeError] of a [get] on something
    that is no object: [KeyError] and [TypeError] end the search with
    [None]. *)
Theorem discovered_device_is_named (s : St) :
  (forall device s1,
     _discover_meter_device W s = (inr (Some device), s1) ->
     truthy device = true) /\
  (forall data s1,
     _graphql W DISCOVER_DEVICES (VDict [("account", account (self s))]) s
       = (inr data, s1) ->
     (forall e,
        fst (_discover_meter_device W s) = inl e -> e = AttributeError) /\
     (getitem data "account" = inl KeyError \/
      getitem data "account" = inr VNone \/
      (exists acc, getitem data "account" = inr acc /\
                   getitem acc "properties" = inl KeyError) ->
      _discover_meter_device W s = (inr None, s1)) /\
     (forall acc props,
        getitem data "account" = inr acc ->
        getitem acc "properties" = inr (VList props) ->
        devices_tree props ->
        _discover_meter_device W s
          = (inr (find truthy (device_ids props)), s1))).
Proof.
  split.
  - intros device s1. apply discover_found_truthy.
  - intros data s1 Hg.
    assert (Run : _discover_meter_device W s = (discover_in data, s1)).
    { unfold _discover_meter_device. unfold bind at 1, get_self at 1.
      now rewrite (bind_inr _ _ _ _ _ Hg). }
    rewrite Run. simpl. split; [apply discover_in_spec | split].
    + unfold discover_in.
      intros [-> | [-> | (acc & -> & H)]]; try reflexivity.
      simpl. now rewrite H.
    + intros acc props Ha Hp Ht. unfold discover_in.
      rewrite Ha. simpl. rewrite Hp. simpl.
      now rewrite (find_first_device props Ht).
Qed.

Lemma live_power_for_run (device : value) (s s2 : St) (data : value) :
  _graphql W GET_TELEMETRY
    (VDict [("deviceId", device);
            ("start",
             VStr (isoformat (dt_sub (reading W s) (timedelta_minutes 30))
                   ++ "Z"));
            ("end", VStr (isoformat (reading W s) ++ "Z"))]) (tick s)
    = (inr data, s2) ->
  live_power_for W device s =
    (res_bind (dict_get data "smartMeterTelemetry" VNone) (fun raw =>
     let telemetry := py_or raw (VList []) in
     if negb (truthy telemetry) then inr None
     else
       res_bind (getlast telemetry) (fun latest =>
       match live_power_of latest with
       | inr p => inr (Some p)
       | inl e => if caught_value_key e then inr None else inl e
       end)), s2).
Proof.
  intros Hg. unfold live_power_for. unfold bind at 1, now at 1.
  fold (reading W s). fold (tick s). rewrite (bind_inr _ _ _ _ _ Hg).
  unfold bind, lift, ret, raise.
  destruct (dict_get data "smartMeterTelemetry" VNone) as [e | raw]; simpl;
    [reflexivity | ].
  destruct (negb (truthy (py_or raw (VList [])))); [reflexivity | ].
  destruct (getlast (py_or raw (VList []))) as [e | latest]; simpl;
    [reflexivity | ].
  destruct (live_power_of latest) as [e | p]; [ | reflexivity].
  now destruct (caught_value_key e).
Qed.

Lemma live_power_for_state (device : value) (s : St) :
  snd (live_power_for W device s) =
  snd (_graphql W GET_TELEMETRY
         (VDict [("deviceId", device);
                 ("start",
                  VStr (isoformat (dt_sub (reading W s) (timedelta_minutes 30))
                        ++ "Z"));
                 ("end", VStr (isoformat (reading W s) ++ "Z"))]) (tick s)).
Proof.
  unfold live_power_for. unfold bind at 1, now at 1.
  fold (reading W s). fold (tick s). unfold bind at 1.
  destruct (_graphql W GET_TELEMETRY _ (tick s)) as [[e | data] s2];
    [reflexivity | ].
  unfold bind, lift, ret, raise.
  destruct (dict_get data "smartMeterTelemetry" VNone) as [e | raw]; simpl;
    [reflexivity | ].
  destruct (negb (truthy (py_or raw (VList [])))); [reflexivity | ].
  destruct (getlast (py_or raw (VList []))) as [e | latest]; simpl;
    [reflexivity | ].
  destruct (live_power_of latest) as [e | p]; [ | reflexivity].
  now destruct (caught_value_key e).
Qed.

Lemma getlast_snoc (rows : list value) (latest : value) :
  getlast (VList (rows ++ [latest])) = inr latest.
Proof. simpl. now rewrite rev_unit. Qed.

Lemma truthy_snoc (rows : list value) (latest : value) :
  truthy (VList (rows ++ [latest])) = true.
Proof. simpl. now destruct rows. Qed.

(** X13.  Without a device id, [get_live_power] asks for the device of
    the account: when none is found it returns [None] and makes no
    telemetry query, and a device found is used as if it had been given.
    With a device, the telemetry asked for is that of the 30 minutes
    before the reading of the clock, both bounds printed with a "Z"
    appended.  A reply without telemetry (missing, null or empty) gives
    [None].  Otherwise only the last entry counts: once its demand has
    been read as an integer, an entry without "readAt", or with one that
    does not parse, gives [None], and one that parses gives the record of
    that entry. *)
Theorem live_power_reads_latest (device_id : value) (s : St) :
  (truthy device_id = false ->
   (forall s1,
      _discover_meter_device W s = (inr None, s1) ->
      get_live_power W device_id s = (inr None, s1)) /\
   (forall device s1,
      _discover_meter_device W s = (inr (Some device), s1) ->
      get_live_power W device_id s = get_live_power W device s1)) /\
  (truthy device_id = true ->
   forall token s1,
     _get_token W (tick s) = (inr token, s1) ->
     sent (snd (get_live_power W device_id s)) =
       POST (_graphql_url (self s1)) [("Authorization", token)]
         (VDict [("query", VStr GET_TELEMETRY);
                 ("variables",
                  VDict [("deviceId", device_id);
                         ("start",
                          VStr (isoformat
                                  (dt_sub (reading W s) (timedelta_minutes 30))
                                ++ "Z"));
                         ("end", VStr (isoformat (reading W s) ++ "Z"))])])
       :: sent s1) /\
  (truthy device_id = true ->
   forall data s2,
     _graphql W GET_TELEMETRY
       (VDict [("deviceId", device_id);
               ("start",
                VStr (isoformat (dt_sub (reading W s) (timedelta_minutes 30))
                      ++ "Z"));
               ("end", VStr (isoformat (reading W s) ++ "Z"))]) (tick s)
       = (inr data, s2) ->
     (getitem data "smartMeterTelemetry" = inl KeyError \/
      getitem data "smartMeterTelemetry" = inr VNone \/
      getitem data "smartMeterTelemetry" = inr (VList []) ->
      get_live_power W device_id s = (inr None, s2)) /\
     (forall rows latest demand watts,
        getitem data "smartMeterTelemetry" = inr (VList (rows ++ [latest])) ->
        dict_get latest "demand" VNone = inr demand ->
        py_int (py_or demand (VNum (num_int 0))) = inr watts ->
        (getitem latest "readAt" = inl KeyError ->
         get_live_power W device_id s = (inr None, s2)) /\
        (forall str,
           getitem latest "readAt" = inr (VStr str) ->
           fromisoformat (replace_Z str) = None ->
           get_live_power W device_id s = (inr None, s2)) /\
        (forall str at_ k,
           getitem latest "readAt" = inr (VStr str) ->
           fromisoformat (replace_Z str) = Some at_ ->
           dict_get latest "consumption" VNone = inr k ->
           get_live_power W device_id s
             = (inr (Some (mk_LivePower watts at_ k)), s2)))).
Proof.
  split; [ | split].
  - intros Hf. unfold get_live_power. rewrite Hf. cbv beta iota delta [negb].
    split.
    + intros s1 Hd. now rewrite (bind_inr _ _ _ _ _ Hd).
    + intros device s1 Hd. rewrite (bind_inr _ _ _ _ _ Hd). cbv beta iota.
      now rewrite (discover_found_truthy s s1 device Hd).
  - intros Ht token s1 Htok.
    assert (Run : get_live_power W device_id s = live_power_for W device_id s).
    { unfold get_live_power. now rewrite Ht. }
    rewrite Run, live_power_for_state.
    rewrite (sent_graphql _ _ _ _ _ Htok). reflexivity.
  - intros Ht data s2 Hg.
    assert (Run : get_live_power W device_id s = live_power_for W device_id s).
    { unfold get_live_power. now rewrite Ht. }
    rewrite Run, (live_power_for_run device_id s s2 data Hg). split.
    + intros H.
      destruct data as [ | b | n | str | l | kv];
        try (destruct H as [H | [H | H]]; discriminate).
      simpl in *. destruct (assoc "smartMeterTelemetry" kv) as [v | ].
      * destruct H as [H | [H | H]]; [discriminate | | ];
          injection H as ->; reflexivity.
      * reflexivity.
    + intros rows latest demand watts Hrows Hdem Hw.
      assert (Hraw : dict_get data "smartMeterTelemetry" VNone
                     = inr (VList (rows ++ [latest]))).
      { destruct data as [ | b | n | str | l | kv]; try discriminate.
        simpl in *. now destruct (assoc "smartMeterTelemetry" kv). }
      assert (Hlp : live_power_of latest =
        res_bind (getitem latest "readAt") (fun a =>
        res_bind (parse_datetime a) (fun at_ =>
        res_bind (dict_get latest "consumption" VNone) (fun k =>
        inr (mk_LivePower watts at_ k))))).
      { unfold live_power_of. rewrite Hdem. cbv beta iota delta [res_bind].
        now rewrite Hw. }
      assert (Run2 :
        res_bind (dict_get data "smartMeterTelemetry" VNone) (fun raw =>
        let telemetry := py_or raw (VList []) in
        if negb (truthy telemetry) then inr None
        else
          res_bind (getlast telemetry) (fun latest =>
          match live_power_of latest with
          | inr p => inr (Some p)
          | inl e => if caught_value_key e then inr None else inl e
          end))
        = match live_power_of latest with
          | inr p => inr (Some p)
          | inl e => if caught_value_key e then inr None else inl e
          end).
      { rewrite Hraw. cbv beta iota zeta delta [res_bind].
        unfold py_or. rewrite truthy_snoc. cbv beta iota.
        rewrite truthy_snoc. cbv beta iota delta [negb].
        now rewrite getlast_snoc. }
      rewrite Run2, Hlp. split; [ | split].
      * intros ->. reflexivity.
      * intros str -> Hp. unfold parse_datetime. simpl. now rewrite Hp.
      * intros str at_ k -> Hp Hk. unfold parse_datetime. simpl.
        now rewrite Hp, Hk.
Qed.

(** ** The refresh token *)

Lemma store_token_refresh (resp : Response) (s s' : St) (token : value) :
  store_token W resp s = (inr token, s') ->
  exists data d kv,
    body resp = Some data /\
    getitem data "data" = inr d /\
    getitem d "obtainKrakenToken" = inr (VDict kv) /\
    assoc "token" kv = Some token /\
    _refresh_token (self s') =
      match assoc "refreshToken" kv with
      | Some rt => rt
      | None => _refresh_token (self s)
      end /\
    config (self s') = config (self s).
Proof.
  unfold store_token, raise_for_status, json_of, bind, lift, modify_self,
    get_self, ret, now.
  destruct (status_ok resp); simpl; [ | discriminate].
  destruct (body resp) as [data | ]; simpl; [ | discriminate].
  destruct (unwrap_envelope AuthenticationError data) as [e | d] eqn:Ed;
    simpl; [discriminate | ].
  destruct (getitem d "obtainKrakenToken") as [e | td] eqn:Etd;
    simpl; [discriminate | ].
  destruct (getitem td "token") as [e | tok] eqn:Etok;
    simpl; [discriminate | ].
  destruct td as [ | b | n | str | l | kv]; try discriminate. simpl in *.
  destruct (assoc "token" kv) as [t0 | ] eqn:Et; [ | discriminate].
  injection Etok as ->.
  destruct (assoc "refreshToken" kv) as [rt | ] eqn:Er; simpl;
    intros [= <- <-]; exists data, d, kv; simpl;
    (split; [reflexivity | ]);
    (split; [exact (unwrap_envelope_ok _ _ _ Ed) | ]);
    (split; [exact Etd | ]); (split; [exact Et | ]);
    (split; [now rewrite Er | reflexivity]).
Qed.

Lemma config_with_http (s : St) :
  config (self (with_http s)) = config (self s).
Proof. unfold with_http. now destruct (_http (self s)). Qed.

(** X14.  When [_get_token] obtains a token, the refresh token the
    client holds afterwards is the "refreshToken" of the reply when the
    reply has one, and the one it held before otherwise.  A "japan"
    client that then holds a refresh token that is a true value builds
    its next token request from it: the email and the password are not
    sent again. *)
Theorem refresh_token_follows_reply (s s' : St) (token : value) :
  expiry_naive (self s) -> token_usable W s = false ->
  _get_token W s = (inr token, s') ->
  exists req resp data d kv,
    token_request (self s) = inr req /\
    server W (calls s) req = Replies resp /\
    body resp = Some data /\
    getitem data "data" = inr d /\
    getitem d "obtainKrakenToken" = inr (VDict kv) /\
    assoc "token" kv = Some token /\
    _refresh_token (self s') =
      match assoc "refreshToken" kv with
      | Some rt => rt
      | None => _refresh_token (self s)
      end /\
    (is_japan (self s) = true -> truthy (_refresh_token (self s')) = true ->
     token_request (self s') =
       inr (POST (_graphql_url (self s)) []
              (VDict [("query", VStr OBTAIN_TOKEN_JAPAN);
                      ("variables",
                       VDict [("input",
                               VDict [("refreshToken",
                                       _refresh_token (self s'))])])]))).
Proof.
  intros Hn Hu. rewrite (get_token_stale s Hn Hu).
  destruct (token_request (self s)) as [e | req]; [discriminate | ].
  destruct (server W (calls s) req) as [e | resp] eqn:Hsrv; [discriminate | ].
  intros Hst.
  destruct (store_token_refresh _ _ _ _ Hst)
    as (data & d & kv & Hb & Hd & Hk & Ht & Hr & Hc).
  simpl in Hr, Hc. rewrite config_with_http, self_after_check in Hc.
  assert (Hold : _refresh_token (self (with_http (after_check s)))
                 = _refresh_token (self s)).
  { pose proof (cache_with_http (after_check s)) as H.
    rewrite self_after_check in H. unfold cache in H. now injection H. }
  rewrite Hold in Hr.
  exists req, resp, data, d, kv. repeat split; auto.
  intros Hj Htr. unfold config in Hc. injection Hc as Hreg _ _ _ _ _ _ _ Hurl.
  unfold token_request, japan_variables, is_japan in *.
  now rewrite Hreg, Hj, Htr, Hurl.
Qed.

(** ** Where every request goes *)

Local Abbreviation traffic := (traffic (num := num)).

Lemma goes_to_api_config (c c' : OctopusClient) (r : Request) :
  config c' = config c -> goes_to_api c r -> goes_to_api c' r.
Proof.
  unfold config. intros [= _ _ _ Hk _ _ _ _ Hu]. destruct r; simpl.
  - now rewrite Hu.
  - now rewrite Hk.
Qed.

Lemma traffic_refl : forall s : St, traffic s s.
Proof.
  intros s. split; [reflexivity | ].
  exists []. split; [reflexivity | constructor].
Qed.

Lemma traffic_trans :
  forall a b c : St, traffic a b -> traffic b c -> traffic a c.
Proof.
  intros a b c [C1 (n1 & S1 & F1)] [C2 (n2 & S2 & F2)]. split.
  - now rewrite C2.
  - exists (n2 ++ n1)%list. split.
    + rewrite S2, S1. now rewrite app_assoc.
    + apply Forall_app. split; [ | exact F1].
      eapply Forall_impl; [ | exact F2].
      intros r. apply goes_to_api_config. now rewrite C1.
Qed.

#[local] Hint Resolve traffic_refl traffic_trans : core.

Lemma traffic_of_posts (s s' : St) :
  same_config s s' -> posts_to_endpoint s s' -> traffic s s'.
Proof.
  intros Hc [_ (new & Hs & Hf)]. split; [exact Hc | ].
  exists new. split; [exact Hs | ].
  eapply Forall_impl; [ | exact Hf]. intros [u h j | u q a]; simpl; auto.
  contradiction.
Qed.

Lemma traffic_now : keeps traffic (now W).
Proof.
  intros s. apply traffic_of_posts; [apply same_config_now | apply posts_now].
Qed.

Lemma traffic_modify (f : OctopusClient -> OctopusClient) :
  (forall c, config (f c) = config c) -> keeps traffic (modify_self f).
Proof.
  intros H s. split; [apply H | ].
  exists []. split; [reflexivity | constructor].
Qed.

#[local] Hint Resolve traffic_now : core.

#[local] Hint Extern 1 (keeps traffic (modify_self _)) =>
  apply traffic_modify; reflexivity : core.

Lemma traffic_get_http : keeps traffic _get_http.
Proof. unfold _get_http. keeps_steps. Qed.

Lemma traffic_get_token : keeps traffic (_get_token W).
Proof.
  intros s. apply traffic_of_posts; [ | apply posts_get_token].
  apply frame_get_token; eauto using same_config_store_token.
Qed.

Lemma traffic_graphql (q : string) (v : value) :
  keeps traffic (_graphql W q v).
Proof.
  intros s. apply traffic_of_posts;
    [apply same_config_graphql | apply posts_graphql].
Qed.

#[local] Hint Resolve traffic_get_http traffic_get_token traffic_graphql
  : core.

Lemma traffic_send (r : Request) (s : St) :
  goes_to_api (self s) r -> traffic s (snd (http_send W r s)).
Proof.
  intros H. rewrite snd_http_send. split; [reflexivity | ].
  exists [r]. split; [reflexivity | now constructor].
Qed.

(** The client is read, and what follows runs from that state. *)
Lemma traffic_get_self_bind {A} (f : OctopusClient -> M A) :
  (forall s, traffic s (snd (f (self s) s))) ->
  keeps traffic (c <- get_self ;; f c).
Proof. intros H s. exact (H s). Qed.

(** The handle is made and a request of the client is sent. *)
Lemma traffic_http_then {A} (r : Request) (k : Response -> M A) (s : St) :
  goes_to_api (self s) r ->
  (forall resp, keeps traffic (k resp)) ->
  traffic s (snd ((_ <- _get_http ;; resp <- http_send W r ;; k resp) s)).
Proof.
  intros Hr Hk.
  apply run_bind; [eauto | apply traffic_get_http | intros h s1 E].
  apply run_bind; [eauto | | intros resp s2 _; apply Hk].
  apply traffic_send. refine (goes_to_api_config _ _ _ _ Hr).
  generalize (traffic_get_http s). rewrite E. simpl. now intros [C _].
Qed.

Lemma consumption_request_goes (kind : string) (point serial : option string)
  (c : OctopusClient) periods a b :
  goes_to_api c (consumption_request kind point serial c periods a b).
Proof. split; [apply is_prefix_app | reflexivity]. Qed.

Lemma unit_rates_request_goes (kind : string) (n : Z) (c : OctopusClient)
  (pc : value) (tc : string) :
  goes_to_api c (unit_rates_request kind n c pc tc).
Proof. split; [apply is_prefix_app | reflexivity]. Qed.

Lemma traffic_ensure_account : keeps traffic (_ensure_account W).
Proof. unfold _ensure_account. keeps_steps. Qed.

#[local] Hint Resolve traffic_ensure_account : core.

Lemma traffic_get_account : keeps traffic (get_account W).
Proof. unfold get_account. keeps_steps. Qed.

Lemma traffic_get_consumption_uk p a b :
  keeps traffic (_get_consumption_uk W p a b).
Proof.
  unfold _get_consumption_uk. apply traffic_get_self_bind. intros s.
  destruct (negb (opt_truthy (mpan (self s)))
            || negb (opt_truthy (meter_serial (self s))));
    [apply traffic_refl | ].
  apply traffic_http_then; [apply consumption_request_goes | ].
  intros resp. keeps_steps.
Qed.

Lemma traffic_get_consumption p a b : keeps traffic (get_consumption W p a b).
Proof.
  unfold get_consumption. apply keeps_bind; [eauto | eauto | ].
  intros c. destruct (is_japan c).
  - unfold _get_consumption_japan, half_hourly_query. keeps_steps.
  - apply traffic_get_consumption_uk.
Qed.

Lemma traffic_get_gas_consumption p a b :
  keeps traffic (get_gas_consumption W p a b).
Proof.
  unfold get_gas_consumption. apply traffic_get_self_bind. intros s.
  destruct (negb (opt_truthy (gas_mprn (self s)))
            || negb (opt_truthy (gas_meter_serial (self s))));
    [apply traffic_refl | ].
  apply traffic_http_then; [apply consumption_request_goes | ].
  intros resp. keeps_steps.
Qed.

#[local] Hint Resolve traffic_get_consumption traffic_get_gas_consumption
  : core.

Lemma traffic_get_daily_usage d : keeps traffic (get_daily_usage W d).
Proof. unfold get_daily_usage. keeps_steps. Qed.

Lemma traffic_get_daily_gas_usage d : keeps traffic (get_daily_gas_usage W d).
Proof. unfold get_daily_gas_usage. keeps_steps. Qed.

(** A [try] whose body sends a request of the client. *)
Lemma traffic_try_fetch {A B} (fetch : OctopusClient -> M A) (h : M A)
  (k : A -> M B) :
  (forall s, traffic s (snd (fetch (self s) s))) ->
  keeps traffic h -> (forall a, keeps traffic (k a)) ->
  keeps traffic
    (c <- get_self ;; a <- try_except (fetch c) caught_http h ;; k a).
Proof.
  intros Hf Hh Hk. apply traffic_get_self_bind. intros s.
  apply run_bind; [eauto | | intros a s1 _; apply Hk].
  unfold try_except. specialize (Hf s).
  destruct (fetch (self s) s) as [[e | a] s1]; simpl in *; [ | exact Hf].
  destruct (caught_http e); [ | exact Hf].
  eapply traffic_trans; [exact Hf | apply Hh].
Qed.

Lemma traffic_fetch_unit_rates pc tc (s : St) :
  traffic s (snd (fetch_unit_rates W (self s) pc tc s)).
Proof.
  unfold fetch_unit_rates.
  apply run_bind; [eauto | | intros resp s1 _; revert s1].
  - apply traffic_send, unit_rates_request_goes.
  - change (keeps traffic (lift (raise_for_status resp) ;; lift (json_of resp))).
    keeps_steps.
Qed.

Lemma traffic_fetch_gas_unit_rate pc tc (s : St) :
  traffic s (snd (fetch_gas_unit_rate W (self s) pc tc s)).
Proof.
  unfold fetch_gas_unit_rate.
  apply run_bind; [eauto | | intros resp s1 _; revert s1].
  - apply traffic_send, unit_rates_request_goes.
  - change (keeps traffic
      (lift (raise_for_status resp) ;;
       rates_data <- lift (json_of resp) ;;
       results <- lift (dict_get rates_data "results" (VList [VDict []])) ;;
       first <- lift (getfirst results) ;;
       lift (dict_get first "value_inc_vat" (VNum (num_int 0))))).
    keeps_steps.
Qed.

Lemma traffic_get_gas_tariff r : keeps traffic (get_gas_tariff W r).
Proof.
  unfold get_gas_tariff.
  apply keeps_bind; [eauto | eauto | intros c].
  apply keeps_bind; [eauto | eauto | intros data].
  apply keeps_bind; [eauto | apply keeps_lift; eauto | intros acc].
  apply keeps_bind; [eauto | apply keeps_lift; eauto | intros ags].
  destruct (negb (truthy ags)); [apply keeps_ret; eauto | ].
  apply keeps_bind; [eauto | apply keeps_lift; eauto | intros ag].
  apply keeps_bind; [eauto | apply keeps_lift; eauto | intros td].
  apply keeps_bind; [eauto | apply keeps_lift; eauto | intros pc].
  apply keeps_bind; [eauto | eauto | intros _]. cbv zeta.
  apply (traffic_try_fetch
           (fun c' => fetch_gas_unit_rate W c' pc
                        ("G-1R-" ++ format_value pc ++ "-" ++ r))).
  - intros s. apply traffic_fetch_gas_unit_rate.
  - apply keeps_ret; eauto.
  - intros u. keeps_steps.
Qed.

Lemma traffic_get_tariff r : keeps traffic (get_tariff W r).
Proof.
  unfold get_tariff.
  apply keeps_bind; [eauto | eauto | intros c].
  apply keeps_bind; [eauto | eauto | intros data].
  apply keeps_bind; [eauto | apply keeps_lift; eauto | intros acc].
  apply keeps_bind; [eauto | apply keeps_lift; eauto | intros ags].
  destruct (negb (truthy ags)); [apply keeps_ret; eauto | ].
  apply keeps_bind; [eauto | apply keeps_lift; eauto | intros ag].
  apply keeps_bind; [eauto | apply keeps_lift; eauto | intros td].
  apply keeps_bind; [eauto | apply keeps_lift; eauto | intros pc].
  apply keeps_bind; [eauto | eauto | intros _]. cbv zeta.
  apply (traffic_try_fetch
           (fun c' => fetch_unit_rates W c' pc
                        ("E-1R-" ++ format_value pc ++ "-" ++ r))).
  - intros s. apply traffic_fetch_unit_rates.
  - apply keeps_ret; eauto.
  - intros rates_data. keeps_steps.
Qed.

Lemma traffic_get_dispatches : keeps traffic (get_dispatches W).
Proof. unfold get_dispatches. keeps_steps. Qed.

Lemma traffic_discover : keeps traffic (_discover_meter_device W).
Proof. unfold _discover_meter_device. keeps_steps. Qed.

#[local] Hint Resolve traffic_get_dispatches traffic_discover : core.

Lemma traffic_get_live_power d : keeps traffic (get_live_power W d).
Proof. unfold get_live_power, live_power_for. keeps_steps. Qed.

Lemma traffic_perform (o : Operation) : keeps traffic (perform W o).
Proof.
  destruct o; simpl;
    first [ apply traffic_modify; reflexivity
          | unfold __aexit__; solve [keeps_steps]
          | apply keeps_discard; [auto | eauto | ] ];
    auto using traffic_get_account, traffic_get_daily_usage,
      traffic_get_daily_gas_usage, traffic_get_gas_tariff, traffic_get_tariff,
      traffic_get_live_power.
  unfold get_current_rate. keeps_steps.
Qed.

(** X15.  Every request that any method of the client makes is a POST to
    the GraphQL endpoint of the client, or a GET under the REST API
    "https://api.octopus.energy/v1" that authenticates with the API key
    of the client and an empty password; the requests made before stay
    on record. *)
Theorem requests_go_to_the_api (o : Operation) (s : St) :
  exists new,
    sent (snd (perform W o s)) = (new ++ sent s)%list /\
    Forall (fun r =>
              match r with
              | POST u _ _ => u = _graphql_url (self s)
              | GET u _ a =>
                  is_prefix "https://api.octopus.energy/v1" u = true /\
                  a = (api_key (self s), "")
              end) new.
Proof. exact (proj2 (traffic_perform o s)). Qed.

(** ** A token is reused until it expires *)

(** X18.  A token that [_get_token] has obtained expires 55 minutes after
    the reading [t0] of the clock taken when it was stored.  As long as
    the client holds that token and expiry, a call made while the clock
    reads strictly before [t0] plus 55 minutes returns the token and
    sends nothing, provided the token is a true value; a call made at or
    after that reading finds no usable token, and so does every call when
    the token stored is empty or null. *)
Theorem token_reused_for_55_minutes (s s1 : St) (token : value) :
  expiry_naive (self s) -> token_usable W s = false ->
  _get_token W s = (inr token, s1) ->
  let t0 := clock W (Nat.pred (ticks s1)) in
  _token_expires (self s1)
    = Some {| wall := t0 + 3300000000; utcoffset := None |} /\
  forall s2,
    _token (self s2) = _token (self s1) ->
    _token_expires (self s2) = _token_expires (self s1) ->
    (truthy token = true -> clock W (ticks s2) < t0 + 3300000000 ->
     _get_token W s2 = (inr token, tick s2)) /\
    (t0 + 3300000000 <= clock W (ticks s2) -> token_usable W s2 = false) /\
    (truthy token = false -> token_usable W s2 = false).
Proof.
  intros Hn Hu. rewrite (get_token_stale s Hn Hu).
  destruct (token_request (self s)) as [e | req]; [discriminate | ].
  destruct (server W (calls s) req) as [e | resp]; [discriminate | ].
  intros Hst t0.
  generalize (store_token_run resp (after_send req (with_http (after_check s)))).
  rewrite Hst. intros (Htok & Hexp & _ & _ & Hticks & _).
  assert (Ht0 : _token_expires (self s1)
                = Some {| wall := t0 + 3300000000; utcoffset := None |}).
  { rewrite Hexp. unfold t0. rewrite Hticks. reflexivity. }
  split; [exact Ht0 | ]. intros s2 E1 E2.
  assert (Hn2 : expiry_naive (self s2)).
  { unfold expiry_naive. now rewrite E2, Ht0. }
  assert (Hus : token_usable W s2 =
                truthy token && (clock W (ticks s2) <? t0 + 3300000000)).
  { unfold token_usable. now rewrite E1, E2, Ht0, Htok. }
  split; [ | split].
  - intros Ht Hlt. rewrite (get_token_run s2 Hn2).
    assert (Hu2 : token_usable W s2 = true).
    { rewrite Hus, Ht. now apply Z.ltb_lt. }
    rewrite Hu2, (after_check_usable s2 Hu2). now rewrite E1, Htok.
  - intros Hge. rewrite Hus. apply andb_false_iff. right. now apply Z.ltb_ge.
  - intros Hf. now rewrite Hus, Hf.
Qed.

(** ** The cache test never fails *)

Lemma session_naive (os : list Operation) (s : St) :
  expiry_naive (self s) -> expiry_naive (self (session W os s)).
Proof.
  revert s. induction os as [ | o os IH]; intros s H; [exact H | ].
  apply IH. now apply (proj2 expiry_stays_naive).
Qed.

(** X20.  In every state a client reaches from its constructor by any
    sequence of its methods, whatever the server answers and whichever of
    them raise, the expiry it holds is absent or a naive datetime, so
    that the comparison [datetime.now() < self._token_expires] of
    [_get_token] never raises [TypeError]: the cache test returns a
    boolean, true exactly when a token is present and the clock reads
    strictly before the expiry. *)
Theorem cache_test_never_raises
  (e p k a : option string) (r : string) (m ms g gs : option string)
  (os : list Operation) (t n : nat) (reqs : list Request) :
  let s := session W os (mk_St (__init__ e p k a r m ms g gs) t n reqs) in
  expiry_naive (self s) /\
  fst (token_is_fresh W s) = inr (token_usable W s).
Proof.
  intros s.
  assert (H : expiry_naive (self s)) by (apply session_naive; exact I).
  split; [exact H | ]. now rewrite (token_is_fresh_run s H).
Qed.

(** ** The window of the daily usage *)

Lemma ensure_account_known (s : St) :
  truthy (account (self s)) = true ->
  _ensure_account W s = (inr (account (self s)), s).
Proof.
  intros H. unfold _ensure_account, bind, get_self, ret. simpl.
  now rewrite H.
Qed.

Lemma get_daily_usage_state (days : Z) (s : St) :
  is_japan (self s) = true -> truthy (account (self s)) = true ->
  snd (get_daily_usage W days s) =
  snd (_graphql W HALF_HOURLY_READINGS
         (VDict [("accountNumber", account (self s));
                 ("fromDatetime",
                  VStr (isoformat
                          (dt_sub (reading W s)
                             (timedelta_minutes (30 * (days * 48))))));
                 ("toDatetime", VStr (isoformat (reading W s)))]) (tick s)).
Proof.
  intros Hj Ha. unfold get_daily_usage, get_consumption.
  unfold bind at 1. unfold bind at 1, get_self at 1. rewrite Hj.
  unfold _get_consumption_japan, half_hourly_query.
  unfold bind at 1.
  rewrite (bind_inr _ _ _ _ _ (ensure_account_known s Ha)).
  unfold bind at 1, now at 1. fold (reading W s). fold (tick s).
  destruct (_graphql W HALF_HOURLY_READINGS _ (tick s)) as [[e | data] s2];
    [reflexivity | ].
  unfold bind, lift.
  destruct (japan_readings data) as [e | rs]; simpl; [reflexivity | ].
  destruct (py_sorted start rs) as [e | cs]; simpl; [reflexivity | ].
  now destruct (daily_loop (fun c => strftime_date (start c)) kwh cs []).
Qed.


(** ** The command line *)

(** X16.  [get_client] raises [typer.Exit(1)], after printing how to set
    them, unless both OCTOPUS_API_KEY and OCTOPUS_ACCOUNT are set to
    strings that are not empty.  Otherwise it prints nothing and returns a
    client built from its four values by position: a client of region
    "japan", with the Japan endpoint, whose email is the value of
    OCTOPUS_API_KEY, whose password is the value of OCTOPUS_ACCOUNT, whose
    API key is the value of OCTOPUS_MPAN and whose account is the value of
    OCTOPUS_METER_SERIAL, without MPAN or meter serial.  The token request
    of that client posts the API key and the account number, as email and
    password, to the Japan endpoint. *)
Theorem cli_client_binds_by_position (environ : string -> option string) :
  (opt_truthy (environ "OCTOPUS_API_KEY")
   && opt_truthy (environ "OCTOPUS_ACCOUNT") = false ->
   get_client (num := num) environ = (NOT_SET, inl (typer_Exit 1))) /\
  (forall key acct,
     environ "OCTOPUS_API_KEY" = Some key -> str_truthy key = true ->
     environ "OCTOPUS_ACCOUNT" = Some acct -> str_truthy acct = true ->
     exists c : OctopusClient,
       get_client environ = ([], inr c) /\
       region c = "japan" /\
       _graphql_url c = "https://api.oejp-kraken.energy/v1/graphql/" /\
       email c = Some key /\ password c = Some acct /\
       api_key c = environ "OCTOPUS_MPAN" /\
       account c = of_opt (environ "OCTOPUS_METER_SERIAL") /\
       mpan c = None /\ meter_serial c = None /\
       gas_mprn c = None /\ gas_meter_serial c = None /\
       token_request c =
         inr (POST "https://api.oejp-kraken.energy/v1/graphql/" []
                (VDict [("query", VStr OBTAIN_TOKEN_JAPAN);
                        ("variables",
                         VDict [("input",
                                 VDict [("email", VStr key);
                                        ("password", VStr acct)])])]))).
Proof.
  split.
  - intros H. unfold get_client.
    destruct (opt_truthy (environ "OCTOPUS_API_KEY")),
      (opt_truthy (environ "OCTOPUS_ACCOUNT")); try discriminate; reflexivity.
  - intros key acct Hk Tk Ha Ta. eexists. unfold get_client.
    rewrite Hk, Ha. simpl opt_truthy. rewrite Tk, Ta.
    cbv beta iota zeta delta [negb orb].
    split; [reflexivity | ].
    unfold token_request, japan_variables, is_japan. simpl.
    rewrite Tk, Ta. simpl. repeat split; reflexivity.
Qed.

Lemma all_digits_uint (d : Decimal.uint) :
  all_digits (DecimalString.NilEmpty.string_of_uint d) = true.
Proof. induction d; simpl; auto. Qed.

Lemma str_of_int_digits (n : Z) :
  0 <= n -> all_digits (str_of_int n) = true /\ str_of_int n <> "".
Proof.
  intros Hn. unfold str_of_int. destruct n as [ | p | p]; [ | | lia].
  - split; [reflexivity | discriminate].
  - simpl. pose proof (DecimalPos.Unsigned.to_uint_nonnil p) as Hp.
    destruct (Pos.to_uint p) eqn:E; try contradiction;
      (split; [exact (all_digits_uint _) | discriminate]).
Qed.

Lemma str_of_int_inj (a b : Z) : str_of_int a = str_of_int b -> a = b.
Proof.
  intros H. apply DecimalZ.to_int_inj.
  assert (Hn : forall z, Z.to_int z <> Decimal.Pos Decimal.Nil /\
                         Z.to_int z <> Decimal.Neg Decimal.Nil).
  { intros [ | p | p]; simpl; split; try discriminate;
      intros [= E]; exact (DecimalPos.Unsigned.to_uint_nonnil p E). }
  destruct (Hn a) as [A1 A2]. destruct (Hn b) as [B1 B2].
  pose proof (DecimalString.NilZero.isi _ A1 A2) as Ea.
  pose proof (DecimalString.NilZero.isi _ B1 B2) as Eb.
  unfold str_of_int in H. rewrite H in Ea. rewrite Ea in Eb. now injection Eb.
Qed.

(** Digits followed by something that is no digit: the two parts are
    determined. *)
Lemma digits_then (x y : string) (c d : ascii) (r t : string) :
  all_digits x = true -> all_digits y = true ->
  is_digit c = false -> is_digit d = false ->
  x ++ String c r = y ++ String d t -> x = y /\ c = d /\ r = t.
Proof.
  revert y. induction x as [ | a x IH]; intros [ | b y]; simpl.
  - intros _ _ _ _ [= -> ->]. auto.
  - intros _ Hy Hc _ [= -> _]. apply andb_prop in Hy. destruct Hy as [Hb _].
    congruence.
  - intros Hx _ _ Hd [= -> _]. apply andb_prop in Hx. destruct Hx as [Ha _].
    congruence.
  - intros Hx Hy Hc Hd [= -> H]. apply andb_prop in Hx, Hy.
    destruct Hx as [_ Hx]. destruct Hy as [_ Hy].
    destruct (IH y Hx Hy Hc Hd H) as (-> & -> & ->). auto.
Qed.

(** X17.  [format_time_delta] prints "now" for a duration that is not
    positive.  A positive duration under an hour prints as its whole
    minutes and "m" (so "0m" under a minute), and any longer one as its
    whole hours, "h", a space, and the minutes left over, under 60, with
    "m".  Two durations print alike exactly when neither is positive, or
    both are and they have the same number of whole minutes. *)
Theorem format_time_delta_minutes (a b : Z) :
  (a <= 0 -> format_time_delta a = "now") /\
  (0 < a ->
   format_time_delta a =
     (if a <? 3600 then str_of_int (a / 60) ++ "m"
      else str_of_int (a / 3600) ++ "h " ++ str_of_int (a / 60 mod 60)
           ++ "m")) /\
  (format_time_delta a = format_time_delta b <->
   (a <= 0 /\ b <= 0) \/ (0 < a /\ 0 < b /\ a / 60 = b / 60)).
Proof.
  assert (Pos : forall s, 0 < s ->
    format_time_delta s =
      (if s <? 3600 then str_of_int (s / 60) ++ "m"
       else str_of_int (s / 3600) ++ "h " ++ str_of_int (s / 60 mod 60)
            ++ "m")).
  { intros s Hs. unfold format_time_delta.
    destruct (s <=? 0) eqn:E; [apply Z.leb_le in E; lia | ].
    assert (Hm : s mod 3600 / 60 = s / 60 mod 60)
      by (Z.to_euclidean_division_equations; lia).
    rewrite Hm. destruct (s <? 3600) eqn:E1.
    - apply Z.ltb_lt in E1.
      assert (H0 : s / 3600 = 0) by (apply Z.div_small; lia).
      rewrite H0. simpl.
      assert (H1 : s / 60 mod 60 = s / 60)
        by (Z.to_euclidean_division_equations; lia).
      now rewrite H1.
    - apply Z.ltb_ge in E1.
      assert (H0 : (0 <? s / 3600) = true).
      { apply Z.ltb_lt. Z.to_euclidean_division_equations. lia. }
      now rewrite H0. }
  assert (Now : forall s, s <= 0 -> format_time_delta s = "now").
  { intros s Hs. unfold format_time_delta.
    destruct (s <=? 0) eqn:E; [reflexivity | apply Z.leb_gt in E; lia]. }
  assert (NotNow : forall s, 0 < s -> format_time_delta s <> "now").
  { intros s Hs H. rewrite (Pos s Hs) in H.
    assert (D : forall n r, 0 <= n -> str_of_int n ++ r <> "now").
    { intros n r Hn E. destruct (str_of_int_digits n Hn) as [Hd Hne].
      destruct (str_of_int n) as [ | c x]; [contradiction | ].
      simpl in *. injection E as -> _. discriminate. }
    destruct (s <? 3600); apply D in H; auto;
      Z.to_euclidean_division_equations; lia. }
  split; [apply Now | split; [apply Pos | ]].
  split.
  - intros H. destruct (Z_le_gt_dec a 0) as [Ha | Ha];
      destruct (Z_le_gt_dec b 0) as [Hb | Hb].
    + now left.
    + exfalso. rewrite (Now a Ha) in H. symmetry in H.
      apply (NotNow b) in H; [exact H | lia].
    + exfalso. rewrite (Now b Hb) in H. apply (NotNow a) in H; [exact H | lia].
    + right. split; [lia | split; [lia | ]].
      rewrite (Pos a), (Pos b) in H by lia.
      assert (Ha60 : 0 <= a / 60) by (apply Z.div_pos; lia).
      assert (Hb60 : 0 <= b / 60) by (apply Z.div_pos; lia).
      assert (Ha36 : 0 <= a / 3600) by (apply Z.div_pos; lia).
      assert (Hb36 : 0 <= b / 3600) by (apply Z.div_pos; lia).
      assert (Ham : 0 <= a / 60 mod 60) by (apply Z.mod_pos_bound; lia).
      assert (Hbm : 0 <= b / 60 mod 60) by (apply Z.mod_pos_bound; lia).
      destruct (a <? 3600) eqn:Ea; destruct (b <? 3600) eqn:Eb.
      * apply digits_then in H; try apply str_of_int_digits; auto.
        destruct H as [H _]. now apply str_of_int_inj.
      * apply digits_then in H; try apply str_of_int_digits; auto.
        destruct H as (_ & H & _). discriminate.
      * apply digits_then in H; try apply str_of_int_digits; auto.
        destruct H as (_ & H & _). discriminate.
      * apply digits_then in H; try apply str_of_int_digits; auto.
        destruct H as (Hh & _ & H). apply str_of_int_inj in Hh.
        injection H as H.
        apply digits_then in H; try apply str_of_int_digits; auto.
        destruct H as [Hm _]. apply str_of_int_inj in Hm.
        Z.to_euclidean_division_equations. lia.
  - intros [[Ha Hb] | (Ha & Hb & H)].
    + now rewrite (Now a Ha), (Now b Hb).
    + rewrite (Pos a Ha), (Pos b Hb).
      assert (E1 : (a <? 3600) = (b <? 3600)).
      { destruct (a <? 3600) eqn:Ea; destruct (b <? 3600) eqn:Eb; auto;
          [apply Z.ltb_lt in Ea; apply Z.ltb_ge in Eb
          | apply Z.ltb_ge in Ea; apply Z.ltb_lt in Eb];
          exfalso; Z.to_euclidean_division_equations; lia. }
      assert (E2 : a / 3600 = b / 3600)
        by (Z.to_euclidean_division_equations; lia).
      now rewrite E1, E2, H.
Qed.

(** ** The current rate *)

Lemma hm_table :
  forallb (fun h =>
    forallb (fun m =>
      let hm := (Sample.pad 2 h ++ ":" ++ Sample.pad 2 m)%string in
      Bool.eqb (String.leb "23:30" hm) (1410 <=? h * 60 + m)
      && Bool.eqb (String.ltb hm "05:30") (h * 60 + m <? 330))
      (map Z.of_nat (seq 0 60)))
    (map Z.of_nat (seq 0 24)) = true.
Proof. vm_compute. reflexivity. Qed.

Lemma in_range (n : nat) (z : Z) :
  0 <= z < Z.of_nat n -> In z (map Z.of_nat (seq 0 n)).
Proof.
  intros H. apply in_map_iff. exists (Z.to_nat z). split; [lia | ].
  apply in_seq. lia.
Qed.

(** Strings "HH:MM" compare as the minutes of the day they print. *)
Lemma print_hm_compare (d : datetime) :
  String.leb "23:30" (Sample.print_hm d) = (1410 <=? minute_of_day (wall d)) /\
  String.ltb (Sample.print_hm d) "05:30" = (minute_of_day (wall d) <? 330).
Proof.
  unfold Sample.print_hm, minute_of_day.
  set (secs := wall d / 1000000 mod 86400).
  assert (Hs : 0 <= secs < 86400) by (apply Z.mod_pos_bound; lia).
  assert (Hh : 0 <= secs / 3600 < 24)
    by (split; [apply Z.div_pos; lia | apply Z.div_lt_upper_bound; lia]).
  assert (Hm : 0 <= secs / 60 mod 60 < 60) by (apply Z.mod_pos_bound; lia).
  assert (E : wall d / 60000000 mod 1440 = secs / 3600 * 60 + secs / 60 mod 60).
  { unfold secs. Z.to_euclidean_division_equations. lia. }
  rewrite E.
  pose proof hm_table as T. rewrite forallb_forall in T.
  specialize (T _ (in_range 24 _ Hh)). rewrite forallb_forall in T.
  specialize (T _ (in_range 60 _ Hm)). cbv zeta in T.
  apply andb_prop in T. destruct T as [T1 T2].
  apply Bool.eqb_prop in T1. apply Bool.eqb_prop in T2. now split.
Qed.

Section TimeOfDay.
Context {WC : WallClock L}.

(** X7.  With a library that prints and sets the time of day as Python
    does, [get_current_rate] never raises and reads the clock once.  The
    rate is off-peak exactly from 23:30 to 05:30 of the clock; the rate
    is then the off-peak rate of the tariff, or 7.0 when that is none or
    zero, and the next rate its peak rate, or 30.0; outside these hours
    the two are exchanged.  The period ends at the next 05:30 (off-peak)
    or 23:30 (peak) of the clock: strictly after the reading, at most 6
    hours (off-peak) or 18 hours (peak) later. *)
Theorem current_rate_ends_ahead (tariff : Tariff num) (s : St) :
  let t := clock W (ticks s) in
  let cheap := py_or (off_peak_rate tariff) (VNum (num_dec 70 1)) in
  let dear := py_or (peak_rate tariff) (VNum (num_dec 300 1)) in
  exists r,
    get_current_rate W tariff s = (inr r, tick s) /\
    is_off_peak r = in_off_peak_hours t /\
    rate r = (if in_off_peak_hours t then cheap else dear) /\
    next_rate r = (if in_off_peak_hours t then dear else cheap) /\
    utcoffset (period_end r) = None /\
    second_of_day (wall (period_end r))
      = (if in_off_peak_hours t then 19800 else 84600) /\
    t < wall (period_end r) /\
    wall (period_end r)
      <= t + (if in_off_peak_hours t then 21600 else 64800) * 1000000.
Proof.
  intros t cheap dear. subst cheap dear.
  unfold get_current_rate, bind, now, ret, tick, in_off_peak_hours.
  rewrite strftime_hm_wall, !replace_time_wall.
  destruct (print_hm_compare {| wall := clock W (ticks s); utcoffset := None |})
    as [-> ->].
  cbn [wall]. fold t. clearbody t. unfold second_of_day.
  destruct (1410 <=? minute_of_day t) eqn:Late; simpl orb; cbv iota.
  - eexists. split; [reflexivity | ]. simpl.
    apply Z.leb_le in Late. unfold minute_of_day, timedelta_minutes in *.
    repeat split; try reflexivity; Z.to_euclidean_division_equations; lia.
  - apply Z.leb_gt in Late.
    destruct (minute_of_day t <? 330) eqn:Early; cbv iota.
    + eexists. split; [reflexivity | ]. simpl.
      apply Z.ltb_lt in Early. unfold minute_of_day in *.
      repeat split; try reflexivity; Z.to_euclidean_division_equations; lia.
    + apply Z.ltb_ge in Early.
      unfold lift, dt_le, dt_key, is_aware, Sample.set_time. simpl.
      match goal with
      | |- context [?a <=? t] => destruct (a <=? t) eqn:Hp
      end.
      * exfalso. apply Z.leb_le in Hp. unfold minute_of_day in *.
        Z.to_euclidean_division_equations. lia.
      * eexists. split; [reflexivity | ]. simpl.
        unfold minute_of_day in *.
        repeat split; try reflexivity; Z.to_euclidean_division_equations; lia.
Qed.

End TimeOfDay.

End Properties.

(** * The properties, run *)

Import Sample.

(** The cached token is returned; a client without one, and one whose
    token has expired, get the token of the response, which expires 55
    minutes after the reading taken on its arrival. *)
Lemma get_token_cache_policy_run :
  _get_token (world nine [])
    (start_of (logged_in japan_client (nine + 1000000)))
  = (inr (VStr "tok-0"),
     tick (start_of (logged_in japan_client (nine + 1000000)))) /\
  _token_expires
    (self (snd (_get_token (world nine [ok token_body])
                  (start_of japan_client))))
  = Some {| wall := nine + 55 * 60000000; utcoffset := None |} /\
  fst (_get_token (world nine [ok token_body]) (start_of japan_client))
  = inr (VStr "tok-1") /\
  fst (_get_token (world nine [ok token_body])
         (start_of (logged_in japan_client nine)))
  = inr (VStr "tok-1").
Proof.
  split; [ | split; [ | split]].
  - exact (proj1 (get_token_cache_policy (world nine [])
                    (start_of (logged_in japan_client (nine + 1000000))) eq_refl)
             eq_refl).
  - generalize (proj2 (get_token_cache_policy (world nine [ok token_body])
                         (start_of japan_client) I) eq_refl).
    vm_compute. tauto.
  - reflexivity.
  - generalize (proj2 (get_token_cache_policy (world nine [ok token_body])
                         (start_of (logged_in japan_client nine)) eq_refl)
                  eq_refl).
    vm_compute. intros _. reflexivity.
Defined.

(** Without a usable token and without credentials, nothing is requested
    and no expiry is recorded. *)
Lemma no_credentials_no_expiry :
  token_usable (world nine []) (start_of anonymous_client) = false /\
  fst (_get_token (world nine []) (start_of anonymous_client))
  = inl (AuthenticationError
           (VStr "Japan region requires email and password")) /\
  sent (snd (_get_token (world nine []) (start_of anonymous_client))) = [] /\
  _token_expires
    (self (snd (_get_token (world nine []) (start_of anonymous_client))))
  = None.
Proof. repeat split. Qed.

(** Both methods raise the first message of the "errors" field, and
    [_graphql] returns the "data" field of a reply without errors. *)
Lemma error_envelope_run :
  fst (_graphql (world nine [ok errors_body]) GET_ACCOUNT VNone japan_ready)
  = inl (APIError (VStr "Invalid data.")) /\
  fst (_get_token (world nine [ok errors_body]) (start_of japan_client))
  = inl (AuthenticationError (VStr "Invalid data.")) /\
  (exists d,
     getitem account_body "data" = inr d /\
     fst (_graphql (world nine [ok account_body]) GET_ACCOUNT VNone japan_ready)
     = inr d).
Proof.
  assert (Hm : first_error_message errors_body (VStr "Invalid data.")).
  { now exists (VList [VDict [("message", VStr "Invalid data.")]]),
      (VDict [("message", VStr "Invalid data.")]). }
  assert (Hwf : graphql_response account_body).
  { eexists. split; [reflexivity | split].
    - discriminate.
    - intros _. eexists. reflexivity. }
  split; [ | split].
  - apply (proj1 (proj1 (error_envelope_uniform (world nine [ok errors_body]))
                    japan_ready GET_ACCOUNT VNone errors_body
                    ltac:(now repeat eexists))
             (VStr "Invalid data.")).
    exact Hm.
  - apply (proj1 (proj2 (error_envelope_uniform (world nine [ok errors_body]))
                    (start_of japan_client) errors_body
                    ltac:(repeat split; now repeat eexists))
             (VStr "Invalid data.")).
    exact Hm.
  - apply (proj2 (proj1 (error_envelope_uniform (world nine [ok account_body]))
                    japan_ready GET_ACCOUNT VNone account_body
                    ltac:(now repeat eexists))
             Hwf).
    reflexivity.
Defined.

(** The email and password flow of Japan, the API key flow of the UK. *)
Lemma token_flow_by_region_run :
  sent (snd (_get_token (world nine [ok token_body]) (start_of japan_client)))
  = [POST "https://api.oejp-kraken.energy/v1/graphql/" []
       (VDict [("query", VStr OBTAIN_TOKEN_JAPAN);
               ("variables",
                VDict [("input",
                        VDict [("email", VStr "user@example.com");
                               ("password", VStr "secret")])])])] /\
  sent (snd (_get_token (world nine [ok token_body]) (start_of uk_client)))
  = [POST "https://api.octopus.energy/v1/graphql/" []
       (VDict [("query", VStr OBTAIN_TOKEN_UK);
               ("variables", VDict [("key", VStr "sk_live_x")])])].
Proof.
  split.
  - exact (proj1 (proj2 (token_flow_by_region (world nine [ok token_body])
                           (start_of japan_client) I eq_refl))
             eq_refl eq_refl eq_refl eq_refl).
  - exact (proj1 (proj2 (proj2 (proj2
             (token_flow_by_region (world nine [ok token_body])
                (start_of uk_client) I eq_refl))))
             eq_refl eq_refl).
Defined.

(** The endpoints of the two regions, and of a region that is neither. *)
Lemma graphql_posts_to_region_endpoint_run :
  _graphql_url japan_client = "https://api.oejp-kraken.energy/v1/graphql/" /\
  _graphql_url uk_client = "https://api.octopus.energy/v1/graphql/" /\
  _graphql_url
    (__init__ (num := Q) None None None None "mars" None None None None)
  = "https://api.oejp-kraken.energy/v1/graphql/" /\
  posts_to_endpoint japan_ready
    (snd (_graphql (world nine [ok account_body]) GET_ACCOUNT VNone
            japan_ready)).
Proof.
  pose proof (graphql_posts_to_region_endpoint (world nine [ok account_body]))
    as [Hinit [Hposts _]].
  split; [ | split; [ | split]].
  - exact (proj1 (proj2 (Hinit (Some "user@example.com") (Some "secret") None
                           None "japan" None None None None)) eq_refl).
  - exact (proj1 (proj2 (proj2 (Hinit None None (Some "sk_live_x")
                                  (Some "A-1234") "uk" (Some "1200000000000")
                                  (Some "21E0000000") (Some "7000000000")
                                  (Some "G4A00000000000")))) eq_refl).
  - apply (proj2 (proj2 (proj2 (Hinit None None None None "mars" None None
                                  None None)))); discriminate.
  - apply Hposts.
Defined.

(** The balance in yen is kept, the balance in pence is divided by 100;
    a null name becomes the empty string. *)
Lemma get_account_normalizes_run :
  fst (get_account (world nine [ok account_body]) japan_ready)
  = inr (mk_Account (VStr "A-12345678") (VNum (inject_Z 1234)) (VStr "")
           (VStr "ACTIVE") (VStr "1-2-3 Shibuya")) /\
  fst (get_account (world nine [ok account_body]) uk_ready)
  = inr (mk_Account (VStr "A-1234")
           (VNum (Qdiv (inject_Z 1234) (inject_Z 100))) (VStr "")
           (VStr "ACTIVE") (VStr "1-2-3 Shibuya")).
Proof.
  split.
  - rewrite (proj1 (get_account_normalizes (world nine [ok account_body])
                      japan_ready japan_ready
                      (snd (_graphql (world nine [ok account_body]) GET_ACCOUNT
                              (VDict [("account", VStr "A-12345678")])
                              japan_ready))
                      (VStr "A-12345678") _ _ _ _ _ _
                      eq_refl eq_refl eq_refl eq_refl eq_refl eq_refl eq_refl)
               eq_refl).
    reflexivity.
  - rewrite (proj1 (proj2 (get_account_normalizes
                      (world nine [ok account_body])
                      uk_ready uk_ready
                      (snd (_graphql (world nine [ok account_body]) GET_ACCOUNT
                              (VDict [("account", VStr "A-1234")]) uk_ready))
                      (VStr "A-1234") _ _ _ _ _ _
                      eq_refl eq_refl eq_refl eq_refl eq_refl eq_refl eq_refl))
               eq_refl (inject_Z 1234) eq_refl).
    reflexivity.
Defined.

(** With the unit rates out of reach the tariffs are still returned. *)
Lemma tariffs_survive_rest_failure_run :
  (exists s2,
     get_tariff (world nine [ok tariffs_body; Raises HTTPError]) "J" uk_ready
     = (inr (Some (mk_Tariff (VStr "Intelligent Octopus Go")
                     (VStr "INTELLI-VAR-22-10-14") (VNum (Qmake 4785 100))
                     [] VNone VNone "23:30" "05:30")), s2)) /\
  (exists s2,
     get_gas_tariff
       (world nine [ok tariffs_body;
                    Replies {| status_ok := false; body := None |}])
       "J" uk_ready
     = (inr (Some (mk_GasTariff (VStr "Flexible Octopus") (VStr "VAR-22-11-01")
                     (VNum (Qmake 2911 100)) (VNum (inject_Z 0)))), s2)).
Proof.
  split.
  - destruct (proj1 (tariffs_survive_rest_failure
                       (world nine [ok tariffs_body; Raises HTTPError]))
                "J" uk_ready _ _ (VStr "INTELLI-VAR-22-10-14")
                ltac:(now repeat eexists) (or_introl eq_refl))
      as (dn & ch & s2 & Hdn & Hch & Hrun).
    exists s2. injection Hdn as <-. injection Hch as <-. exact Hrun.
  - destruct (proj2 (tariffs_survive_rest_failure
                       (world nine
                          [ok tariffs_body;
                           Replies {| status_ok := false; body := None |}]))
                "J" uk_ready _ _ (VStr "VAR-22-11-01")
                ltac:(now repeat eexists)
                (or_intror (ex_intro _ _ (conj eq_refl eq_refl))))
      as (dn & ch & s2 & Hdn & Hch & Hrun).
    exists s2. injection Hdn as <-. injection Hch as <-. exact Hrun.
Defined.


Example gas_classified_values :
  fst (get_gas_consumption (world nine [ok gas_body]) 48 None None uk_ready)
  = inr [ mk_GasConsumption
            {| wall := 1705276800000000; utcoffset := Some 0 |}
            {| wall := 1705278600000000; utcoffset := Some 0 |}
            (VNum (Qmult (Qmake 5 10) (Qmake 111868 10000)))
            (VNum (Qmake 5 10));
          mk_GasConsumption
            {| wall := 1705278600000000; utcoffset := Some 0 |}
            {| wall := 1705280400000000; utcoffset := Some 0 |}
            (VNum (inject_Z 12)) VNone ].
Proof. vm_compute. reflexivity. Qed.


(** C9.  A reading that fails to parse is not always skipped.  A reading
    whose "value" is null is: [float(None)] raises [TypeError], which the
    handler catches.  But a reading whose "startAt" is null makes the
    whole call raise [AttributeError], which the handler
    [except (ValueError, KeyError, TypeError)] misses; and readings with
    and without a UTC offset, which all parse, make [sorted] raise
    [TypeError] outside the [try]. *)
Lemma japan_null_start_not_skipped :
  fst (_get_consumption_japan (world nine [ok (readings_of null_value_rows)])
         48 None None japan_ready)
  = inr (flat_map parsed [reading_row "2024-01-15T00:00:00+09:00"
                            (VStr "0.35") VNone]) /\
  fst (_get_consumption_japan (world nine [ok (readings_of null_start_rows)])
         48 None None japan_ready)
  = inl AttributeError /\
  fst (_get_consumption_japan (world nine [ok (readings_of mixed_rows)])
         48 None None japan_ready)
  = inl TypeError.
Proof. repeat split; vm_compute; reflexivity. Qed.

Example japan_consumption_values :
  match
    fst (_get_consumption_japan (world nine [ok readings_body]) 48 None None
           japan_ready)
  with
  | inr l => map (fun c => (print_iso (start c), print_iso (end_ c), kwh c)) l
  | inl _ => []
  end
  = [ ("2024-01-14T23:30:00+09:00", "2024-01-15T00:00:00+09:00",
       VNum (Qmake 40 100));
      ("2024-01-15T00:00:00+09:00", "2024-01-15T00:30:00+09:00",
       VNum (Qmake 35 100));
      ("2024-01-15T00:30:00+09:00", "2024-01-15T01:00:00+09:00",
       VNum (Qmake 25 100)) ].
Proof. vm_compute. reflexivity. Qed.

Lemma Q_exact : ExactAdd Q.
Proof.
  split; simpl.
  - intros [a1 a2] [b1 b2] [c1 c2]. unfold Qplus. simpl. f_equal.
    + rewrite !Pos2Z.inj_mul. ring.
    + apply Pos.mul_assoc.
  - intros [a1 a2] [b1 b2]. unfold Qplus. simpl. f_equal.
    + ring.
    + apply Pos.mul_comm.
  - intros [a1 a2]. unfold Qplus, inject_Z. simpl. f_equal. ring.
Qed.


Example daily_usage_values :
  fst (get_daily_usage (world nine [ok readings_body]) 1 japan_ready)
  = inr [ ("2024-01-14", VNum (Qplus (inject_Z 0) (Qmake 40 100)));
          ("2024-01-15",
           VNum (Qplus (Qplus (inject_Z 0) (Qmake 35 100)) (Qmake 25 100))) ].
Proof. vm_compute. reflexivity. Qed.


(** * The further properties, run *)

Lemma Q_wall_clock : WallClock QLib.
Proof. split; reflexivity. Qed.

Lemma Q_zones : ZoneLaws QLib.
Proof.
  split.
  - reflexivity.
  - intros d tz tz'. unfold dt_key. simpl. lia.
Qed.

(** A new "japan" client learns its account number from the viewer. *)
Lemma ensure_account_discovers_once_run :
  let W := world nine [ok token_body; ok viewer_body] in
  fst (_ensure_account W (start_of japan_client)) = inr (VStr "A-12345678") /\
  account (self (snd (_ensure_account W (start_of japan_client))))
  = VStr "A-12345678" /\
  _ensure_account W (snd (_ensure_account W (start_of japan_client)))
  = (inr (VStr "A-12345678"), snd (_ensure_account W (start_of japan_client))).
Proof.
  intros W.
  destruct (proj2 (proj2 (proj2
              (ensure_account_discovers_once W (start_of japan_client))))
              (VStr "A-12345678")
              (snd (_ensure_account W (start_of japan_client))) eq_refl)
    as [Ha Hagain].
  split; [reflexivity | split; [exact Ha | exact (Hagain eq_refl)]].
Defined.

(** Two rows of the REST API give two records, with the raw values. *)
Lemma uk_consumption_all_or_nothing_run :
  sent (snd (_get_consumption_uk (world nine [ok gas_body]) 48 None None
               uk_ready))
  = [GET "https://api.octopus.energy/v1/electricity-meter-points/1200000000000/meters/21E0000000/consumption/"
       [("page_size", VNum (inject_Z 48))] (Some "sk_live_x", "")] /\
  fst (_get_consumption_uk (world nine [ok gas_body]) 48 None None uk_ready)
  = map_res uk_reading gas_rows.
Proof.
  pose proof (proj2 (uk_consumption_all_or_nothing (world nine [ok gas_body])
                       48 None None uk_ready) eq_refl) as (Hs & _ & Hr).
  split; [exact Hs | ].
  exact (proj1 (Hr _ gas_body gas_rows eq_refl eq_refl eq_refl eq_refl)).
Defined.

(** The gas readings of one day add up under its date. *)
Lemma daily_gas_usage_sums_by_day_run :
  exists daily,
    fst (get_daily_gas_usage (world nine [ok gas_body]) 1 uk_ready) = inr daily /\
    map fst daily = ["2024-01-15"].
Proof.
  assert (Hg : get_gas_consumption (world nine [ok gas_body]) (1 * 48) None
                 None uk_ready
               = (inr match
                        fst (get_gas_consumption (world nine [ok gas_body])
                               (1 * 48) None None uk_ready)
                      with
                      | inr gs => gs
                      | inl _ => []
                      end,
                  snd (get_gas_consumption (world nine [ok gas_body])
                         (1 * 48) None None uk_ready)))
    by (vm_compute; reflexivity).
  destruct (daily_gas_usage_sums_by_day (world nine [ok gas_body]) 1 uk_ready
              _ _ Hg) as (daily & Hrun & _).
  exists daily. rewrite Hrun. split; [reflexivity | ].
  apply (f_equal fst) in Hrun. vm_compute in Hrun. injection Hrun as <-.
  reflexivity.
Defined.

Example daily_gas_usage_values :
  fst (get_daily_gas_usage (world nine [ok gas_body]) 1 uk_ready)
  = inr [ ("2024-01-15",
           VNum (Qplus (Qplus (inject_Z 0)
                          (Qmult (Qmake 5 10) (Qmake 111868 10000)))
                   (inject_Z 12))) ].
Proof. vm_compute. reflexivity. Qed.

(** Of five unit rates the first four are read: 8.1 is the last under
    15 and 31 the last other one. *)
Lemma tariff_rates_from_first_four_run :
  exists t vals,
    fst (get_tariff (world nine [ok tariffs_body; ok rates_body]) "J" uk_ready)
    = inr (Some t) /\
    map_res rate_value (firstn 4 rate_rows) = inr vals /\
    off_peak_rate t = or_none (last_where is_cheap vals) /\
    peak_rate t = or_none (last_where is_dear vals) /\
    off_peak_rate t = VNum (Qmake 81 10) /\
    peak_rate t = VNum (inject_Z 31) /\
    rates t = [("off_peak", VNum (Qmake 81 10)); ("peak", VNum (inject_Z 31))].
Proof.
  assert (Ht : fst (get_tariff (world nine [ok tariffs_body; ok rates_body])
                      "J" uk_ready)
               = inr (Some (mk_Tariff (VStr "Intelligent Octopus Go")
                              (VStr "INTELLI-VAR-22-10-14")
                              (VNum (Qmake 4785 100))
                              [("off_peak", VNum (Qmake 81 10));
                               ("peak", VNum (inject_Z 31))]
                              (VNum (Qmake 81 10)) (VNum (inject_Z 31))
                              "23:30" "05:30")))
    by (vm_compute; reflexivity).
  destruct (tariff_rates_from_first_four
              (world nine [ok tariffs_body; ok rates_body]) "J" uk_ready _ _
              (VStr "INTELLI-VAR-22-10-14") rates_body rate_rows
              ltac:(now repeat eexists) ltac:(now repeat eexists) eq_refl
              _ Ht)
    as (vals & Hv & _ & Ho & Hp & _).
  eexists. exists vals. split; [exact Ht | ].
  split; [exact Hv | split; [exact Ho | split; [exact Hp | ]]].
  repeat split.
Defined.


(** Without an agreement one request is made, and [None] comes back. *)
Lemma no_agreement_no_tariff_run :
  let W := world nine [ok no_agreements_body] in
  fst (get_tariff W "J" uk_ready) = inr None /\
  fst (get_gas_tariff W "J" uk_ready) = inr None /\
  List.length (sent (snd (get_tariff W "J" uk_ready))) = 1%nat /\
  List.length (sent (snd (get_gas_tariff W "J" uk_ready))) = 1%nat.
Proof.
  intros W.
  set (acc := VDict [("electricityAgreements", VList []);
                     ("gasAgreements", VNone)] : value Q).
  pose proof (no_agreement_no_tariff W "J" uk_ready
                (snd (_graphql W GET_TARIFF
                        (VDict [("account", account (self uk_ready))])
                        uk_ready))
                (VDict [("account", acc)]) acc (VList []) eq_refl eq_refl)
    as [H1 _].
  pose proof (no_agreement_no_tariff W "J" uk_ready
                (snd (_graphql W GET_GAS_TARIFF
                        (VDict [("account", account (self uk_ready))])
                        uk_ready))
                (VDict [("account", acc)]) acc VNone eq_refl eq_refl)
    as [_ H2].
  rewrite (H1 eq_refl eq_refl), (H2 eq_refl eq_refl).
  repeat split.
Defined.

(** At 09:00 the rate is the peak rate, 30.0 for want of one, until
    23:30 of the same day. *)
Lemma current_rate_ends_ahead_run :
  exists r,
    get_current_rate (world nine []) go_tariff uk_ready
    = (inr r, tick uk_ready) /\
    is_off_peak r = false /\
    rate r = VNum (Qmake 300 10) /\
    next_rate r = VNum (Qmake 75 10) /\
    print_iso (period_end r) = "2024-01-15T23:30:00".
Proof.
  destruct (current_rate_ends_ahead (WC := Q_wall_clock) (world nine [])
              go_tariff uk_ready)
    as (r & Hrun & Ho & Hr & Hn & _).
  exists r. split; [exact Hrun | ].
  split; [exact Ho | split; [exact Hr | split; [exact Hn | ]]].
  apply (f_equal fst) in Hrun. vm_compute in Hrun. injection Hrun as <-.
  vm_compute. reflexivity.
Defined.


Example dispatches_values :
  match fst (get_dispatches (world nine [ok dispatches_body]) uk_ready) with
  | inr l =>
      map (fun d => (print_iso (dispatch_start d), print_iso (dispatch_end d),
                     source d)) l
  | inl _ => []
  end
  = [ ("2024-01-14T23:30:00+00:00", "2024-01-15T00:30:00+00:00",
       "smart-charge");
      ("2024-01-15T12:00:00+00:00", "2024-01-15T13:00:00+00:00",
       "smart-charge") ].
Proof. vm_compute. reflexivity. Qed.

(** Of four raw dispatches two parse; with a limit of one the later of
    the two sessions is kept, and with a limit of ten both are. *)
Lemma completed_dispatches_newest_first_run :
  (exists c s1,
     get_completed_dispatches (world nine [ok dispatches_body]) 1 uk_ready
     = (inr [c], s1) /\
     print_iso (completed_start c) = "2024-01-15T12:00:00+00:00" /\
     completed_kwh c = VNum (Qmake 725 100)) /\
  (exists l rest,
     fst (get_completed_dispatches (world nine [ok dispatches_body]) 10
            uk_ready) = inr l /\
     map (fun c => print_iso (completed_start c)) l
     = ["2024-01-15T12:00:00+00:00"; "2024-01-14T23:30:00+00:00"] /\
     Permutation (flat_map completed dispatch_rows) (l ++ rest) /\
     rest = []).
Proof.
  assert (Hg : forall limit : Z,
    _graphql (world nine [ok dispatches_body]) GET_COMPLETED_DISPATCHES
      (VDict [("account", account (self uk_ready))]) uk_ready
    = (inr (VDict [("plannedDispatches", VList dispatch_rows);
                   ("completedDispatches", VList dispatch_rows)]),
       snd (get_completed_dispatches (world nine [ok dispatches_body]) limit
              uk_ready))) by (intros limit; vm_compute; reflexivity).
  assert (Hstr : Forall (times_are_str (num := Q)) dispatch_rows).
  { repeat constructor; try (eexists; reflexivity);
      intros v [= <-]; eexists; reflexivity. }
  assert (Hpl : Forall (delta_is_plain (num := Q)) dispatch_rows).
  { unfold dispatch_rows.
    repeat (apply Forall_cons;
            [intros v [= <-];
             solve [left; eexists; reflexivity | right; eexists; reflexivity]
            | ]).
    apply Forall_nil. }
  assert (Hc : comparable (map completed_start
                             (flat_map completed dispatch_rows)) = true)
    by (vm_compute; reflexivity).
  split.
  - destruct (completed_dispatches_newest_first
                (world nine [ok dispatches_body]) 1 uk_ready _ _ dispatch_rows
                (Hg 1) eq_refl) as (_ & _ & H).
    rewrite (H Hstr Hpl Hc). eexists. eexists.
    split; [vm_compute; reflexivity | split; vm_compute; reflexivity].
  - destruct (completed_dispatches_newest_first
                (world nine [ok dispatches_body]) 10 uk_ready _ _ dispatch_rows
                (Hg 10) eq_refl) as (H1 & _ & H3).
    specialize (H3 Hstr Hpl Hc).
    destruct (H1 _ (f_equal fst H3)) as (Hp & _ & rest & Hl & Hn).
    exists (slice_to 10
              (rev (sort_by completed_start
                      (rev (flat_map completed dispatch_rows))))), rest.
    split; [now rewrite H3 | ].
    split; [vm_compute; reflexivity | ].
    split; [now rewrite Hl | ].
    apply Hn; [lia | vm_compute; reflexivity].
Defined.

(** Of three events the one that has ended is left out, and the other
    two come back by start. *)
Lemma saving_sessions_upcoming_only_run :
  exists l,
    fst (get_saving_sessions (world nine [ok sessions_body]) uk_ready) = inr l /\
    map code l = [VStr "EVENT-2"; VStr "EVENT-3"] /\
    Forall (fun x => nine + 1000000 < wall (session_end x)) l /\
    ascending (num := Q) session_start l.
Proof.
  assert (Hl : fst (get_saving_sessions (world nine [ok sessions_body])
                      uk_ready)
               = inr match
                       fst (get_saving_sessions
                              (world nine [ok sessions_body]) uk_ready)
                     with
                     | inr l => l
                     | inl _ => []
                     end) by (vm_compute; reflexivity).
  destruct (saving_sessions_upcoming_only (world nine [ok sessions_body])
              uk_ready _ _ eq_refl _ Hl) as [Hup Hs].
  eexists. split; [exact Hl | ].
  split; [vm_compute; reflexivity | split; [exact Hup | exact Hs]].
Defined.

(** At 09:00 local time, midnight in Greenwich, the dispatch from 23:30
    to 00:30 is under way and the one at noon is next; the clock is read
    a second after the token was checked. *)
Lemma dispatch_status_brackets_now_run :
  exists st,
    fst (get_dispatch_status (world nine [ok dispatches_body]) uk_ready)
    = inr st /\
    is_dispatching st = true /\
    option_map (fun d => print_iso (dispatch_start d)) (current_dispatch st)
    = Some "2024-01-14T23:30:00+00:00" /\
    option_map (fun d => print_iso (dispatch_start d)) (next_dispatch st)
    = Some "2024-01-15T12:00:00+00:00" /\
    (exists d,
       In d (sort_by dispatch_start (flat_map planned dispatch_rows)) /\
       covers d (nine + 1000000 - local_offset)).
Proof.
  assert (Hd : get_dispatches (world nine [ok dispatches_body]) uk_ready
               = (inr (sort_by dispatch_start
                         (flat_map planned dispatch_rows)),
                  snd (get_dispatches (world nine [ok dispatches_body])
                         uk_ready)))
    by (vm_compute; reflexivity).
  assert (Hst : fst (get_dispatch_status (world nine [ok dispatches_body])
                       uk_ready)
                = inr match
                        fst (get_dispatch_status
                               (world nine [ok dispatches_body]) uk_ready)
                      with
                      | inr st => st
                      | inl _ => mk_DispatchStatus false None None
                      end) by (vm_compute; reflexivity).
  destruct (proj2 (dispatch_status_brackets_now (ZL := Q_zones)
                     (world nine [ok dispatches_body]) uk_ready _ _ Hd)
              _ Hst) as [Hdis _].
  eexists. split; [exact Hst | ].
  split; [vm_compute; reflexivity | ].
  split; [vm_compute; reflexivity | ].
  split; [vm_compute; reflexivity | ].
  apply (proj1 Hdis). vm_compute. reflexivity.
Defined.

(** A reply without an account names no device; of the devices of two
    properties, the first that has a name is found. *)
Lemma discovered_device_is_named_run :
  _discover_meter_device (world nine [ok viewer_body]) uk_ready
  = (inr None, snd (_discover_meter_device (world nine [ok viewer_body])
                      uk_ready)) /\
  fst (_discover_meter_device (world nine [ok devices_body]) uk_ready)
  = inr (Some (VStr "00-11-22-33")).
Proof.
  split.
  - apply (proj1 (proj2 (proj2 (discovered_device_is_named
                                  (world nine [ok viewer_body]) uk_ready)
                           _ _ eq_refl))).
    left. reflexivity.
  - assert (Ht : devices_tree (num := Q) device_properties).
    { unfold device_properties.
      repeat first [ apply Forall_nil
                   | apply Forall_cons
                   | split
                   | (eexists; split; [reflexivity | ];
                      intros v [= <-]; eexists; reflexivity)
                   | (eexists; split; [reflexivity | ]; intros v; discriminate)
                   | (eexists; reflexivity) ]. }
    rewrite (proj2 (proj2 (proj2 (discovered_device_is_named
                                    (world nine [ok devices_body]) uk_ready)
                             _ (snd (_discover_meter_device
                                       (world nine [ok devices_body]) uk_ready))
                             eq_refl))
               (VDict [("properties", VList device_properties)])
               device_properties eq_refl eq_refl Ht).
    reflexivity.
Defined.

(** The refresh token of the reply is kept, and used for the next
    request. *)
Lemma refresh_token_follows_reply_run :
  let s1 := snd (_get_token (world nine [ok token_body])
                   (start_of japan_client)) in
  _refresh_token (self s1) = VStr "ref-1" /\
  token_request (self s1)
  = inr (POST "https://api.oejp-kraken.energy/v1/graphql/" []
           (VDict [("query", VStr OBTAIN_TOKEN_JAPAN);
                   ("variables",
                    VDict [("input",
                            VDict [("refreshToken", VStr "ref-1")])])])).
Proof.
  intros s1.
  destruct (refresh_token_follows_reply (world nine [ok token_body])
              (start_of japan_client) s1 (VStr "tok-1") I eq_refl eq_refl)
    as (req & resp & data & d & kv & _ & _ & _ & _ & _ & _ & _ & Hnext).
  split; [reflexivity | exact (Hnext eq_refl eq_refl)].
Defined.

(** A login cached at 09:00 is good until 09:55. *)
Lemma token_reused_for_55_minutes_run :
  let W := world nine [ok token_body] in
  let s1 := snd (_get_token W (start_of japan_client)) in
  _token_expires (self s1)
  = Some {| wall := nine + 3300000000; utcoffset := None |} /\
  _get_token W s1 = (inr (VStr "tok-1"), tick s1).
Proof.
  intros W s1.
  destruct (token_reused_for_55_minutes W (start_of japan_client) s1
              (VStr "tok-1") I eq_refl eq_refl) as [He Hs2].
  split; [exact He | ].
  apply (proj1 (Hs2 s1 eq_refl eq_refl)); [reflexivity | ].
  vm_compute. reflexivity.
Defined.


(** Every request of a first call of [get_account] goes to the Japan
    endpoint. *)
Example get_account_requests_values :
  map (fun r => match r with
                | POST u _ _ => u
                | GET u _ _ => u
                end)
    (sent (snd (perform
                  (world nine [ok token_body; ok viewer_body; ok account_body])
                  GetAccount (start_of japan_client))))
  = [ "https://api.oejp-kraken.energy/v1/graphql/";
      "https://api.oejp-kraken.energy/v1/graphql/";
      "https://api.oejp-kraken.energy/v1/graphql/" ].
Proof. vm_compute. reflexivity. Qed.

(** The command line logs in to Japan with the API key as email. *)
Lemma cli_client_binds_by_position_run :
  exists c : OctopusClient Q,
    get_client shell = ([], inr c) /\
    region c = "japan" /\ email c = Some "sk_live_x" /\
    password c = Some "A-1234" /\ api_key c = None /\ account c = VNone.
Proof.
  destruct (proj2 (cli_client_binds_by_position (num := Q) shell)
              "sk_live_x" "A-1234" eq_refl eq_refl eq_refl eq_refl)
    as (c & Hc & Hr & _ & He & Hp & Hk & Ha & _).
  exists c. repeat split; assumption.
Defined.

(** An hour and a half, and fifty-nine seconds. *)
Lemma format_time_delta_minutes_run :
  format_time_delta 5400 = "1h 30m" /\ format_time_delta 59 = "0m" /\
  format_time_delta 0 = "now" /\
  format_time_delta 5400 = format_time_delta 5459.
Proof.
  pose proof (format_time_delta_minutes 5400 5459) as (_ & H1 & H2).
  pose proof (format_time_delta_minutes 59 59) as (_ & H3 & _).
  pose proof (format_time_delta_minutes 0 0) as (H4 & _).
  split; [exact (H1 eq_refl) | ].
  split; [exact (H3 eq_refl) | ].
  split; [apply H4; lia | ].
  apply H2. right. repeat split; reflexivity.
Defined.

(** Of two half hours of telemetry the later one is the live power. *)
Example live_power_values :
  match fst (get_live_power (world nine [ok telemetry_body]) (VStr "dev-1")
               uk_ready) with
  | inr (Some p) =>
      Some (demand_watts p, print_iso (read_at p), consumption_kwh p)
  | _ => None
  end
  = Some (VNum (inject_Z 450), "2024-01-15T09:00:00+00:00", VStr "0.1").
Proof. vm_compute. reflexivity. Qed.

(** The same run, by the theorem. *)
Lemma live_power_reads_latest_run :
  exists at_ s2,
    get_live_power (world nine [ok telemetry_body]) (VStr "dev-1") uk_ready
    = (inr (Some (mk_LivePower (VNum (inject_Z 450)) at_ (VStr "0.1"))), s2) /\
    print_iso at_ = "2024-01-15T09:00:00+00:00".
Proof.
  pose proof (proj2 (proj2 (live_power_reads_latest
                              (world nine [ok telemetry_body]) (VStr "dev-1")
                              uk_ready)) eq_refl
                (VDict [("smartMeterTelemetry", VList telemetry_rows)])
                (snd (get_live_power (world nine [ok telemetry_body])
                        (VStr "dev-1") uk_ready))) as H.
  destruct H as [_ H]; [vm_compute; reflexivity | ].
  destruct (H [VDict [("readAt", VStr "2024-01-15T08:30:00Z");
                      ("demand", VStr "812"); ("consumption", VStr "0.2")]]
              (VDict [("readAt", VStr "2024-01-15T09:00:00Z");
                      ("demand", VStr "450"); ("consumption", VStr "0.1")])
              (VStr "450") (VNum (inject_Z 450)) eq_refl eq_refl eq_refl)
    as (_ & _ & H3).
  exists {| wall := nine; utcoffset := Some 0 |}. eexists.
  split; [exact (H3 _ _ _ eq_refl eq_refl eq_refl) | reflexivity].
Defined.

(** After a login and a query that the server refuses, the cache test
    finds the token of the login. *)
Lemma cache_test_never_raises_run :
  fst (token_is_fresh (world nine [ok token_body; ok errors_body])
         (session (world nine [ok token_body; ok errors_body])
            [GetToken; GetDispatches] (start_of japan_client)))
  = inr true.
Proof.
  refine (eq_trans
            (proj2 (cache_test_never_raises
                      (world nine [ok token_body; ok errors_body])
                      (Some "user@example.com") (Some "secret") None None
                      "japan" None None None None
                      [GetToken; GetDispatches] 0 0 [])) _).
  vm_compute. reflexivity.
Defined.

(** The three requests of a first [get_account], by the theorem. *)
Lemma requests_go_to_the_api_run :
  exists new,
    sent (snd (perform
                 (world nine [ok token_body; ok viewer_body; ok account_body])
                 GetAccount (start_of japan_client))) = new /\
    List.length new = 3%nat /\
    Forall (fun r => match r with
                     | POST u _ _ =>
                         u = "https://api.oejp-kraken.energy/v1/graphql/"
                     | GET u _ a =>
                         is_prefix "https://api.octopus.energy/v1" u = true /\
                         a = (None, "")
                     end) new.
Proof.
  destruct (requests_go_to_the_api
              (world nine [ok token_body; ok viewer_body; ok account_body])
              GetAccount (start_of japan_client)) as (new & Hs & Hall).
  exists new. rewrite Hs, app_nil_r. split; [reflexivity | ].
  split.
  - apply (f_equal (@List.length _)) in Hs. rewrite app_nil_r in Hs.
    rewrite <- Hs. vm_compute. reflexivity.
  - exact Hall.
Defined.

(** * The totals, in floats *)

Section FloatTotals.
Import PrimFloat.
#[local] Existing Instance Binary64.FloatNum.
#[local] Existing Instance Binary64.FloatLib.


End FloatTotals.
